(** * dax_apdb: the Cassandra storage engine of the alert production database

    A shallow embedding of [python/lsst/dax/apdb/apdbCassandra.py] and
    [python/lsst/dax/apdb/apdbCassandraSchema.py], and the properties of the
    time partitioning, the schema creation, the read path and the ingest
    path that the specification states.

    Conventions of the embedding.
    - Python [int] is [Z]; a finite Python [float] is a rational [Q] and its
      arithmetic is exact (rounding of the float operations is not
      modelled).
    - An exception is a value of [PyError]; code that can raise returns a
      [PyResult], and code that also touches the driver session or a data
      frame runs in the monad [Py].
    - Data frames handed to [store] are objects of a heap and are passed by
      reference, as in Python.
    - The spherical geometry library, the cluster behind the driver and
      [DateTime.toPython] are outside the repository; they are the fields
      of the class [External]. *)

From Stdlib Require Import ZArith QArith Qround Lia Lqa Ascii String.
From stdpp Require Import base option list gmap strings pretty.

Open Scope Z_scope.

(** ** Python values and exceptions *)

(** The values a cell of a data frame, a dictionary key or a statement
    parameter can hold.  [VNaN] stands for the non-finite floats,
    [VTimestamp] for [pandas.Timestamp] and [VDatetime] for
    [datetime.datetime], both in microseconds since 1970-01-01. *)
Inductive Value :=
| VNone
| VInt (z : Z)
| VFloat (q : Q)
| VNaN
| VStr (s : string)
| VTimestamp (us : Z)
| VDatetime (us : Z).

Inductive PyError :=
| TypeError (msg : string)
| ValueError (msg : string)
| KeyError (key : Value)
| AttributeError (attr : string)
| ZeroDivisionError
| OverflowError
| DriverError (code : Z).

Inductive PyResult (A : Type) :=
| Ok (a : A)
| Raise (e : PyError).
Arguments Ok {A} a.
Arguments Raise {A} e.

Definition res_bind {A B} (r : PyResult A) (k : A -> PyResult B) : PyResult B :=
  match r with
  | Ok a => k a
  | Raise e => Raise e
  end.

Declare Scope py_scope.
Delimit Scope py_scope with py.
Notation "x <~ c ;; k" := (res_bind c (fun x => k))
  (at level 100, c at next level, right associativity) : py_scope.
Open Scope py_scope.

(** [for x in xs: ... f(x) ...] collecting the results, stopping at the
    first exception. *)
Fixpoint res_mapM {A B} (f : A -> PyResult B) (xs : list A) : PyResult (list B) :=
  match xs with
  | [] => Ok []
  | x :: xs' => y <~ f x ;; ys <~ res_mapM f xs' ;; Ok (y :: ys)
  end.

(** [int(x)] of a float: rounds toward zero. *)
Definition py_int_of_float (x : Q) : Z := Z.quot (Qnum x) (Z.pos (Qden x)).

(** [a // b] on integers: floor division, [ZeroDivisionError] on [b = 0]. *)
Definition py_floordiv (a b : Z) : PyResult Z :=
  if b =? 0 then Raise ZeroDivisionError else Ok (a / b).

(** ** lsst.daf.base.DateTime

    A [DateTime] holds nanoseconds since 1970-01-01T00:00:00 in TAI;
    [get(system=MJD)] (scale TAI) is [nsecs / NSEC_PER_DAY + 40587.0]. *)

Record DateTime := { nsecs : Z }.

Definition NSEC_PER_DAY : Z := 86400 * 1000000000.
Definition EPOCH_IN_MJD : Q := inject_Z 40587.

Definition DateTime_get_MJD (dt : DateTime) : Q :=
  (inject_Z (nsecs dt) / inject_Z NSEC_PER_DAY + EPOCH_IN_MJD)%Q.

(** [DateTime(year, month, day, hr, min, sec, TAI)]: the civil date is read
    on the proleptic Gregorian calendar. *)
Definition days_from_civil (y m d : Z) : Z :=
  let y' := if m <=? 2 then y - 1 else y in
  let era := y' / 400 in
  let yoe := y' - era * 400 in
  let mp := (m + 9) mod 12 in
  let doy := (153 * mp + 2) / 5 + d - 1 in
  let doe := yoe * 365 + yoe / 4 - yoe / 100 + doy in
  era * 146097 + doe - 719468.

Definition DateTime_of_civil (y m d hr mi sec : Z) : DateTime :=
  {| nsecs := (days_from_civil y m d * 86400 + hr * 3600 + mi * 60 + sec)
              * 1000000000 |}.

(** [DateTime(iso, TAI)] for a string [yyyy-mm-ddThh:mm:ss]. *)
Definition digit_of_ascii (c : ascii) : option Z :=
  let n := Z.of_nat (nat_of_ascii c) in
  if (48 <=? n) && (n <=? 57) then Some (n - 48) else None.

Fixpoint digits_value (acc : Z) (cs : list ascii) : option Z :=
  match cs with
  | [] => Some acc
  | c :: cs' =>
      match digit_of_ascii c with
      | Some d => digits_value (acc * 10 + d) cs'
      | None => None
      end
  end.

Definition field_value (cs : list ascii) (start len : nat) : option Z :=
  let f := take len (drop start cs) in
  if (length f =? len)%nat then digits_value 0 f else None.

Definition sep_at (cs : list ascii) (i : nat) (c : ascii) : bool :=
  match cs !! i with
  | Some c' => Ascii.eqb c c'
  | None => false
  end.

Definition DateTime_of_iso (iso : string) : PyResult DateTime :=
  let cs := list_ascii_of_string iso in
  let seps := sep_at cs 4 "-" && sep_at cs 7 "-" && sep_at cs 10 "T"
              && sep_at cs 13 ":" && sep_at cs 16 ":"
              && (length cs =? 19)%nat in
  match field_value cs 0 4, field_value cs 5 2, field_value cs 8 2,
        field_value cs 11 2, field_value cs 14 2, field_value cs 17 2 with
  | Some y, Some m, Some d, Some hr, Some mi, Some sec =>
      if seps then Ok (DateTime_of_civil y m d hr mi sec)
      else Raise (ValueError "time is not in ISO format")
  | _, _, _, _, _, _ => Raise (ValueError "time is not in ISO format")
  end.

(** ** Configuration ([ApdbCassandraConfig], with the [ApdbConfig] fields
    the Cassandra engine reads) *)

Record ApdbCassandraConfig := {
  keyspace : string;
  read_concurrency : Z;
  prefix : string;
  part_pix_max_ranges : Z;
  ra_dec_columns : list string;
  time_partition_tables : bool;
  time_partition_days : Z;
  time_partition_start : string;
  time_partition_end : string;
  query_per_time_part : bool;
  query_per_spatial_part : bool;
  pandas_delay_conv : bool;
  prepared_statements : bool;
  read_sources_months : Z;
  read_forced_sources_months : Z
}.

(** The defaults of the configuration class. *)
Definition default_config : ApdbCassandraConfig := {|
  keyspace := "apdb";
  read_concurrency := 500;
  prefix := "";
  part_pix_max_ranges := 64;
  ra_dec_columns := ["ra"; "decl"];
  time_partition_tables := true;
  time_partition_days := 30;
  time_partition_start := "2018-12-01T00:00:00";
  time_partition_end := "2030-01-01T00:00:00";
  query_per_time_part := false;
  query_per_spatial_part := false;
  pandas_delay_conv := true;
  prepared_statements := true;
  read_sources_months := 12;
  read_forced_sources_months := 12
|}.

(** ** ApdbCassandra._time_partition *)

(** The argument is [Union[float, DateTime]]. *)
Inductive TimeArg :=
| TimeMJD (mjd : Q)
| TimeDateTime (dt : DateTime).

Definition mjd_of (time : TimeArg) : Q :=
  match time with
  | TimeDateTime dt => DateTime_get_MJD dt
  | TimeMJD mjd => mjd
  end.

(** [partition_zero_epoch = DateTime(1970, 1, 1, 0, 0, 0, TAI)]. *)
Definition partition_zero_epoch : DateTime := DateTime_of_civil 1970 1 1 0 0 0.
Definition _partition_zero_epoch_mjd : Q := DateTime_get_MJD partition_zero_epoch.

Definition _time_partition (config : ApdbCassandraConfig) (time : TimeArg)
  : PyResult Z :=
  let mjd := mjd_of time in
  let days_since_epoch := (mjd - _partition_zero_epoch_mjd)%Q in
  py_floordiv (py_int_of_float days_since_epoch) (time_partition_days config).

(** The partition number the specification gives:
    [floor((mjd(time) - epoch_mjd) / time_partition_days)]. *)
Definition spec_time_partition (config : ApdbCassandraConfig) (time : TimeArg)
  : Z :=
  Qfloor ((mjd_of time - _partition_zero_epoch_mjd)
          / inject_Z (time_partition_days config)).


(** ** Values: numbers, equality, conversions *)

Definition as_number (v : Value) : option Q :=
  match v with
  | VInt z => Some (inject_Z z)
  | VFloat q => Some q
  | _ => None
  end.

(** Python [==] on cell values; a non-finite float is equal to nothing. *)
Definition py_eq (a b : Value) : bool :=
  match a, b with
  | VNone, VNone => true
  | VStr s, VStr t => bool_decide (s = t)
  | (VTimestamp x | VDatetime x), (VTimestamp y | VDatetime y) => x =? y
  | _, _ =>
      match as_number a, as_number b with
      | Some x, Some y => Qeq_bool x y
      | _, _ => false
      end
  end.

(** A [dict] with cell values as keys, in insertion order; a later entry
    for an equal key replaces the value of the earlier one. *)
Definition PyDict := list (Value * Value).

Fixpoint py_dict_lookup (d : PyDict) (k : Value) : option Value :=
  match d with
  | [] => None
  | (k', v) :: d' =>
      match py_dict_lookup d' k with
      | Some v' => Some v'
      | None => if py_eq k' k then Some v else None
      end
  end.

Definition py_dict_getitem (d : PyDict) (k : Value) : PyResult Value :=
  match py_dict_lookup d k with
  | Some v => Ok v
  | None => Raise (KeyError k)
  end.

(** Storing a value in an element of a [numpy.int64] array. *)
Definition int64_min : Z := - 2 ^ 63.
Definition int64_max : Z := 2 ^ 63 - 1.

Definition np_int64_of (v : Value) : PyResult Z :=
  match v with
  | VInt z =>
      if (int64_min <=? z) && (z <=? int64_max) then Ok z else Raise OverflowError
  | VFloat q => Ok (py_int_of_float q)
  | VNaN => Raise (ValueError "cannot convert float NaN to integer")
  | _ => Raise (TypeError "int() argument must be a number")
  end.

(** ** pandas.DataFrame

    A frame is its column names, in order, and its rows; a row maps a
    column name to the cell. *)

Record DataFrame := {
  columns : list string;
  rows : list (gmap string Value)
}.

Definition cell (row : gmap string Value) (col : string) : Value :=
  default VNone (row !! col).

(** [df.shape[0]] *)
Definition shape0 (df : DataFrame) : nat := length (rows df).

(** [df[col]] *)
Definition df_getitem (df : DataFrame) (col : string) : PyResult (list Value) :=
  if bool_decide (col ∈ columns df)
  then Ok ((fun row => cell row col) <$> rows df)
  else Raise (KeyError (VStr col)).

(** [df[col] = values]: an existing column is overwritten in place, a new
    one is appended. *)
Definition df_setitem (df : DataFrame) (col : string) (values : list Value)
  : PyResult DataFrame :=
  if (length values =? shape0 df)%nat then
    Ok {| columns := if bool_decide (col ∈ columns df) then columns df
                     else columns df ++ [col];
          rows := zip_with (fun row v => <[col := v]> row) (rows df) values |}
  else Raise (ValueError "Length of values does not match length of index").

(** [pandas.DataFrame.from_records(rows, columns=colnames)] *)
Definition row_of_record (colnames : list string) (record : list Value)
  : gmap string Value :=
  list_to_map (zip colnames record).

Definition _rows_to_pandas (colnames : list string)
  (records : list (gmap string Value)) : DataFrame :=
  {| columns := colnames; rows := records |}.

(** [df[mask]] with the mask computed row by row. *)
Definition df_filter (keep : gmap string Value -> bool) (df : DataFrame)
  : DataFrame :=
  {| columns := columns df; rows := List.filter keep (rows df) |}.

(** The keys of a dictionary built by a comprehension, in insertion order. *)
Fixpoint dict_keys (names : list string) (seen : list string) : list string :=
  match names with
  | [] => []
  | n :: names' =>
      if bool_decide (n ∈ seen) then dict_keys names' seen
      else n :: dict_keys names' (n :: seen)
  end.

(** [pandas.concat(frames)]: the union of the columns in order of first
    appearance, a missing cell is NaN; no frames at all is an error. *)
Definition fill_missing (cols : list string) (row : gmap string Value)
  : gmap string Value :=
  foldr (fun c r => match r !! c with Some _ => r | None => <[c := VNaN]> r end)
        row cols.

Definition pandas_concat (frames : list DataFrame) : PyResult DataFrame :=
  match frames with
  | [] => Raise (ValueError "No objects to concatenate")
  | _ =>
      let cols := dict_keys (concat (columns <$> frames)) [] in
      Ok {| columns := cols;
            rows := fill_missing cols <$> concat (rows <$> frames) |}
  end.

(** ** CQL statements and the driver session

    A statement is kept in structured form; [cql_text] gives the text the
    source builds for it. *)

Inductive SpatialWhere :=
| ApdbPartEq (pixel : Z)
| ApdbPartIn (pixels : list Z).

Inductive TemporalWhere :=
| TimePartEq (time_part : Z)
| TimePartIn (time_parts : list Z).

Record InsertInto := {
  ins_keyspace : string;
  ins_table : string;
  ins_qfields : list string;
  ins_holders : list string
}.

Inductive Statement :=
| DropTable (table_name : string)
| CreateTable (if_not_exists : bool) (table_name : string)
    (column_defs : list string)
| Select (sel_keyspace sel_table : string) (spatial : SpatialWhere)
    (temporal : option TemporalWhere)
| Prepare (query : InsertInto)
| BatchStatement (inserts : list (InsertInto * list Value)).

Definition str_Z (z : Z) : string := pretty z.

(** The double quote character, and a name between double quotes. *)
Definition dquote : string := String (ascii_of_nat 34) EmptyString.
Definition quoted (s : string) : string := dquote +:+ s +:+ dquote.

Definition spatial_text (w : SpatialWhere) : string :=
  match w with
  | ApdbPartEq pixel => quoted "apdb_part" +:+ " = " +:+ str_Z pixel
  | ApdbPartIn pixels =>
      quoted "apdb_part" +:+ " IN ("
      +:+ String.concat "," (str_Z <$> pixels) +:+ ")"
  end.

Definition temporal_text (w : TemporalWhere) : string :=
  match w with
  | TimePartEq time_part => quoted "apdb_time_part" +:+ " = " +:+ str_Z time_part
  | TimePartIn time_parts =>
      quoted "apdb_time_part" +:+ " IN ("
      +:+ String.concat "," (str_Z <$> time_parts) +:+ ")"
  end.

Definition insert_text (q : InsertInto) : string :=
  "INSERT INTO " +:+ quoted (ins_keyspace q) +:+ "." +:+ quoted (ins_table q)
  +:+ " (" +:+ String.concat "," (ins_qfields q) +:+ ") VALUES ("
  +:+ String.concat "," (ins_holders q) +:+ ")".

Definition cql_text (st : Statement) : list string :=
  match st with
  | DropTable table_name => ["DROP TABLE IF EXISTS " +:+ quoted table_name]
  | CreateTable if_not_exists table_name column_defs =>
      ["CREATE TABLE " +:+ (if if_not_exists then "IF NOT EXISTS " else "")
       +:+ quoted table_name +:+ " (" +:+ String.concat ", " column_defs +:+ ")"]
  | Select ks table spatial temporal =>
      ["SELECT * from " +:+ quoted ks +:+ "." +:+ quoted table +:+ " WHERE "
       +:+ spatial_text spatial
       +:+ match temporal with
           | Some t => " AND " +:+ temporal_text t
           | None => ""
           end]
  | Prepare query => [insert_text query]
  | BatchStatement inserts => (fun i => insert_text i.1) <$> inserts
  end.

(** The answer of the cluster to one query of a concurrent read:
    [(success, result)], the result being the column names and the rows, or
    the exception. *)
Inductive QueryResult :=
| QuerySuccess (colnames : list string) (records : list (gmap string Value))
| QueryFailure (e : PyError).

(** What lies outside the repository: the pixelization of [lsst.sphgeom]
    selected by the configuration, [DateTime.toPython], and the answers of
    the Cassandra cluster behind the driver session. *)
Class External := {
  Region : Type;
  (** [pixelator.index(UnitVector3d(LonLat.fromDegrees(ra, dec)))] *)
  pixelator_index : Q -> Q -> Z;
  (** [pixelator.envelope(region, maxRanges)], as half-open ranges *)
  pixelator_envelope : Region -> Z -> list (Z * Z);
  (** [DateTime.toPython()], in microseconds since 1970-01-01 *)
  DateTime_toPython : DateTime -> Z;
  (** the outcome of a schema or write statement: [None] is success *)
  cluster_execute : Statement -> option PyError;
  (** the outcome of a read statement *)
  cluster_select : Statement -> QueryResult
}.

(** ** State of a call: the data frames of the caller and of the engine,
    the statements sent to the session so far, and the results of the
    running concurrent read that have not been consumed. *)

Record State := {
  heap : list DataFrame;
  sent : list Statement;
  pending : list QueryResult
}.

Definition Py (A : Type) : Type := State -> PyResult A * State.

Definition py_ret {A} (a : A) : Py A := fun s => (Ok a, s).
Definition py_raise {A} (e : PyError) : Py A := fun s => (Raise e, s).
Definition py_lift {A} (r : PyResult A) : Py A := fun s => (r, s).
Definition py_bind {A B} (c : Py A) (k : A -> Py B) : Py B :=
  fun s =>
    match c s with
    | (Ok a, s') => k a s'
    | (Raise e, s') => (Raise e, s')
    end.

Notation "x <- c ;; k" := (py_bind c (fun x => k))
  (at level 100, c at next level, right associativity) : py_scope.
Notation "c ;;; k" := (py_bind c (fun _ => k))
  (at level 100, right associativity) : py_scope.

(** A reference to a data frame object. *)
Definition Ref := nat.

Definition df_deref (r : Ref) : Py DataFrame :=
  fun s =>
    match heap s !! r with
    | Some df => (Ok df, s)
    | None => (Raise (TypeError "not a DataFrame"), s)
    end.

(** [DataFrame(...)]: a new object. *)
Definition df_new (df : DataFrame) : Py Ref :=
  fun s =>
    (Ok (length (heap s)),
     {| heap := heap s ++ [df]; sent := sent s; pending := pending s |}).

(** [df.copy()] *)
Definition df_copy (r : Ref) : Py Ref :=
  df <- df_deref r ;; df_new df.

(** [df[col] = values] on the object behind the reference. *)
Definition df_setitem_ref (r : Ref) (col : string) (values : list Value)
  : Py unit :=
  df <- df_deref r ;;
  df' <- py_lift (df_setitem df col values) ;;
  fun s =>
    (Ok tt,
     {| heap := <[r := df']> (heap s); sent := sent s; pending := pending s |}).

(** [session.execute_async(query)] for each query, then [future.result()]
    for each future in turn. *)
Fixpoint first_error `{External} (queries : list Statement) : option PyError :=
  match queries with
  | [] => None
  | q :: queries' =>
      match cluster_execute q with
      | Some e => Some e
      | None => first_error queries'
      end
  end.

Definition session_execute_all `{External} (queries : list Statement) : Py unit :=
  fun s =>
    let s' := {| heap := heap s; sent := sent s ++ queries;
                 pending := pending s |} in
    match first_error queries with
    | Some e => (Raise e, s')
    | None => (Ok tt, s')
    end.

(** [session.prepare(query)] and [session.execute(statement)]. *)
Definition session_execute `{External} (st : Statement) : Py unit :=
  session_execute_all [st].

(** ** Schema definitions (apdbSchema.py) *)

Module ColumnDef.
Record t := { name : string; type : string; nullable : bool }.
End ColumnDef.

Module IndexDef.
Record t := { name : string; type : string; columns : list string }.
End IndexDef.

Module TableDef.
Record t := {
  name : string;
  columns : list ColumnDef.t;
  indices : list IndexDef.t
}.
End TableDef.

(** The enumeration of the APDB tables; a table is known to the schema by
    the name of the member. *)
Inductive ApdbTables :=
| DiaObject
| DiaObjectLast
| DiaSource
| DiaForcedSource
| SSObject.

Definition ApdbTables_name (table : ApdbTables) : string :=
  match table with
  | DiaObject => "DiaObject"
  | DiaObjectLast => "DiaObjectLast"
  | DiaSource => "DiaSource"
  | DiaForcedSource => "DiaForcedSource"
  | SSObject => "SSObject"
  end.

(** A dictionary with string keys, in insertion order. *)
Fixpoint assoc_lookup {A} (d : list (string * A)) (k : string) : option A :=
  match d with
  | [] => None
  | (k', v) :: d' => if bool_decide (k' = k) then Some v else assoc_lookup d' k
  end.

Definition assoc_getitem {A} (d : list (string * A)) (k : string) : PyResult A :=
  match assoc_lookup d k with
  | Some v => Ok v
  | None => Raise (KeyError (VStr k))
  end.

(** ** ApdbCassandraSchema (apdbCassandraSchema.py) *)

Definition SECONDS_IN_DAY : Z := 24 * 3600.

Record ApdbCassandraSchema := {
  _prefix : string;
  _time_partition_tables : bool;
  _time_partition_days : Z;
  _packing : string;
  tableSchemas : list (string * TableDef.t)
}.

Definition visitTableName (self : ApdbCassandraSchema) : string :=
  _prefix self +:+ "ApdbProtoVisits".

Definition _type_map : list (string * string) :=
  [("DOUBLE", "DOUBLE"); ("FLOAT", "FLOAT"); ("DATETIME", "TIMESTAMP");
   ("BIGINT", "BIGINT"); ("INTEGER", "INT"); ("INT", "INT");
   ("TINYINT", "TINYINT"); ("BLOB", "BLOB"); ("CHAR", "TEXT");
   ("BOOL", "BOOLEAN")].

Definition tableName (self : ApdbCassandraSchema) (table_name : string) : string :=
  _prefix self +:+ table_name.

(** The columns of the first index of the given type, [[]] without one. *)
Fixpoint index_columns_of (type : string) (indices : list IndexDef.t)
  : list string :=
  match indices with
  | [] => []
  | index :: indices' =>
      if bool_decide (IndexDef.type index = type) then IndexDef.columns index
      else index_columns_of type indices'
  end.

Definition partitionColumns (self : ApdbCassandraSchema) (table_name : string)
  : PyResult (list string) :=
  table_schema <~ assoc_getitem (tableSchemas self) table_name ;;
  Ok (index_columns_of "PARTITION" (TableDef.indices table_schema)).

(** Modelled from the spec: [clusteringColumns] is called by the ingest path
    and is not defined by the schema class under src; the columns forming
    the primary key portion, derived from the [PRIMARY] index entry. *)
Definition clusteringColumns (self : ApdbCassandraSchema) (table_name : string)
  : PyResult (list string) :=
  table_schema <~ assoc_getitem (tableSchemas self) table_name ;;
  Ok (index_columns_of "PRIMARY" (TableDef.indices table_schema)).

(** [getColumnMap] (apdbSchema.py): column name to column definition; of two
    columns of one name the later one is kept, so the later one comes first
    in the association list. *)
Definition getColumnMap (self : ApdbCassandraSchema) (table_name : string)
  : PyResult (list (string * ColumnDef.t)) :=
  table <~ assoc_getitem (tableSchemas self) table_name ;;
  Ok ((fun column => (ColumnDef.name column, column))
      <$> reverse (TableDef.columns table)).

(** The loop over the indices of [_tableColumns]: the last [PARTITION] and
    the last [PRIMARY] index win, every index adds its columns. *)
Fixpoint scan_indices (indices : list IndexDef.t)
  (part_columns clust_columns index_columns : list string)
  : list string * list string * list string :=
  match indices with
  | [] => (part_columns, clust_columns, index_columns)
  | index :: indices' =>
      let part_columns' :=
        if bool_decide (IndexDef.type index = "PARTITION")
        then IndexDef.columns index else part_columns in
      let clust_columns' :=
        if bool_decide (IndexDef.type index = "PARTITION") then clust_columns
        else if bool_decide (IndexDef.type index = "PRIMARY")
        then IndexDef.columns index else clust_columns in
      scan_indices indices' part_columns' clust_columns'
        (index_columns ++ IndexDef.columns index)
  end.

Definition _tableColumns (self : ApdbCassandraSchema) (table_name : string)
  : PyResult (list string) :=
  if bool_decide (table_name = "ApdbProtoVisits") then
    Ok [quoted "apdb_part" +:+ " INT";
        quoted "visitId" +:+ " INT";
        quoted "visitTime" +:+ " TIMESTAMP";
        quoted "lastObjectId" +:+ " BIGINT";
        quoted "lastSourceId" +:+ " BIGINT";
        "PRIMARY KEY (" +:+ quoted "apdb_part" +:+ ", " +:+ quoted "visitId"
        +:+ ")"]
  else
    table_schema <~ assoc_getitem (tableSchemas self) table_name ;;
    let '(part_columns, clust_columns, index_columns) :=
      scan_indices (TableDef.indices table_schema) [] [] [] in
    if bool_decide (part_columns = []) then
      Raise (ValueError "Table configuration is missing partition index")
    else if bool_decide (clust_columns = []) then
      Raise (ValueError "Table configuration is missing primary index")
    else
      let packed := negb (bool_decide (_packing self = "none")) in
      column_defs <~
        res_mapM (fun column =>
                    ctype <~ assoc_getitem _type_map (ColumnDef.type column) ;;
                    Ok (quoted (ColumnDef.name column) +:+ " " +:+ ctype))
          (List.filter
             (fun column =>
                negb (packed
                      && negb (bool_decide (ColumnDef.name column ∈ index_columns))))
             (TableDef.columns table_schema)) ;;
      let column_defs :=
        if packed then column_defs ++ [quoted "apdb_packed" +:+ " blob"]
        else column_defs in
      let part_columns := quoted <$> part_columns in
      let clust_columns := quoted <$> clust_columns in
      let part_columns :=
        if (1 <? length part_columns)%nat
        then ["(" +:+ String.concat ", " part_columns +:+ ")"]
        else part_columns in
      let pkey := part_columns ++ clust_columns in
      Ok (column_defs ++ ["PRIMARY KEY (" +:+ String.concat ", " pkey +:+ ")"]).

(** [for x in xs: body(x)] *)
Fixpoint py_for {A} (xs : list A) (body : A -> Py unit) : Py unit :=
  match xs with
  | [] => py_ret tt
  | x :: xs' => body x ;;; py_for xs' body
  end.

(** The names of the per-partition tables of [makeSchema]; the range of
    partitions is computed from the first of January 2020. *)
Definition partition_table_list (self : ApdbCassandraSchema) (fullTable : string)
  : PyResult (list string) :=
  let seconds0 := days_from_civil 2020 1 1 * SECONDS_IN_DAY in
  let seconds1 := seconds0 + 24 * 30 * SECONDS_IN_DAY in
  let seconds0 := seconds0 - 13 * 30 * SECONDS_IN_DAY in
  part0 <~ py_floordiv seconds0 (_time_partition_days self * SECONDS_IN_DAY) ;;
  part1 <~ py_floordiv seconds1 (_time_partition_days self * SECONDS_IN_DAY) ;;
  let partitions := seqZ part0 (part1 + 1 - part0) in
  Ok ((fun part => fullTable +:+ "_" +:+ str_Z part) <$> partitions).

Definition makeSchema_table `{External} (self : ApdbCassandraSchema)
  (drop : bool) (table : string) : Py unit :=
  let fullTable := tableName self table in
  table_list <-
    py_lift (if _time_partition_tables self
                && bool_decide (table ∈ ["DiaSource"; "DiaForcedSource"])
             then partition_table_list self fullTable
             else Ok [fullTable]) ;;
  (if drop then session_execute_all (DropTable <$> table_list) else py_ret tt) ;;;
  queries <-
    py_lift (res_mapM (fun table_name =>
                         column_defs <~ _tableColumns self table ;;
                         Ok (CreateTable (negb drop) table_name column_defs))
               table_list) ;;
  session_execute_all queries.

(** The body of [ApdbCassandraSchema.makeSchema(self, drop=False)]. *)
Definition makeSchema_body `{External} (self : ApdbCassandraSchema) (drop : bool)
  : Py unit :=
  let tables := (fst <$> tableSchemas self) ++ [visitTableName self] in
  py_for tables (makeSchema_table self drop).

(** A call with keyword arguments: a keyword that names no parameter of the
    method is a [TypeError], raised before the body runs. *)
Inductive PyArg :=
| ArgBool (b : bool)
| ArgTuple (items : list Z).

Definition arg_truth (a : PyArg) : bool :=
  match a with
  | ArgBool b => b
  | ArgTuple items => negb (bool_decide (items = []))
  end.

Fixpoint bind_keywords (params : list string) (kwargs : list (string * PyArg))
  : PyResult unit :=
  match kwargs with
  | [] => Ok tt
  | (k, _) :: kwargs' =>
      if bool_decide (k ∈ params) then bind_keywords params kwargs'
      else Raise (TypeError ("got an unexpected keyword argument " +:+ k))
  end.

(** [ApdbCassandraSchema.makeSchema], as called with keywords. *)
Definition ApdbCassandraSchema_makeSchema `{External}
  (self : ApdbCassandraSchema) (kwargs : list (string * PyArg)) : Py unit :=
  py_lift (bind_keywords ["drop"] kwargs) ;;;
  let drop := default false (arg_truth <$> assoc_lookup kwargs "drop") in
  makeSchema_body self drop.

(** ** Partitioner *)

(** [Partitioner.pixels]: the finest envelope, every range expanded. *)
Definition pixels `{External} (region : Region) : list Z :=
  let ranges := pixelator_envelope region 1000000 in
  concat ((fun r : Z * Z => seqZ r.1 (r.2 - r.1)) <$> ranges).

(** [Partitioner.pixel] of the direction of [(ra, dec)] in degrees. *)
Definition pixel `{External} (ra dec : Q) : Z := pixelator_index ra dec.

(** ** ApdbCassandra *)

Record ApdbCassandra := {
  config : ApdbCassandraConfig;
  _schema : ApdbCassandraSchema
}.

(** The schema object the constructor builds from the configuration, for
    the table definitions of the schema files. *)
Definition ApdbCassandra_init (config : ApdbCassandraConfig)
  (tables : list (string * TableDef.t)) : ApdbCassandra :=
  {| config := config;
     _schema := {| _prefix := prefix config;
                   _time_partition_tables := time_partition_tables config;
                   _time_partition_days := time_partition_days config;
                   _packing := "none";
                   tableSchemas := tables |} |}.

Definition tableDef (self : ApdbCassandra) (table : ApdbTables)
  : option TableDef.t :=
  assoc_lookup (tableSchemas (_schema self)) (ApdbTables_name table).

Definition makeSchema `{External} (self : ApdbCassandra) (drop : bool) : Py unit :=
  if time_partition_tables (config self) then
    time_partition_start <-
      py_lift (DateTime_of_iso (time_partition_start (config self))) ;;
    time_partition_end <-
      py_lift (DateTime_of_iso (time_partition_end (config self))) ;;
    part_lo <-
      py_lift (_time_partition (config self) (TimeDateTime time_partition_start)) ;;
    part_hi <-
      py_lift (_time_partition (config self) (TimeDateTime time_partition_end)) ;;
    let part_range := [part_lo; part_hi + 1] in
    ApdbCassandraSchema_makeSchema (_schema self)
      [("drop", ArgBool drop); ("part_range", ArgTuple part_range)]
  else
    ApdbCassandraSchema_makeSchema (_schema self) [("drop", ArgBool drop)].

(** *** Reading sources *)

(** [_make_empty_catalog]: a frame with the columns of the table and no
    row. *)
Definition _make_empty_catalog (self : ApdbCassandra) (table_name : ApdbTables)
  : PyResult DataFrame :=
  table <~ assoc_getitem (tableSchemas (_schema self)) (ApdbTables_name table_name) ;;
  let data := dict_keys (ColumnDef.name <$> TableDef.columns table) [] in
  Ok {| columns := data; rows := [] |}.

(** [execute_concurrent(session, statements, results_generator=True,
    raise_on_first_error=False)]: the statements go to the session and the
    generator of the results, in the order of the statements, is left to
    the caller. *)
Definition execute_concurrent `{External} (statements : list Statement) : Py unit :=
  fun s =>
    (Ok tt,
     {| heap := heap s; sent := sent s ++ statements;
        pending := cluster_select <$> statements |}).

(** The loop of [_run_queries] over the generator when the conversion to
    pandas is delayed; it returns with the results it has not consumed.
    [result._current_rows] is read before [success] is looked at, and the
    result of a failed query is the exception, which has no such
    attribute. *)
Fixpoint delayed_loop (results : list QueryResult)
  (columns : option (list string)) (rows : list (gmap string Value))
  : PyResult (option (list string) * list (gmap string Value))
    * list QueryResult :=
  match results with
  | [] => (Ok (columns, rows), [])
  | QueryFailure e :: rest => (Raise (AttributeError "_current_rows"), rest)
  | QuerySuccess colnames records :: rest =>
      match columns with
      | None => delayed_loop rest (Some colnames) (rows ++ records)
      | Some cols =>
          if bool_decide (cols = colnames)
          then delayed_loop rest columns (rows ++ records)
          else (Raise (ValueError "different columns returned by queries"), rest)
      end
  end.

(** The loop of [_run_queries] when every result is a frame already. *)
Fixpoint immediate_loop (results : list QueryResult) (dataframes : list DataFrame)
  : PyResult (list DataFrame) * list QueryResult :=
  match results with
  | [] => (Ok dataframes, [])
  | QuerySuccess colnames records :: rest =>
      immediate_loop rest (dataframes ++ [_rows_to_pandas colnames records])
  | QueryFailure e :: rest => (Raise e, rest)
  end.

(** Running a loop over the generator of the session. *)
Definition consume {A} (loop : list QueryResult -> PyResult A * list QueryResult)
  : Py A :=
  fun s =>
    let '(r, rest) := loop (pending s) in
    (r, {| heap := heap s; sent := sent s; pending := rest |}).

Definition _run_queries `{External} (self : ApdbCassandra)
  (statements : list Statement) : Py DataFrame :=
  execute_concurrent statements ;;;
  if pandas_delay_conv (config self) then
    cr <- consume (fun results => delayed_loop results None []) ;;
    py_ret (_rows_to_pandas (default [] cr.1) cr.2)
  else
    dataframes <- consume (fun results => immediate_loop results []) ;;
    match dataframes with
    | [catalog] => py_ret catalog
    | _ => py_lift (pandas_concat dataframes)
    end.

(** [catalog[col].isin(ids)] and [catalog[col] > x] on one cell of a
    numeric column; a null or non-finite cell satisfies neither. *)
Definition value_isin (ids : gset Z) (v : Value) : bool :=
  match v with
  | VInt z => bool_decide (z ∈ ids)
  | VFloat q => Qeq_bool q (inject_Z (Qfloor q)) && bool_decide (Qfloor q ∈ ids)
  | _ => false
  end.

Definition value_gt (v : Value) (x : Q) : bool :=
  match as_number v with
  | Some q => negb (Qle_bool q x)
  | None => false
  end.

(** The queries of [_getSources]: tables, then spatial, then temporal
    expressions. *)
Definition build_queries (keyspace : string) (tables : list string)
  (spatial_where : list SpatialWhere) (temporal_where : list TemporalWhere)
  : list Statement :=
  flat_map (fun table =>
    flat_map (fun spacial =>
      match temporal_where with
      | [] => [Select keyspace table spacial None]
      | _ => (fun temporal => Select keyspace table spacial (Some temporal))
               <$> temporal_where
      end) spatial_where) tables.

Definition _getSources `{External} (self : ApdbCassandra) (region : Region)
  (object_ids : option (list Z)) (mjd_start mjd_end : Q)
  (table_name : ApdbTables) : Py DataFrame :=
  let object_id_set : gset Z :=
    match object_ids with
    | Some ids => list_to_set ids
    | None => ∅
    end in
  if bool_decide (object_ids ≠ None) && bool_decide (size object_id_set = 0%nat)
  then py_lift (_make_empty_catalog self table_name)
  else
    let pixels := pixels region in
    let spatial_where :=
      if query_per_spatial_part (config self) then ApdbPartEq <$> pixels
      else [ApdbPartIn pixels] in
    let full_name := tableName (_schema self) (ApdbTables_name table_name) in
    time_part_start <- py_lift (_time_partition (config self) (TimeMJD mjd_start)) ;;
    time_part_end <- py_lift (_time_partition (config self) (TimeMJD mjd_end)) ;;
    let time_parts := seqZ time_part_start (time_part_end + 1 - time_part_start) in
    let tables :=
      if time_partition_tables (config self)
      then (fun part => full_name +:+ "_" +:+ str_Z part) <$> time_parts
      else [full_name] in
    let temporal_where :=
      if time_partition_tables (config self) then []
      else if query_per_time_part (config self) then TimePartEq <$> time_parts
      else [TimePartIn time_parts] in
    let queries :=
      build_queries (keyspace (config self)) tables spatial_where temporal_where in
    catalog <- _run_queries self queries ;;
    catalog <-
      (if bool_decide (0 < size object_id_set)%nat then
         _ <- py_lift (df_getitem catalog "diaObjectId") ;;
         py_ret (df_filter (fun row => value_isin object_id_set (cell row "diaObjectId"))
                   catalog)
       else py_ret catalog) ;;
    _ <- py_lift (df_getitem catalog "midPointTai") ;;
    py_ret (df_filter (fun row => value_gt (cell row "midPointTai") mjd_start) catalog).

Definition getDiaSources `{External} (self : ApdbCassandra) (region : Region)
  (object_ids : option (list Z)) (visit_time : DateTime)
  : Py (option DataFrame) :=
  let months := read_sources_months (config self) in
  if months =? 0 then py_ret None
  else
    let mjd_end := DateTime_get_MJD visit_time in
    let mjd_start := (mjd_end - inject_Z (months * 30))%Q in
    catalog <- _getSources self region object_ids mjd_start mjd_end DiaSource ;;
    py_ret (Some catalog).

Definition getDiaForcedSources `{External} (self : ApdbCassandra) (region : Region)
  (object_ids : option (list Z)) (visit_time : DateTime)
  : Py (option DataFrame) :=
  let months := read_forced_sources_months (config self) in
  if months =? 0 then py_ret None
  else
    let mjd_end := DateTime_get_MJD visit_time in
    let mjd_start := (mjd_end - inject_Z (months * 30))%Q in
    catalog <- _getSources self region object_ids mjd_start mjd_end DiaForcedSource ;;
    py_ret (Some catalog).

(** *** Storing a visit *)

(** [a, b = xs] *)
Definition unpack2 {A} (xs : list A) : PyResult (A * A) :=
  match xs with
  | [a; b] => Ok (a, b)
  | _ => Raise (ValueError "wrong number of values to unpack")
  end.

(** The partition index of a record from its own coordinates:
    [pixel(UnitVector3d(LonLat.fromDegrees(ra, dec)))], stored in an element
    of the [int64] array. *)
Definition own_pixel `{External} (ra dec : Value) : PyResult Z :=
  match as_number ra, as_number dec with
  | Some r, Some d => np_int64_of (VInt (pixel r d))
  | _, _ => Raise (TypeError "fromDegrees(): incompatible function arguments")
  end.

(** The array [apdb_part] that [_add_obj_part] fills: the pixel of every
    record. *)
Definition obj_apdb_part `{External} (self : ApdbCassandra) (frame : DataFrame)
  : PyResult (list Z) :=
  cols <~ unpack2 (ra_dec_columns (config self)) ;;
  ras <~ df_getitem frame cols.1 ;;
  decs <~ df_getitem frame cols.2 ;;
  res_mapM (fun rd : Value * Value => own_pixel rd.1 rd.2) (zip ras decs).

Definition _add_obj_part `{External} (self : ApdbCassandra) (df : Ref) : Py Ref :=
  frame <- df_deref df ;;
  apdb_part <- py_lift (obj_apdb_part self frame) ;;
  df <- df_copy df ;;
  df_setitem_ref df "apdb_part" (VInt <$> apdb_part) ;;;
  py_ret df.

(** [pixel_id_map]: the partition of every object of the catalog by its
    identifier. *)
Definition pixel_id_map_of (objs : DataFrame) : PyResult PyDict :=
  obj_ids <~ df_getitem objs "diaObjectId" ;;
  obj_parts <~ df_getitem objs "apdb_part" ;;
  Ok (zip obj_ids obj_parts).

(** The array [apdb_part] that [_add_src_part] fills. *)
Definition src_apdb_part `{External} (self : ApdbCassandra)
  (frame objs : DataFrame) : PyResult (list Z) :=
  pixel_id_map <~ pixel_id_map_of objs ;;
  cols <~ unpack2 (ra_dec_columns (config self)) ;;
  ids <~ df_getitem frame "diaObjectId" ;;
  ras <~ df_getitem frame cols.1 ;;
  decs <~ df_getitem frame cols.2 ;;
  res_mapM
    (fun r : Value * (Value * Value) =>
       let '(diaObjId, (ra, dec)) := r in
       if py_eq diaObjId (VInt 0) then own_pixel ra dec
       else v <~ py_dict_getitem pixel_id_map diaObjId ;; np_int64_of v)
    (zip ids (zip ras decs)).

Definition _add_src_part `{External} (self : ApdbCassandra) (sources objs : Ref)
  : Py Ref :=
  objs_frame <- df_deref objs ;;
  frame <- df_deref sources ;;
  apdb_part <- py_lift (src_apdb_part self frame objs_frame) ;;
  sources <- df_copy sources ;;
  df_setitem_ref sources "apdb_part" (VInt <$> apdb_part) ;;;
  py_ret sources.

(** The array [apdb_part] that [_add_fsrc_part] fills. *)
Definition fsrc_apdb_part (frame objs : DataFrame) : PyResult (list Z) :=
  pixel_id_map <~ pixel_id_map_of objs ;;
  ids <~ df_getitem frame "diaObjectId" ;;
  res_mapM
    (fun diaObjId => v <~ py_dict_getitem pixel_id_map diaObjId ;; np_int64_of v)
    ids.

Definition _add_fsrc_part `{External} (self : ApdbCassandra) (sources objs : Ref)
  : Py Ref :=
  objs_frame <- df_deref objs ;;
  frame <- df_deref sources ;;
  apdb_part <- py_lift (fsrc_apdb_part frame objs_frame) ;;
  sources <- df_copy sources ;;
  df_setitem_ref sources "apdb_part" (VInt <$> apdb_part) ;;;
  py_ret sources.

(** [qValue]: a value as a parameter of a query. *)
Definition qValue (v : Value) : Value :=
  match v with
  | VNone => VNone
  | VTimestamp us | VDatetime us => VInt (Z.quot us 1000000 * 1000)
  | VStr _ => v
  | VNaN => VNone
  | VInt _ | VFloat _ => v
  end.

(** The value of a cell of a [DATETIME] column before [qValue]: a pandas
    timestamp is converted, anything else is taken for seconds and becomes
    [int(value*1000)] (a string is not a number of seconds). *)
Definition datetime_value (value : Value) : PyResult Value :=
  match value with
  | VTimestamp us => Ok (qValue (VDatetime us))
  | VInt z => Ok (VInt (z * 1000))
  | VFloat q => Ok (VInt (py_int_of_float (q * inject_Z 1000)))
  | VNaN => Raise (ValueError "cannot convert float NaN to integer")
  | VStr _ => Raise (ValueError "invalid literal for int()")
  | VNone | VDatetime _ => Raise (TypeError "unsupported operand type(s) for *")
  end.

(** [str.islower] on ASCII names: some lower-case letter, no upper-case
    one. *)
Definition is_upper (c : ascii) : bool :=
  let n := nat_of_ascii c in ((65 <=? n) && (n <=? 90))%nat.
Definition is_lower (c : ascii) : bool :=
  let n := nat_of_ascii c in ((97 <=? n) && (n <=? 122))%nat.
Definition islower (s : string) : bool :=
  let cs := list_ascii_of_string s in
  existsb is_lower cs && negb (existsb is_upper cs).

Definition quoteId (columnName : string) : string :=
  if negb (islower columnName) then quoted columnName else columnName.

(** The parameters of the insert of one record. *)
Definition record_values (column_map : list (string * ColumnDef.t))
  (df_fields : list string) (extra_columns : list (string * Value))
  (rec : gmap string Value) : PyResult (list Value) :=
  values <~
    res_mapM (fun field =>
                let value := cell rec field in
                value <~
                  (match assoc_lookup column_map field with
                   | Some column =>
                       if bool_decide (ColumnDef.type column = "DATETIME")
                       then datetime_value value else Ok value
                   | None => Ok value
                   end) ;;
                Ok (qValue value))
      (List.filter (fun field => bool_decide (is_Some (assoc_lookup column_map field)))
         df_fields) ;;
  Ok (values ++ ((fun kv : string * Value => qValue kv.2) <$> extra_columns)).

(** The partitioning and clustering columns of a table, which every
    catalog stored in it has to define. *)
Definition required_columns_of (self : ApdbCassandra) (table_name : ApdbTables)
  : PyResult (list string) :=
  part_columns <~ partitionColumns (_schema self) (ApdbTables_name table_name) ;;
  clust_columns <~ clusteringColumns (_schema self) (ApdbTables_name table_name) ;;
  Ok (part_columns ++ clust_columns).

Definition missing_key_error : PyError :=
  ValueError "Primary key columns are missing from catalog".

Definition _storeObjectsPandas `{External} (self : ApdbCassandra) (objects : Ref)
  (table_name : ApdbTables) (extra_columns : list (string * Value))
  (time_part : option Z) : Py unit :=
  frame <- df_deref objects ;;
  let extra_fields := fst <$> extra_columns in
  let df_fields :=
    List.filter (fun column => negb (bool_decide (column ∈ extra_fields)))
      (columns frame) in
  column_map <- py_lift (getColumnMap (_schema self) (ApdbTables_name table_name)) ;;
  let fields :=
    omap (fun field => ColumnDef.name <$> assoc_lookup column_map field) df_fields
    ++ extra_fields in
  required_columns <- py_lift (required_columns_of self table_name) ;;
  let missing_columns :=
    List.filter (fun column => negb (bool_decide (column ∈ fields)))
      required_columns in
  match missing_columns with
  | _ :: _ => py_raise missing_key_error
  | [] =>
      let qfields := quoteId <$> fields in
      let table := tableName (_schema self) (ApdbTables_name table_name) in
      let table :=
        match time_part with
        | Some part => table +:+ "_" +:+ str_Z part
        | None => table
        end in
      let insert holders :=
        {| ins_keyspace := keyspace (config self); ins_table := table;
           ins_qfields := qfields; ins_holders := holders |} in
      prepared <-
        (if prepared_statements (config self) then
           let query := insert (replicate (length qfields) "?") in
           session_execute (Prepare query) ;;; py_ret (Some query)
         else py_ret None) ;;
      queries <-
        py_lift (res_mapM
                   (fun rec =>
                      values <~ record_values column_map df_fields extra_columns rec ;;
                      let stmt :=
                        match prepared with
                        | Some query => query
                        | None => insert (replicate (length values) "%s")
                        end in
                      Ok (stmt, values))
                   (rows frame)) ;;
      session_execute (BatchStatement queries)
  end.

Definition _storeDiaObjects `{External} (self : ApdbCassandra) (objs : Ref)
  (visit_time : DateTime) : Py unit :=
  let visit_time_dt := VDatetime (DateTime_toPython visit_time) in
  let extra_columns := [("lastNonForcedSource", visit_time_dt)] in
  _storeObjectsPandas self objs DiaObjectLast extra_columns None ;;;
  let extra_columns := extra_columns ++ [("validityStart", visit_time_dt)] in
  time_part <- py_lift (_time_partition (config self) (TimeDateTime visit_time)) ;;
  if negb (time_partition_tables (config self)) then
    _storeObjectsPandas self objs DiaObject
      (extra_columns ++ [("apdb_time_part", VInt time_part)]) None
  else
    _storeObjectsPandas self objs DiaObject extra_columns (Some time_part).

Definition _storeDiaSources `{External} (self : ApdbCassandra)
  (table_name : ApdbTables) (sources : Ref) (visit_time : DateTime) : Py unit :=
  time_part <- py_lift (_time_partition (config self) (TimeDateTime visit_time)) ;;
  if negb (time_partition_tables (config self)) then
    _storeObjectsPandas self sources table_name
      [("apdb_time_part", VInt time_part)] None
  else
    _storeObjectsPandas self sources table_name [] (Some time_part).

Definition store `{External} (self : ApdbCassandra) (visit_time : DateTime)
  (objects : Ref) (sources forced_sources : option Ref) : Py unit :=
  objects <- _add_obj_part self objects ;;
  _storeDiaObjects self objects visit_time ;;;
  (match sources with
   | Some sources =>
       sources <- _add_src_part self sources objects ;;
       _storeDiaSources self DiaSource sources visit_time
   | None => py_ret tt
   end) ;;;
  match forced_sources with
  | Some forced_sources =>
      forced_sources <- _add_fsrc_part self forced_sources objects ;;
      _storeDiaSources self DiaForcedSource forced_sources visit_time
  | None => py_ret tt
  end.

(** ** The cluster as a collection of physical tables

    What a Cassandra cluster answers to the partition queries of the read
    path when it holds the given physical tables: the rows of the table
    that satisfy the restriction on the partition key, or an error for a
    table that does not exist. *)

Definition spatial_match (w : SpatialWhere) (row : gmap string Value) : bool :=
  match w with
  | ApdbPartEq pixel => py_eq (cell row "apdb_part") (VInt pixel)
  | ApdbPartIn pixels =>
      existsb (fun pixel => py_eq (cell row "apdb_part") (VInt pixel)) pixels
  end.

Definition temporal_match (w : option TemporalWhere) (row : gmap string Value)
  : bool :=
  match w with
  | None => true
  | Some (TimePartEq part) => py_eq (cell row "apdb_time_part") (VInt part)
  | Some (TimePartIn parts) =>
      existsb (fun part => py_eq (cell row "apdb_time_part") (VInt part)) parts
  end.

Definition InvalidRequest : PyError := DriverError 8704.

Definition select_from (db : gmap string DataFrame) (st : Statement) : QueryResult :=
  match st with
  | Select _ table spatial temporal =>
      match db !! table with
      | Some t =>
          QuerySuccess (columns t)
            (List.filter (fun row => spatial_match spatial row
                                     && temporal_match temporal row)
               (rows t))
      | None => QueryFailure InvalidRequest
      end
  | _ => QueryFailure InvalidRequest
  end.

(** A cluster for the examples: a pixel is one square degree, a region is
    its envelope, local time is TAI, schema and write statements succeed. *)
Definition example_cluster (db : gmap string DataFrame) : External := {|
  Region := list (Z * Z);
  pixelator_index := fun ra dec => Qfloor ra * 1000 + Qfloor dec;
  pixelator_envelope := fun region _ => region;
  DateTime_toPython := fun dt => nsecs dt / 1000;
  cluster_execute := fun _ => None;
  cluster_select := select_from db
|}.

Definition initial_state (frames : list DataFrame) : State :=
  {| heap := frames; sent := []; pending := [] |}.

(** The tables of the data model with their keys, for the examples: the
    partition key is [apdb_part], the clustering key is the object
    identifier followed by [validityStart] or the source identifier. *)
Definition column (name type : string) : ColumnDef.t :=
  {| ColumnDef.name := name; ColumnDef.type := type; ColumnDef.nullable := false |}.

Definition keys (partition clustering : list string) : list IndexDef.t :=
  [{| IndexDef.name := "part"; IndexDef.type := "PARTITION";
      IndexDef.columns := partition |};
   {| IndexDef.name := "pk"; IndexDef.type := "PRIMARY";
      IndexDef.columns := clustering |}].

Definition example_tables : list (string * TableDef.t) :=
  [("DiaObject",
    {| TableDef.name := "DiaObject";
       TableDef.columns :=
         [column "apdb_part" "BIGINT"; column "diaObjectId" "BIGINT";
          column "validityStart" "DATETIME"; column "ra" "DOUBLE";
          column "decl" "DOUBLE"; column "lastNonForcedSource" "DATETIME"];
       TableDef.indices := keys ["apdb_part"] ["diaObjectId"; "validityStart"] |});
   ("DiaObjectLast",
    {| TableDef.name := "DiaObjectLast";
       TableDef.columns :=
         [column "apdb_part" "BIGINT"; column "diaObjectId" "BIGINT";
          column "ra" "DOUBLE"; column "decl" "DOUBLE";
          column "lastNonForcedSource" "DATETIME"];
       TableDef.indices := keys ["apdb_part"] ["diaObjectId"] |});
   ("DiaSource",
    {| TableDef.name := "DiaSource";
       TableDef.columns :=
         [column "apdb_part" "BIGINT"; column "diaObjectId" "BIGINT";
          column "diaSourceId" "BIGINT"; column "ra" "DOUBLE";
          column "decl" "DOUBLE"; column "midPointTai" "DOUBLE"];
       TableDef.indices := keys ["apdb_part"] ["diaObjectId"; "diaSourceId"] |});
   ("DiaForcedSource",
    {| TableDef.name := "DiaForcedSource";
       TableDef.columns :=
         [column "apdb_part" "BIGINT"; column "diaObjectId" "BIGINT";
          column "diaForcedSourceId" "BIGINT"; column "midPointTai" "DOUBLE"];
       TableDef.indices :=
         keys ["apdb_part"] ["diaObjectId"; "diaForcedSourceId"] |})].

Definition example_apdb (config : ApdbCassandraConfig) : ApdbCassandra :=
  ApdbCassandra_init config example_tables.

(** The tables a sequence of statements creates, and whether a query of a
    concurrent read succeeded. *)
Definition tables_created (statements : list Statement) : list string :=
  omap (fun st => match st with
                  | CreateTable _ table_name _ => Some table_name
                  | _ => None
                  end) statements.

Definition succeeded (r : QueryResult) : bool :=
  match r with
  | QuerySuccess _ _ => true
  | QueryFailure _ => false
  end.

(** The tables [<base>_<i>] for [i] in the inclusive range [lo .. hi]. *)
Definition partition_tables (base : string) (lo hi : Z) : list string :=
  (fun i => base +:+ "_" +:+ str_Z i) <$> seqZ lo (hi + 1 - lo).

Definition set_read_months (config : ApdbCassandraConfig) (months forced_months : Z)
  : ApdbCassandraConfig :=
  {| keyspace := keyspace config;
     read_concurrency := read_concurrency config;
     prefix := prefix config;
     part_pix_max_ranges := part_pix_max_ranges config;
     ra_dec_columns := ra_dec_columns config;
     time_partition_tables := time_partition_tables config;
     time_partition_days := time_partition_days config;
     time_partition_start := time_partition_start config;
     time_partition_end := time_partition_end config;
     query_per_time_part := query_per_time_part config;
     query_per_spatial_part := query_per_spatial_part config;
     pandas_delay_conv := pandas_delay_conv config;
     prepared_statements := prepared_statements config;
     read_sources_months := months;
     read_forced_sources_months := forced_months |}.

Definition set_pandas_delay_conv (config : ApdbCassandraConfig) (delay : bool)
  : ApdbCassandraConfig :=
  {| keyspace := keyspace config;
     read_concurrency := read_concurrency config;
     prefix := prefix config;
     part_pix_max_ranges := part_pix_max_ranges config;
     ra_dec_columns := ra_dec_columns config;
     time_partition_tables := time_partition_tables config;
     time_partition_days := time_partition_days config;
     time_partition_start := time_partition_start config;
     time_partition_end := time_partition_end config;
     query_per_time_part := query_per_time_part config;
     query_per_spatial_part := query_per_spatial_part config;
     pandas_delay_conv := delay;
     prepared_statements := prepared_statements config;
     read_sources_months := read_sources_months config;
     read_forced_sources_months := read_forced_sources_months config |}.

(** A source record of the examples. *)
Definition source_record (apdb_part diaObjectId diaSourceId : Z) (midPointTai : Q)
  : gmap string Value :=
  row_of_record
    ["apdb_part"; "diaObjectId"; "diaSourceId"; "ra"; "decl"; "midPointTai"]
    [VInt apdb_part; VInt diaObjectId; VInt diaSourceId;
     VFloat (11 # 2); VFloat (15 # 2); VFloat midPointTai].

Definition source_table (records : list (gmap string Value)) : DataFrame :=
  {| columns := ["apdb_part"; "diaObjectId"; "diaSourceId"; "ra"; "decl";
                 "midPointTai"];
     rows := records |}.

(** The source tables of the partitions 608 .. 620 (the twelve months
    before 2021-01-01) and of partition 622: one record of object 1 in
    pixel 5007 observed on 2021-01-01 (MJD 59215), one observed sixty days
    later. *)
Definition example_db : gmap string DataFrame :=
  <["DiaSource_622" := source_table [source_record 5007 1 11 (inject_Z 59275)]]>
  (<["DiaSource_620" := source_table [source_record 5007 1 10 (inject_Z 59215)]]>
   (list_to_map ((fun table => (table, source_table []))
                 <$> partition_tables "DiaSource" 608 619))).

(** The two queries of the examples of [_run_queries]: the table of the
    first does not exist, the second finds one record. *)
Definition failing_then_good : list Statement :=
  [Select "apdb" "DiaSource_607" (ApdbPartIn [5007]) None;
   Select "apdb" "DiaSource_620" (ApdbPartIn [5007]) None].

(** The frame [df] after [df["apdb_part"] = apdb_part] for an array of the
    length of the frame. *)
Definition with_apdb_part (df : DataFrame) (apdb_part : list Z) : DataFrame :=
  {| columns := if bool_decide ("apdb_part" ∈ columns df) then columns df
                else columns df ++ ["apdb_part"];
     rows := zip_with (fun row v => <["apdb_part" := v]> row) (rows df)
               (VInt <$> apdb_part) |}.

(** The state after a new frame object has been created. *)
Definition allocated (s : State) (df : DataFrame) : State :=
  {| heap := heap s ++ [df]; sent := sent s; pending := pending s |}.

(** What the three annotation steps do to the state: on success one new
    frame, the copy with the column [apdb_part]; on an exception
    nothing. *)
Definition annotated (s : State) (frame : DataFrame) (parts : PyResult (list Z))
  : PyResult Ref * State :=
  match parts with
  | Ok apdb_part =>
      (Ok (length (heap s)), allocated s (with_apdb_part frame apdb_part))
  | Raise e => (Raise e, s)
  end.

(** A computation keeps the frames when every frame object that exists
    before it is the same after it, whatever the outcome. *)
Definition keeps_frames {A} (c : Py A) : Prop :=
  forall s, heap s `prefix_of` heap (c s).2.

(** A computation sends nothing when it leaves the statements sent to the
    session as they were. *)
Definition sends_nothing {A} (c : Py A) : Prop :=
  forall s, sent (c s).2 = sent s.

(** The catalogs of a visit, for the examples: two objects, a source of
    the first object and a source of a solar system object, and a forced
    source of each object; then forced sources one of which has the object
    identifier 0. *)
Definition object_catalog : DataFrame :=
  {| columns := ["diaObjectId"; "ra"; "decl"];
     rows := row_of_record ["diaObjectId"; "ra"; "decl"]
             <$> [[VInt 1; VFloat (11 # 2); VFloat (15 # 2)];
                  [VInt 2; VFloat (13 # 2); VFloat (15 # 2)]] |}.

Definition source_catalog : DataFrame :=
  {| columns := ["diaSourceId"; "diaObjectId"; "ra"; "decl"; "midPointTai"];
     rows := row_of_record ["diaSourceId"; "diaObjectId"; "ra"; "decl"; "midPointTai"]
             <$> [[VInt 10; VInt 1; VFloat (11 # 2); VFloat (15 # 2);
                   VFloat (inject_Z 59215)];
                  [VInt 11; VInt 0; VFloat (17 # 2); VFloat (19 # 2);
                   VFloat (inject_Z 59215)]] |}.

Definition forced_catalog : DataFrame :=
  {| columns := ["diaForcedSourceId"; "diaObjectId"; "midPointTai"];
     rows := row_of_record ["diaForcedSourceId"; "diaObjectId"; "midPointTai"]
             <$> [[VInt 20; VInt 1; VFloat (inject_Z 59215)];
                  [VInt 21; VInt 2; VFloat (inject_Z 59215)]] |}.

Definition forced_catalog_sso : DataFrame :=
  {| columns := ["diaForcedSourceId"; "diaObjectId"; "ra"; "decl"; "midPointTai"];
     rows := row_of_record
               ["diaForcedSourceId"; "diaObjectId"; "ra"; "decl"; "midPointTai"]
             <$> [[VInt 20; VInt 1; VFloat (11 # 2); VFloat (15 # 2);
                   VFloat (inject_Z 59215)];
                  [VInt 21; VInt 0; VFloat (17 # 2); VFloat (19 # 2);
                   VFloat (inject_Z 59215)]] |}.

Definition visit_2021 : DateTime := DateTime_of_civil 2021 1 1 0 0 0.

(** [o] is a record of the object catalog whose identifier equals [id]. *)
Definition object_with_id (objs : DataFrame) (id : Value) (o : gmap string Value)
  : Prop :=
  o ∈ rows objs /\ py_eq (cell o "diaObjectId") id = true.

Definition in_int64 (z : Z) : Prop := int64_min <= z <= int64_max.

(** The partition [z] of a source record by the rule of the data model:
    from its own coordinates when its object identifier is 0, from the
    object of the catalog it refers to otherwise. *)
Definition src_row_partition `{External} (objs : DataFrame)
  (ra_col dec_col : string) (row : gmap string Value) (z : Z) : Prop :=
  if py_eq (cell row "diaObjectId") (VInt 0) then
    exists ra dec,
      as_number (cell row ra_col) = Some ra
      /\ as_number (cell row dec_col) = Some dec
      /\ z = pixel ra dec
  else
    exists o, object_with_id objs (cell row "diaObjectId") o
              /\ np_int64_of (cell o "apdb_part") = Ok z.

(** The partition [z] of a forced source record: always that of the object
    of the catalog it refers to. *)
Definition fsrc_row_partition (objs : DataFrame) (row : gmap string Value) (z : Z)
  : Prop :=
  exists o, object_with_id objs (cell row "diaObjectId") o
            /\ np_int64_of (cell o "apdb_part") = Ok z.

(** A source record for which [_add_src_part] can compute a partition. *)
Definition src_row_ready `{External} (objs : DataFrame) (ra_col dec_col : string)
  (row : gmap string Value) : Prop :=
  if py_eq (cell row "diaObjectId") (VInt 0) then
    exists ra dec,
      as_number (cell row ra_col) = Some ra
      /\ as_number (cell row dec_col) = Some dec
      /\ in_int64 (pixel ra dec)
  else exists o, object_with_id objs (cell row "diaObjectId") o.

(** The columns that [store] itself adds to the records of the object
    tables: the partition and the extra columns. *)
Definition object_extra_fields (config : ApdbCassandraConfig) : list string :=
  ["lastNonForcedSource"; "validityStart"]
  ++ (if time_partition_tables config then [] else ["apdb_time_part"]).

(** An object catalog without the identifier of the objects. *)
Definition object_catalog_no_id : DataFrame :=
  {| columns := ["ra"; "decl"];
     rows := row_of_record ["ra"; "decl"]
             <$> [[VFloat (11 # 2); VFloat (15 # 2)]] |}.

(** The records a successful query returned. *)
Definition records_of (r : QueryResult) : list (gmap string Value) :=
  match r with
  | QuerySuccess _ records => records
  | QueryFailure _ => []
  end.

(** A physical table with the columns [cols], every record of which has a
    cell for every column. *)
Definition complete_record (cols : list string) (row : gmap string Value) : Prop :=
  forall c, c ∈ cols -> is_Some (row !! c).

Definition table_with_columns (cols : list string) (t : DataFrame) : Prop :=
  columns t = cols /\ forall row, row ∈ rows t -> complete_record cols row.

(** The physical tables a read of the time partitions [lo .. hi] queries
    are in the cluster, with the columns [cols]. *)
Definition window_tables_ready (self : ApdbCassandra) (db : gmap string DataFrame)
  (table_name : ApdbTables) (lo hi : Z) (cols : list string) : Prop :=
  let full_name := tableName (_schema self) (ApdbTables_name table_name) in
  if time_partition_tables (config self) then
    forall part, lo <= part <= hi ->
      exists t, db !! (full_name +:+ "_" +:+ str_Z part) = Some t
                /\ table_with_columns cols t
  else exists t, db !! full_name = Some t /\ table_with_columns cols t.

(** [row] is stored in one of the time partitions [lo .. hi] of the
    table. *)
Definition stored_in_window (self : ApdbCassandra) (db : gmap string DataFrame)
  (table_name : ApdbTables) (lo hi : Z) (row : gmap string Value) : Prop :=
  let full_name := tableName (_schema self) (ApdbTables_name table_name) in
  exists part t,
    lo <= part <= hi
    /\ row ∈ rows t
    /\ if time_partition_tables (config self) then
         db !! (full_name +:+ "_" +:+ str_Z part) = Some t
       else
         db !! full_name = Some t
         /\ py_eq (cell row "apdb_time_part") (VInt part) = true.

(** [row] lies in one of the pixels of the region. *)
Definition in_region_pixels `{External} (region : Region) (row : gmap string Value)
  : Prop :=
  exists pixel, pixel ∈ pixels region
                /\ py_eq (cell row "apdb_part") (VInt pixel) = true.

(** The cell [midPointTai] of the record is a number greater than [x]. *)
Definition midPointTai_after (x : Q) (row : gmap string Value) : Prop :=
  exists q, as_number (cell row "midPointTai") = Some q /\ (x < q)%Q.

(** ** Spatial expressions and the read of the last objects *)

(** [Partitioner.envelope]: the ranges of the envelope of the region with
    at most [part_pix_max_ranges] ranges, as half-open ranges. *)
Definition envelope `{External} (config : ApdbCassandraConfig) (region : Region)
  : list (Z * Z) :=
  pixelator_envelope region (part_pix_max_ranges config).

(** An expression over a range of pixels:
    [apdb_part = lower] or [apdb_part >= lower AND apdb_part <= upper]. *)
Inductive RangeWhere :=
| ApdbPartIs (pixel : Z)
| ApdbPartBetween (lower upper : Z).

Definition range_text (w : RangeWhere) : string :=
  match w with
  | ApdbPartIs pixel => quoted "apdb_part" +:+ " = " +:+ str_Z pixel
  | ApdbPartBetween lower upper =>
      quoted "apdb_part" +:+ " >= " +:+ str_Z lower +:+ " AND "
      +:+ quoted "apdb_part" +:+ " <= " +:+ str_Z upper
  end.

(** The expressions [_spatial_where] returns: over ranges of pixels when
    [use_ranges] is set, over the pixels themselves otherwise. *)
Definition where_expr (use_ranges : bool) : Type :=
  if use_ranges then RangeWhere else SpatialWhere.

Definition _spatial_where `{External} (self : ApdbCassandra)
  (region : option Region) (use_ranges : bool) : list (where_expr use_ranges) :=
  match region with
  | None => []
  | Some region =>
      match use_ranges return list (where_expr use_ranges) with
      | true =>
          let pixel_ranges := envelope (config self) region in
          (fun r : Z * Z =>
             let lower := r.1 in
             let upper := r.2 - 1 in
             if bool_decide (lower = upper) then ApdbPartIs lower
             else ApdbPartBetween lower upper) <$> pixel_ranges
      | false =>
          let pixels := pixels region in
          if query_per_spatial_part (config self) then ApdbPartEq <$> pixels
          else [ApdbPartIn pixels]
      end
  end.

(** [getDiaObjects]: one query of the table of the last objects for every
    spatial expression. *)
Definition getDiaObjects `{External} (self : ApdbCassandra) (region : Region)
  : Py DataFrame :=
  let spatial_where : list SpatialWhere := _spatial_where self (Some region) false in
  let statements :=
    (fun where_ => Select (keyspace (config self)) "DiaObjectLast" where_ None)
    <$> spatial_where in
  objects <- _run_queries self statements ;;
  py_ret objects.

(** What a record has to satisfy to be selected by an expression over a
    range of pixels. *)
Definition range_match (w : RangeWhere) (row : gmap string Value) : bool :=
  match w with
  | ApdbPartIs pixel => py_eq (cell row "apdb_part") (VInt pixel)
  | ApdbPartBetween lower upper =>
      match as_number (cell row "apdb_part") with
      | Some q => Qle_bool (inject_Z lower) q && Qle_bool q (inject_Z upper)
      | None => false
      end
  end.

(** [storeSSObjects] *)
Definition storeSSObjects `{External} (self : ApdbCassandra) (objects : Ref)
  : Py unit :=
  _storeObjectsPandas self objects SSObject [] None.

(** The table of the last objects of the examples: object 1 in pixel 5007
    and object 2 in pixel 6007. *)
Definition last_object_record (apdb_part diaObjectId : Z) (ra dec : Q)
  : gmap string Value :=
  row_of_record ["apdb_part"; "diaObjectId"; "ra"; "decl"]
    [VInt apdb_part; VInt diaObjectId; VFloat ra; VFloat dec].

Definition last_object_table : DataFrame :=
  {| columns := ["apdb_part"; "diaObjectId"; "ra"; "decl"];
     rows := [last_object_record 5007 1 (11 # 2) (15 # 2);
              last_object_record 6007 2 (13 # 2) (15 # 2)] |}.

Definition example_objects_db : gmap string DataFrame :=
  {["DiaObjectLast" := last_object_table]}.

(** Two regions of the examples, as their envelopes: the pixel 5007, and
    the pixels 5000 .. 5009. *)
Definition region_5007 : list (Z * Z) := [(5007, 5008)].
Definition region_5000s : list (Z * Z) := [(5000, 5010)].

(** The column names a successful query returned, and the frame its result
    is converted to. *)
Definition colnames_of (r : QueryResult) : list string :=
  match r with
  | QuerySuccess colnames _ => colnames
  | QueryFailure _ => []
  end.

Definition frame_of (r : QueryResult) : DataFrame :=
  _rows_to_pandas (colnames_of r) (records_of r).

(** The engine with the other setting of [pandas_delay_conv]. *)
Definition with_pandas_delay_conv (self : ApdbCassandra) (delay : bool)
  : ApdbCassandra :=
  {| config := set_pandas_delay_conv (config self) delay;
     _schema := _schema self |}.

Definition set_query_per_spatial_part (config : ApdbCassandraConfig) (per_part : bool)
  : ApdbCassandraConfig :=
  {| keyspace := keyspace config;
     read_concurrency := read_concurrency config;
     prefix := prefix config;
     part_pix_max_ranges := part_pix_max_ranges config;
     ra_dec_columns := ra_dec_columns config;
     time_partition_tables := time_partition_tables config;
     time_partition_days := time_partition_days config;
     time_partition_start := time_partition_start config;
     time_partition_end := time_partition_end config;
     query_per_time_part := query_per_time_part config;
     query_per_spatial_part := per_part;
     pandas_delay_conv := pandas_delay_conv config;
     prepared_statements := prepared_statements config;
     read_sources_months := read_sources_months config;
     read_forced_sources_months := read_forced_sources_months config |}.

(** Queries of the examples: two partitions of the sources, and a
    partition of the sources followed by the last objects, whose columns
    are not those of the sources. *)
Definition two_partitions : list Statement :=
  [Select "apdb" "DiaSource_620" (ApdbPartIn [5007]) None;
   Select "apdb" "DiaSource_622" (ApdbPartIn [5007]) None].

Definition sources_then_objects : list Statement :=
  [Select "apdb" "DiaSource_620" (ApdbPartIn [5007]) None;
   Select "apdb" "DiaObjectLast" (ApdbPartIn [5007]) None].

Definition example_db_with_objects : gmap string DataFrame :=
  <["DiaObjectLast" := last_object_table]> example_db.

(** A region that no pixel covers. *)
Definition region_without_pixels : list (Z * Z) := [].

(** The record belongs to one of the objects a read asks for: any record
    when no collection of identifiers is given. *)
Definition wanted_object (object_ids : option (list Z)) (row : gmap string Value)
  : Prop :=
  match object_ids with
  | Some ids => value_isin (list_to_set ids) (cell row "diaObjectId") = true
  | None => True
  end.

(** The forced source tables of the examples: the partitions 608 .. 620,
    with one forced source of object 1 in pixel 5007 observed on
    2021-01-01 in the last of them. *)
Definition forced_source_record (apdb_part diaObjectId diaForcedSourceId : Z)
  (midPointTai : Q) : gmap string Value :=
  row_of_record ["apdb_part"; "diaObjectId"; "diaForcedSourceId"; "midPointTai"]
    [VInt apdb_part; VInt diaObjectId; VInt diaForcedSourceId; VFloat midPointTai].

Definition forced_source_table (records : list (gmap string Value)) : DataFrame :=
  {| columns := ["apdb_part"; "diaObjectId"; "diaForcedSourceId"; "midPointTai"];
     rows := records |}.

Definition example_forced_db : gmap string DataFrame :=
  <["DiaForcedSource_620" :=
      forced_source_table [forced_source_record 5007 1 20 (inject_Z 59215)]]>
  (list_to_map ((fun table => (table, forced_source_table []))
                <$> partition_tables "DiaForcedSource" 608 619)).

(** ** The statements of the ingest path *)

(** The physical table the records of a catalog go to. *)
Definition physical_table (self : ApdbCassandra) (table_name : ApdbTables)
  (time_part : option Z) : string :=
  let table := tableName (_schema self) (ApdbTables_name table_name) in
  match time_part with
  | Some part => table +:+ "_" +:+ str_Z part
  | None => table
  end.

(** The columns of the catalog that are stored from the catalog: those the
    table defines and the extra columns do not give. *)
Definition catalog_columns (table : TableDef.t) (frame : DataFrame)
  (extra_columns : list (string * Value)) : list string :=
  List.filter
    (fun c => bool_decide (c ∈ ColumnDef.name <$> TableDef.columns table)
              && negb (bool_decide (c ∈ extra_columns.*1)))
    (columns frame).

Definition insert_columns (table : TableDef.t) (frame : DataFrame)
  (extra_columns : list (string * Value)) : list string :=
  catalog_columns table frame extra_columns ++ extra_columns.*1.

(** An insert into the table [table] that names the columns [fields] and
    has a place holder and a value for each of them. *)
Definition insert_well_formed (self : ApdbCassandra) (table : string)
  (fields : list string) (i : InsertInto * list Value) : Prop :=
  ins_keyspace i.1 = keyspace (config self)
  /\ ins_table i.1 = table
  /\ ins_qfields i.1 = quoteId <$> fields
  /\ length (ins_holders i.1) = length fields
  /\ length i.2 = length fields.

Definition statement_well_formed (self : ApdbCassandra) (table : string)
  (fields : list string) (n_records : nat) (st : Statement) : Prop :=
  match st with
  | Prepare query =>
      insert_well_formed self table fields (query, replicate (length fields) VNone)
      /\ ins_holders query = replicate (length fields) "?"
  | BatchStatement inserts =>
      length inserts = n_records
      /\ Forall (insert_well_formed self table fields) inserts
  | _ => False
  end.

(** The definition of a column of the table as [getColumnMap] gives it: of
    two columns of one name the later one. *)
Definition column_map_of (table : TableDef.t) : list (string * ColumnDef.t) :=
  (fun column => (ColumnDef.name column, column)) <$> reverse (TableDef.columns table).

Definition column_def (table : TableDef.t) (c : string) : option ColumnDef.t :=
  assoc_lookup (column_map_of table) c.

(** The parameter sent for the cell [v] of the column [c] of the catalog:
    the cell of a [DATETIME] column is converted to milliseconds first. *)
Definition sent_value (table : TableDef.t) (c : string) (v : Value)
  : PyResult Value :=
  value <~
    (match column_def table c with
     | Some column =>
         if bool_decide (ColumnDef.type column = "DATETIME")
         then datetime_value v else Ok v
     | None => Ok v
     end) ;;
  Ok (qValue value).

(** The values the driver can bind: null, an integer, a finite float or a
    string. *)
Definition storable (v : Value) : Prop :=
  match v with
  | VNone | VInt _ | VFloat _ | VStr _ => True
  | VNaN | VTimestamp _ | VDatetime _ => False
  end.

(** The definition of a table of the examples, and the object catalog of
    the examples with its partitions. *)
Definition example_table (table_name : ApdbTables) : TableDef.t :=
  default {| TableDef.name := ""; TableDef.columns := []; TableDef.indices := [] |}
    (tableDef (example_apdb default_config) table_name).

Definition object_catalog_with_part : DataFrame :=
  with_apdb_part object_catalog [5007; 6007].

(** The statements a computation adds to those already sent, and the
    inserts of the last of them. *)
Definition newly_sent {A} (c : Py A) (s : State) : list Statement :=
  drop (length (sent s)) (sent (c s).2).

Definition last_batch (statements : list Statement)
  : list (InsertInto * list Value) :=
  match last statements with
  | Some (BatchStatement inserts) => inserts
  | _ => []
  end.

(** ** Where the records of a visit go *)

(** The statement writes to the table [table] and nowhere else. *)
Definition statement_targets (table : string) (st : Statement) : Prop :=
  match st with
  | Prepare query => ins_table query = table
  | BatchStatement inserts => Forall (fun i => ins_table i.1 = table) inserts
  | _ => False
  end.

(** The last column of every insert of the statement is [apdb_time_part],
    with the value [p]. *)
Definition carries_time_part (p : Z) (st : Statement) : Prop :=
  match st with
  | Prepare query => last (ins_qfields query) = Some "apdb_time_part"
  | BatchStatement inserts =>
      Forall (fun i : InsertInto * list Value =>
                last (ins_qfields i.1) = Some "apdb_time_part"
                /\ last i.2 = Some (VInt p)) inserts
  | _ => False
  end.

(** The statement files records of the table under the time partition [p]:
    in the table of that partition, or in the single table with [p] as
    [apdb_time_part]. *)
Definition written_under (self : ApdbCassandra) (p : Z) (table_name : ApdbTables)
  (st : Statement) : Prop :=
  if time_partition_tables (config self) then
    statement_targets (physical_table self table_name (Some p)) st
  else
    statement_targets (physical_table self table_name None) st
    /\ carries_time_part p st.

(** A computation sends only statements with the property [P], whatever
    its outcome. *)
Definition sends_only {A} (P : Statement -> Prop) (c : Py A) : Prop :=
  forall s, exists new, sent (c s).2 = sent s ++ new /\ Forall P new.

(** ** The statements of the schema creation *)

(** A [CREATE TABLE IF NOT EXISTS] statement. *)
Definition creates_if_not_exists (st : Statement) : Prop :=
  match st with
  | CreateTable true _ _ => True
  | _ => False
  end.

(** In a sequence of statements, every table is dropped before it is
    created, and created without [IF NOT EXISTS]. *)
Definition drops_before_creating (statements : list Statement) : Prop :=
  Forall (fun st => match st with
                    | DropTable _ | CreateTable false _ _ => True
                    | _ => False
                    end) statements
  /\ forall i table_name column_defs,
       statements !! i = Some (CreateTable false table_name column_defs) ->
       exists j, (j < i)%nat /\ statements !! j = Some (DropTable table_name).

(** The schema of the engine with another prefix, and the tables of the
    schema of the examples with the prefix [test_]. *)
Definition with_prefix (self : ApdbCassandraSchema) (prefix : string)
  : ApdbCassandraSchema :=
  {| _prefix := prefix;
     _time_partition_tables := _time_partition_tables self;
     _time_partition_days := _time_partition_days self;
     _packing := _packing self;
     tableSchemas := tableSchemas self |}.

(** ** _AddressTranslator *)

(** The translation of internal addresses to external ones: the map
    [dict((k, v) for k, v in zip(private_ips, public_ips))], in which of
    two pairs with the same key the later one is kept. *)
Record _AddressTranslator := { _map : gmap string string }.

Definition AddressTranslator_init (public_ips private_ips : list string)
  : _AddressTranslator :=
  {| _map := foldl (fun d kv => <[kv.1 := kv.2]> d) ∅ (zip private_ips public_ips) |}.

(** [translate]: [self._map.get(private_ip, private_ip)] *)
Definition translate (self : _AddressTranslator) (private_ip : string) : string :=
  default private_ip (_map self !! private_ip).

(** ** ApdbCassandraSchema.packedColumns *)

(** The columns that are packed into the BLOB: with a packing configured,
    the columns of the table that are in no index.  The names of the index
    columns are only tested for membership. *)
Definition packedColumns (self : ApdbCassandraSchema) (table_name : string)
  : PyResult (list ColumnDef.t) :=
  if bool_decide (_packing self = "none") then Ok []
  else
    table_schema <~ assoc_getitem (tableSchemas self) table_name ;;
    let index_columns :=
      concat (IndexDef.columns <$> TableDef.indices table_schema) in
    Ok (List.filter
          (fun column => negb (bool_decide (ColumnDef.name column ∈ index_columns)))
          (TableDef.columns table_schema)).

(** The schema of the examples with the packing [cbor]. *)
Definition with_packing (self : ApdbCassandraSchema) (packing : string)
  : ApdbCassandraSchema :=
  {| _prefix := _prefix self;
     _time_partition_tables := _time_partition_tables self;
     _time_partition_days := _time_partition_days self;
     _packing := packing;
     tableSchemas := tableSchemas self |}.

(** ** Splitting a sequence (apdb.py) *)

(** [seq[:n]] and [del seq[:n]]: the first [n] elements, or all but the
    last [-n] of them for a negative [n]. *)
Definition slice_stop {A} (seq : list A) (n : Z) : nat :=
  if 0 <=? n then Z.to_nat n else (length seq - Z.to_nat (- n))%nat.

Definition py_slice_to {A} (seq : list A) (n : Z) : list A :=
  take (slice_stop seq n) seq.

Definition py_del_to {A} (seq : list A) (n : Z) : list A :=
  drop (slice_stop seq n) seq.

(** [_split(seq, nItems)]: the sequences the generator yields until it is
    exhausted; [None] when the loop has not come to its end after [fuel]
    rounds. *)
Fixpoint _split {A} (fuel : nat) (seq : list A) (nItems : Z)
  : option (list (list A)) :=
  match seq with
  | [] => Some []
  | _ :: _ =>
      match fuel with
      | O => None
      | S fuel' =>
          (fun chunks => py_slice_to seq nItems :: chunks)
          <$> _split fuel' (py_del_to seq nItems) nItems
      end
  end.

(** * Properties of the time partition *)

Lemma py_int_of_float_nonneg (x : Q) :
  (0 <= x)%Q -> py_int_of_float x = Qfloor x.
Proof.
  destruct x as [n d]. unfold Qle, py_int_of_float, Qfloor. simpl.
  intros Hn. apply Z.quot_div_nonneg; lia.
Qed.

Lemma py_int_of_float_neg (x : Q) :
  (x < 0)%Q -> py_int_of_float x = Qceiling x.
Proof.
  destruct x as [n d]. unfold Qlt, py_int_of_float, Qceiling, Qfloor. simpl.
  intros Hn.
  replace n with (- (- n)) at 1 by lia.
  rewrite Z.quot_opp_l by lia.
  f_equal. apply Z.quot_div_nonneg; lia.
Qed.

Lemma py_int_of_float_mono (x y : Q) :
  (x <= y)%Q -> py_int_of_float x <= py_int_of_float y.
Proof.
  intros Hxy.
  destruct (Qlt_le_dec x 0) as [Hx | Hx]; destruct (Qlt_le_dec y 0) as [Hy | Hy].
  - rewrite !py_int_of_float_neg by assumption. by apply Qceiling_resp_le.
  - rewrite py_int_of_float_neg, py_int_of_float_nonneg by assumption.
    transitivity 0.
    + change 0 with (Qceiling 0). apply Qceiling_resp_le. by apply Qlt_le_weak.
    + change 0 with (Qfloor 0). by apply Qfloor_resp_le.
  - exfalso. apply (Qlt_irrefl 0).
    eapply Qle_lt_trans; [exact Hx |]. eapply Qle_lt_trans; eassumption.
  - rewrite !py_int_of_float_nonneg by assumption. by apply Qfloor_resp_le.
Qed.

(** [floor(floor(x) / d) = floor(x / d)] for a positive integer [d]. *)
Lemma Qfloor_div_pos (x : Q) (d : Z) :
  0 < d -> Qfloor (x / inject_Z d) = Qfloor x / d.
Proof.
  intros Hd. destruct d as [| p | p]; try lia.
  destruct x as [n q]. unfold Qdiv, Qmult, Qinv, Qfloor, inject_Z. simpl.
  rewrite Z.mul_1_r, Pos2Z.inj_mul. symmetry. apply Z.div_div; lia.
Qed.

Lemma Qfloor_le_ceiling (x : Q) : Qfloor x <= Qceiling x <= Qfloor x + 1.
Proof.
  split.
  - rewrite Zle_Qle. apply Qle_floor_ceiling.
  - assert (H : Qceiling x - 1 < Qfloor x + 1); [| lia].
    rewrite Zlt_Qlt. eapply Qlt_trans; [apply Qceiling_lt | apply Qlt_floor].
Qed.

Lemma time_partition_ok (config : ApdbCassandraConfig) (time : TimeArg) :
  0 < time_partition_days config ->
  _time_partition config time
  = Ok (py_int_of_float (mjd_of time - _partition_zero_epoch_mjd)
        / time_partition_days config).
Proof.
  intros Hd. unfold _time_partition, py_floordiv.
  destruct (Z.eqb_spec (time_partition_days config) 0); [lia | reflexivity].
Qed.





(** C4.  For a positive [time_partition_days] the time partition is
    monotone in the MJD of its argument. *)
Theorem time_partition_monotone
  (config : ApdbCassandraConfig) (t1 t2 : TimeArg) :
  0 < time_partition_days config ->
  (mjd_of t1 <= mjd_of t2)%Q ->
  exists p1 p2,
    _time_partition config t1 = Ok p1
    /\ _time_partition config t2 = Ok p2
    /\ p1 <= p2.
Proof.
  intros Hd Hle. rewrite !time_partition_ok by exact Hd.
  do 2 eexists. split; [reflexivity |]. split; [reflexivity |].
  apply Z.div_le_mono; [lia |].
  apply py_int_of_float_mono.
  unfold Qminus. apply Qplus_le_l. exact Hle.
Qed.

Lemma time_partition_monotone_witness :
  exists p1 p2,
    _time_partition default_config (TimeMJD (inject_Z 58453)) = Ok p1
    /\ _time_partition default_config
         (TimeDateTime (DateTime_of_civil 2030 1 1 0 0 0)) = Ok p2
    /\ p1 <= p2.
Proof.
  apply (time_partition_monotone default_config (TimeMJD (inject_Z 58453))
           (TimeDateTime (DateTime_of_civil 2030 1 1 0 0 0))).
  - reflexivity.
  - vm_compute. discriminate.
Defined.

(** * Schema creation *)

(** C1 (the code at the default configuration).  The configured range of
    time partitions is 595 .. 730, and [makeSchema] hands it to the schema
    object as the keyword [part_range]; the schema method has no such
    parameter, so the call raises and no statement is sent.  Called with
    [drop] alone, the schema method creates the per-partition tables of
    its own fixed range 595 .. 632 whatever the configured start and end
    are. *)
Theorem makeSchema_default_config :
  let self := example_apdb default_config in
  let schema_run :=
    makeSchema_body (H := example_cluster ∅) (_schema self) true (initial_state []) in
  (start <~ DateTime_of_iso (time_partition_start default_config) ;;
   _time_partition default_config (TimeDateTime start)) = Ok 595
  /\ (end_ <~ DateTime_of_iso (time_partition_end default_config) ;;
      _time_partition default_config (TimeDateTime end_)) = Ok 730
  /\ makeSchema (H := example_cluster ∅) self true (initial_state [])
     = (Raise (TypeError "got an unexpected keyword argument part_range"),
        initial_state [])
  /\ schema_run.1 = Ok tt
  /\ tables_created (sent schema_run.2)
     = ["DiaObject"; "DiaObjectLast"]
       ++ partition_tables "DiaSource" 595 632
       ++ partition_tables "DiaForcedSource" 595 632
       ++ ["ApdbProtoVisits"]
  /\ "DiaSource_730" ∉ tables_created (sent schema_run.2).
Proof.
  intros self schema_run.
  assert (Hcreated : tables_created (sent schema_run.2)
     = ["DiaObject"; "DiaObjectLast"]
       ++ partition_tables "DiaSource" 595 632
       ++ partition_tables "DiaForcedSource" 595 632
       ++ ["ApdbProtoVisits"]) by (vm_compute; reflexivity).
  repeat split; try (vm_compute; reflexivity); try exact Hcreated.
  rewrite Hcreated. intros Hin. apply (bool_decide_pack _) in Hin.
  vm_compute in Hin. exact Hin.
Qed.

(** * The read path *)

Section ReadPath.

Context `{External}.

(** C5.  With [read_sources_months = 0], [getDiaSources] returns [None]
    whatever the region, the object ids and the visit time are, and touches
    nothing; likewise [getDiaForcedSources] with
    [read_forced_sources_months = 0]. *)
Theorem zero_months_returns_none
  (self : ApdbCassandra) (region : Region) (object_ids : option (list Z))
  (visit_time : DateTime) (s : State) :
  (read_sources_months (config self) = 0 ->
   getDiaSources self region object_ids visit_time s = (Ok None, s))
  /\ (read_forced_sources_months (config self) = 0 ->
      getDiaForcedSources self region object_ids visit_time s = (Ok None, s)).
Proof.
  split; intros Hm; unfold getDiaSources, getDiaForcedSources;
    rewrite Hm; reflexivity.
Qed.


(** The loops of [_run_queries] stop at a failed query. *)
Lemma immediate_loop_failure (oks rest : list QueryResult) (e : PyError)
  (dataframes : list DataFrame) :
  forallb succeeded oks = true ->
  immediate_loop (oks ++ QueryFailure e :: rest) dataframes = (Raise e, rest).
Proof.
  revert dataframes. induction oks as [| r oks IH]; intros dataframes Hok.
  - reflexivity.
  - simpl in Hok. apply andb_prop in Hok as [Hr Hoks].
    destruct r as [colnames records |]; [| discriminate].
    simpl. by apply IH.
Qed.

Lemma delayed_loop_failure (oks rest : list QueryResult) (e : PyError)
  (cols : option (list string)) (rows : list (gmap string Value)) :
  exists err unconsumed,
    delayed_loop (oks ++ QueryFailure e :: rest) cols rows
    = (Raise err, unconsumed ++ rest).
Proof.
  revert cols rows. induction oks as [| r oks IH]; intros cols rows.
  - exists (AttributeError "_current_rows"), []. reflexivity.
  - destruct r as [colnames records | e']; simpl.
    + destruct cols as [cols |]; [| apply IH].
      case_bool_decide; [apply IH |].
      eexists _, (oks ++ [QueryFailure e]). by rewrite <- app_assoc.
    + eexists _, (oks ++ [QueryFailure e]). by rewrite <- app_assoc.
Qed.


End ReadPath.

Lemma zero_months_returns_none_witness :
  let self := example_apdb (set_read_months default_config 0 0) in
  let visit_time := DateTime_of_civil 2021 1 1 0 0 0 in
  let s := initial_state [] in
  (read_sources_months (config self) = 0 ->
   getDiaSources (H := example_cluster example_db) self [(5007, 5008)] (Some [1])
     visit_time s = (Ok None, s))
  /\ (read_forced_sources_months (config self) = 0 ->
      getDiaForcedSources (H := example_cluster example_db) self [(5007, 5008)]
        (Some [1]) visit_time s = (Ok None, s)).
Proof.
  intros self visit_time s.
  apply (zero_months_returns_none (H := example_cluster example_db) self
           [(5007, 5008)] (Some [1]) visit_time s).
Defined.





(** A property of every element of an explicit list, element by element. *)
Ltac forall_elements tac :=
  apply Forall_forall; repeat (apply List.Forall_cons; [tac |]); apply List.Forall_nil.

(** * The ingest path *)

Section Ingest.

Context `{External}.

Lemma res_mapM_Forall2 {A B} (f : A -> PyResult B) (xs : list A) (ys : list B) :
  res_mapM f xs = Ok ys -> Forall2 (fun x y => f x = Ok y) xs ys.
Proof.
  revert ys. induction xs as [| x xs IH]; intros ys Hm; simpl in Hm.
  - injection Hm as <-. constructor.
  - destruct (f x) as [y |] eqn:Hx; [| discriminate]. simpl in Hm.
    destruct (res_mapM f xs) as [ys' |]; [| discriminate]. simpl in Hm.
    injection Hm as <-. constructor; [exact Hx | by apply IH].
Qed.

Lemma res_mapM_length {A B} (f : A -> PyResult B) (xs : list A) (ys : list B) :
  res_mapM f xs = Ok ys -> length ys = length xs.
Proof. intros Hm. symmetry. eapply Forall2_length, res_mapM_Forall2, Hm. Qed.

Lemma res_mapM_ok {A B} (f : A -> PyResult B) (xs : list A) :
  Forall (fun x => exists y, f x = Ok y) xs -> exists ys, res_mapM f xs = Ok ys.
Proof.
  induction 1 as [| x xs [y Hy] _ [ys Hys]]; simpl.
  - by eexists.
  - rewrite Hy, Hys. by eexists.
Qed.

Lemma res_mapM_raise {A B} (f : A -> PyResult B) (xs : list A) (x : A) (e : PyError) :
  x ∈ xs -> f x = Raise e -> exists e', res_mapM f xs = Raise e'.
Proof.
  intros Hin Hx. induction xs as [| x' xs IH]; [by apply elem_of_nil in Hin |].
  simpl. apply elem_of_cons in Hin as [<- | Hin].
  - rewrite Hx. by eexists.
  - destruct (f x'); simpl; [| by eexists].
    destruct (IH Hin) as [e' ->]. by eexists.
Qed.

Lemma df_getitem_ok (df : DataFrame) (col : string) (values : list Value) :
  df_getitem df col = Ok values ->
  col ∈ columns df /\ values = (fun row => cell row col) <$> rows df.
Proof.
  unfold df_getitem. case_bool_decide; [| discriminate].
  intros [= <-]. done.
Qed.

Lemma df_getitem_in (df : DataFrame) (col : string) :
  col ∈ columns df ->
  df_getitem df col = Ok ((fun row => cell row col) <$> rows df).
Proof. intros Hin. unfold df_getitem. by rewrite bool_decide_eq_true_2. Qed.

Lemma df_getitem_notin (df : DataFrame) (col : string) :
  col ∉ columns df -> df_getitem df col = Raise (KeyError (VStr col)).
Proof. intros Hin. unfold df_getitem. by rewrite bool_decide_eq_false_2. Qed.

Lemma df_setitem_apdb_part (df : DataFrame) (apdb_part : list Z) :
  length apdb_part = length (rows df) ->
  df_setitem df "apdb_part" (VInt <$> apdb_part) = Ok (with_apdb_part df apdb_part).
Proof.
  intros Hlen. unfold df_setitem, shape0. rewrite length_fmap, Hlen.
  by rewrite Nat.eqb_refl.
Qed.

(** [df = df.copy(); df["apdb_part"] = apdb_part]: the new frame is a new
    object, the frame copied is not touched. *)
Lemma copy_with_apdb_part (df : Ref) (frame : DataFrame) (apdb_part : list Z)
  (s : State) :
  heap s !! df = Some frame ->
  length apdb_part = length (rows frame) ->
  (df' <- df_copy df ;;
   df_setitem_ref df' "apdb_part" (VInt <$> apdb_part) ;;; py_ret df') s
  = (Ok (length (heap s)), allocated s (with_apdb_part frame apdb_part)).
Proof.
  intros Hdf Hlen.
  unfold py_bind, df_copy, py_bind, df_deref, df_new, df_setitem_ref, py_bind,
    df_deref, py_lift, py_ret, allocated.
  rewrite Hdf. cbn. rewrite list_lookup_middle by reflexivity.
  rewrite df_setitem_apdb_part by exact Hlen. cbn.
  rewrite insert_app_r_alt by reflexivity. by rewrite Nat.sub_diag.
Qed.

Lemma obj_apdb_part_length (self : ApdbCassandra) (frame : DataFrame)
  (parts : list Z) :
  obj_apdb_part self frame = Ok parts -> length parts = length (rows frame).
Proof.
  unfold obj_apdb_part. intros Hp.
  destruct (unpack2 _) as [cols |]; [| discriminate]. simpl in Hp.
  destruct (df_getitem frame cols.1) as [ras |] eqn:Hra; [| discriminate].
  destruct (df_getitem frame cols.2) as [decs |] eqn:Hdec; [| discriminate].
  simpl in Hp. apply res_mapM_length in Hp. rewrite Hp.
  apply df_getitem_ok in Hra as [_ ->], Hdec as [_ ->].
  rewrite length_zip_with, !length_fmap. lia.
Qed.

Lemma src_apdb_part_length (self : ApdbCassandra) (frame objs : DataFrame)
  (parts : list Z) :
  src_apdb_part self frame objs = Ok parts -> length parts = length (rows frame).
Proof.
  unfold src_apdb_part. intros Hp.
  destruct (pixel_id_map_of objs) as [m |]; [| discriminate]. simpl in Hp.
  destruct (unpack2 _) as [cols |]; [| discriminate]. simpl in Hp.
  destruct (df_getitem frame "diaObjectId") as [ids |] eqn:Hid; [| discriminate].
  destruct (df_getitem frame cols.1) as [ras |] eqn:Hra; [| discriminate].
  destruct (df_getitem frame cols.2) as [decs |] eqn:Hdec; [| discriminate].
  simpl in Hp. apply res_mapM_length in Hp. rewrite Hp.
  apply df_getitem_ok in Hid as [_ ->], Hra as [_ ->], Hdec as [_ ->].
  rewrite !length_zip_with, !length_fmap. lia.
Qed.

Lemma fsrc_apdb_part_length (frame objs : DataFrame) (parts : list Z) :
  fsrc_apdb_part frame objs = Ok parts -> length parts = length (rows frame).
Proof.
  unfold fsrc_apdb_part. intros Hp.
  destruct (pixel_id_map_of objs) as [m |]; [| discriminate]. simpl in Hp.
  destruct (df_getitem frame "diaObjectId") as [ids |] eqn:Hid; [| discriminate].
  simpl in Hp. apply res_mapM_length in Hp. rewrite Hp.
  apply df_getitem_ok in Hid as [_ ->]. by rewrite length_fmap.
Qed.

Lemma add_obj_part_run (self : ApdbCassandra) (df : Ref) (frame : DataFrame)
  (s : State) :
  heap s !! df = Some frame ->
  _add_obj_part self df s = annotated s frame (obj_apdb_part self frame).
Proof.
  intros Hdf. unfold _add_obj_part, annotated.
  unfold py_bind at 1. unfold df_deref at 1. rewrite Hdf.
  unfold py_bind at 1, py_lift.
  destruct (obj_apdb_part self frame) as [parts |] eqn:Hp; [| reflexivity].
  apply copy_with_apdb_part; [exact Hdf | by eapply obj_apdb_part_length].
Qed.

Lemma add_src_part_run (self : ApdbCassandra) (sources objs : Ref)
  (frame objs_frame : DataFrame) (s : State) :
  heap s !! sources = Some frame ->
  heap s !! objs = Some objs_frame ->
  _add_src_part self sources objs s
  = annotated s frame (src_apdb_part self frame objs_frame).
Proof.
  intros Hdf Hobjs. unfold _add_src_part, annotated.
  unfold py_bind at 1. unfold df_deref at 1. rewrite Hobjs.
  unfold py_bind at 1. unfold df_deref at 1. rewrite Hdf.
  unfold py_bind at 1, py_lift.
  destruct (src_apdb_part self frame objs_frame) as [parts |] eqn:Hp;
    [| reflexivity].
  apply copy_with_apdb_part; [exact Hdf | by eapply src_apdb_part_length].
Qed.

Lemma add_fsrc_part_run (self : ApdbCassandra) (sources objs : Ref)
  (frame objs_frame : DataFrame) (s : State) :
  heap s !! sources = Some frame ->
  heap s !! objs = Some objs_frame ->
  _add_fsrc_part self sources objs s
  = annotated s frame (fsrc_apdb_part frame objs_frame).
Proof.
  intros Hdf Hobjs. unfold _add_fsrc_part, annotated.
  unfold py_bind at 1. unfold df_deref at 1. rewrite Hobjs.
  unfold py_bind at 1. unfold df_deref at 1. rewrite Hdf.
  unfold py_bind at 1, py_lift.
  destruct (fsrc_apdb_part frame objs_frame) as [parts |] eqn:Hp;
    [| reflexivity].
  apply copy_with_apdb_part; [exact Hdf | by eapply fsrc_apdb_part_length].
Qed.

(** ** The frames of the caller *)

Lemma keeps_ret {A} (a : A) : keeps_frames (py_ret a).
Proof. intros s. reflexivity. Qed.

Lemma keeps_raise {A} (e : PyError) : keeps_frames (py_raise (A := A) e).
Proof. intros s. reflexivity. Qed.

Lemma keeps_lift {A} (r : PyResult A) : keeps_frames (py_lift r).
Proof. intros s. reflexivity. Qed.

Lemma keeps_bind {A B} (c : Py A) (k : A -> Py B) :
  keeps_frames c -> (forall a, keeps_frames (k a)) -> keeps_frames (py_bind c k).
Proof.
  intros Hc Hk s. unfold py_bind. specialize (Hc s).
  destruct (c s) as [[a | e] s']; simpl in *; [| exact Hc].
  etrans; [exact Hc | apply Hk].
Qed.

Lemma keeps_deref (r : Ref) : keeps_frames (df_deref r).
Proof. intros s. unfold df_deref. by destruct (heap s !! r). Qed.

Lemma keeps_execute_all (queries : list Statement) :
  keeps_frames (session_execute_all queries).
Proof. intros s. unfold session_execute_all. by destruct (first_error queries). Qed.

Lemma keeps_annotated (s : State) (frame : DataFrame) (parts : PyResult (list Z)) :
  heap s `prefix_of` heap (annotated s frame parts).2.
Proof. destruct parts; simpl; [by apply prefix_app_r | reflexivity]. Qed.

Lemma keeps_add_obj_part (self : ApdbCassandra) (df : Ref) :
  keeps_frames (_add_obj_part self df).
Proof.
  intros s. destruct (heap s !! df) as [frame |] eqn:Hdf.
  - rewrite (add_obj_part_run _ _ frame) by exact Hdf. apply keeps_annotated.
  - unfold _add_obj_part, py_bind, df_deref. by rewrite Hdf.
Qed.

Lemma keeps_add_src_part (self : ApdbCassandra) (sources objs : Ref) :
  keeps_frames (_add_src_part self sources objs).
Proof.
  intros s. destruct (heap s !! objs) as [objs_frame |] eqn:Hobjs;
    [destruct (heap s !! sources) as [frame |] eqn:Hdf |].
  - rewrite (add_src_part_run _ _ _ frame objs_frame) by assumption.
    apply keeps_annotated.
  - unfold _add_src_part, py_bind, df_deref. by rewrite Hobjs, Hdf.
  - unfold _add_src_part, py_bind, df_deref. by rewrite Hobjs.
Qed.

Lemma keeps_add_fsrc_part (self : ApdbCassandra) (sources objs : Ref) :
  keeps_frames (_add_fsrc_part self sources objs).
Proof.
  intros s. destruct (heap s !! objs) as [objs_frame |] eqn:Hobjs;
    [destruct (heap s !! sources) as [frame |] eqn:Hdf |].
  - rewrite (add_fsrc_part_run _ _ _ frame objs_frame) by assumption.
    apply keeps_annotated.
  - unfold _add_fsrc_part, py_bind, df_deref. by rewrite Hobjs, Hdf.
  - unfold _add_fsrc_part, py_bind, df_deref. by rewrite Hobjs.
Qed.

(** The steps of a computation that only reads frames and talks to the
    session. *)
Ltac keeps_step :=
  first
    [ apply keeps_ret | apply keeps_raise | apply keeps_lift | apply keeps_deref
    | apply keeps_execute_all
    | apply keeps_add_obj_part | apply keeps_add_src_part
    | apply keeps_add_fsrc_part
    | apply keeps_bind; [| intros ?]
    | match goal with
      | |- keeps_frames (match ?x with _ => _ end) => destruct x
      | |- keeps_frames (let (_, _) := ?x in _) => destruct x
      end ].

Lemma keeps_storeObjectsPandas (self : ApdbCassandra) (objects : Ref)
  (table_name : ApdbTables) (extra_columns : list (string * Value))
  (time_part : option Z) :
  keeps_frames (_storeObjectsPandas self objects table_name extra_columns time_part).
Proof. unfold _storeObjectsPandas, session_execute. repeat keeps_step. Qed.

Lemma keeps_storeDiaObjects (self : ApdbCassandra) (objs : Ref)
  (visit_time : DateTime) :
  keeps_frames (_storeDiaObjects self objs visit_time).
Proof.
  unfold _storeDiaObjects.
  repeat first [apply keeps_storeObjectsPandas | keeps_step].
Qed.

Lemma keeps_storeDiaSources (self : ApdbCassandra) (table_name : ApdbTables)
  (sources : Ref) (visit_time : DateTime) :
  keeps_frames (_storeDiaSources self table_name sources visit_time).
Proof.
  unfold _storeDiaSources.
  repeat first [apply keeps_storeObjectsPandas | keeps_step].
Qed.

Lemma keeps_store (self : ApdbCassandra) (visit_time : DateTime) (objects : Ref)
  (sources forced_sources : option Ref) :
  keeps_frames (store self visit_time objects sources forced_sources).
Proof.
  unfold store.
  repeat first [apply keeps_storeDiaObjects | apply keeps_storeDiaSources
               | keeps_step].
Qed.

(** C10.  [store] mutates no frame of the caller: every frame object that
    exists before the call holds the same columns and values after it,
    whatever the outcome.  Each annotation step that succeeds returns a new
    object, the copy of its input with the column [apdb_part] added or
    overwritten. *)
Theorem store_keeps_input_frames
  (self : ApdbCassandra) (visit_time : DateTime) (objects : Ref)
  (sources forced_sources : option Ref) (s : State) :
  (forall r frame,
     heap s !! r = Some frame ->
     heap (store self visit_time objects sources forced_sources s).2 !! r
     = Some frame)
  /\ (forall df objs frame r' s',
        heap s !! df = Some frame ->
        _add_obj_part self df s = (Ok r', s')
        \/ _add_src_part self df objs s = (Ok r', s')
        \/ _add_fsrc_part self df objs s = (Ok r', s') ->
        heap s !! r' = None
        /\ exists apdb_part,
             length apdb_part = length (rows frame)
             /\ heap s' = heap s ++ [with_apdb_part frame apdb_part]
             /\ heap s' !! r' = Some (with_apdb_part frame apdb_part)).
Proof.
  split.
  - intros r frame Hr.
    destruct (keeps_store self visit_time objects sources forced_sources s)
      as [k ->].
    by apply lookup_app_l_Some.
  - intros df objs frame r' s' Hdf Hrun.
    assert (Hann : exists parts,
               annotated s frame parts = (Ok r', s')
               /\ forall apdb_part, parts = Ok apdb_part ->
                                    length apdb_part = length (rows frame)).
    { destruct Hrun as [Hrun | [Hrun | Hrun]].
      - rewrite (add_obj_part_run _ _ frame) in Hrun by exact Hdf.
        eexists. split; [exact Hrun |]. intros. by eapply obj_apdb_part_length.
      - destruct (heap s !! objs) as [objs_frame |] eqn:Hobjs.
        + rewrite (add_src_part_run _ _ _ frame objs_frame) in Hrun by assumption.
          eexists. split; [exact Hrun |]. intros. by eapply src_apdb_part_length.
        + unfold _add_src_part, py_bind, df_deref in Hrun.
          rewrite Hobjs in Hrun. discriminate.
      - destruct (heap s !! objs) as [objs_frame |] eqn:Hobjs.
        + rewrite (add_fsrc_part_run _ _ _ frame objs_frame) in Hrun by assumption.
          eexists. split; [exact Hrun |]. intros. by eapply fsrc_apdb_part_length.
        + unfold _add_fsrc_part, py_bind, df_deref in Hrun.
          rewrite Hobjs in Hrun. discriminate. }
    destruct Hann as ([apdb_part | e] & Hann & Hlen); simpl in Hann;
      [| discriminate].
    injection Hann as <- <-. split.
    + apply lookup_ge_None. lia.
    + exists apdb_part. split; [by apply Hlen |]. split; [reflexivity |].
      simpl. by apply list_lookup_middle.
Qed.

(** ** The partition of sources *)

Lemma py_dict_lookup_zip_Some (ks vs : list Value) (k v : Value) :
  py_dict_lookup (zip ks vs) k = Some v ->
  exists j k', ks !! j = Some k' /\ vs !! j = Some v /\ py_eq k' k = true.
Proof.
  revert vs. induction ks as [| k0 ks IH]; intros [| v0 vs] Hl; try discriminate.
  simpl in Hl. destruct (py_dict_lookup (zip ks vs) k) as [v' |] eqn:Hrest.
  - injection Hl as ->. destruct (IH vs Hrest) as (j & k' & ? & ? & ?).
    by exists (S j), k'.
  - destruct (py_eq k0 k) eqn:Heq; [| discriminate]. injection Hl as ->.
    by exists 0%nat, k0.
Qed.

Lemma py_dict_lookup_zip_None (ks vs : list Value) (k : Value) :
  (forall k', k' ∈ ks -> py_eq k' k = false) ->
  py_dict_lookup (zip ks vs) k = None.
Proof.
  intros Hno. destruct (py_dict_lookup (zip ks vs) k) as [v |] eqn:Hl; [| done].
  apply py_dict_lookup_zip_Some in Hl as (j & k' & Hj & _ & Heq).
  rewrite Hno in Heq; [discriminate |]. by eapply list_elem_of_lookup_2.
Qed.

Lemma py_dict_lookup_zip_found (ks vs : list Value) (k k' : Value) :
  length ks = length vs -> k' ∈ ks -> py_eq k' k = true ->
  exists v, py_dict_lookup (zip ks vs) k = Some v.
Proof.
  revert vs. induction ks as [| k0 ks IH]; intros [| v0 vs] Hlen Hin Heq;
    try discriminate; [by apply elem_of_nil in Hin |].
  simpl. destruct (py_dict_lookup (zip ks vs) k) as [v' |] eqn:Hrest;
    [by eexists |].
  apply elem_of_cons in Hin as [<- | Hin].
  - rewrite Heq. by eexists.
  - destruct (IH vs) as [v Hv]; [by injection Hlen | done | done |]. congruence.
Qed.

Lemma pixel_id_map_of_ok (objs : DataFrame) (m : PyDict) :
  pixel_id_map_of objs = Ok m ->
  m = zip ((fun o => cell o "diaObjectId") <$> rows objs)
          ((fun o => cell o "apdb_part") <$> rows objs).
Proof.
  unfold pixel_id_map_of. intros Hm.
  destruct (df_getitem objs "diaObjectId") as [ids |] eqn:Hid; [| discriminate].
  destruct (df_getitem objs "apdb_part") as [parts |] eqn:Hp; [| discriminate].
  apply df_getitem_ok in Hid as [_ ->], Hp as [_ ->]. simpl in Hm. congruence.
Qed.

(** The value found for the identifier of a source is the partition of an
    object of the catalog with that identifier. *)
Lemma pixel_id_map_lookup (objs : DataFrame) (m : PyDict) (id v : Value) :
  pixel_id_map_of objs = Ok m ->
  py_dict_lookup m id = Some v ->
  exists o, object_with_id objs id o /\ cell o "apdb_part" = v.
Proof.
  intros Hm Hl. apply pixel_id_map_of_ok in Hm as ->.
  apply py_dict_lookup_zip_Some in Hl as (j & k' & Hk & Hv & Heq).
  apply list_lookup_fmap_Some in Hk as (o & -> & Ho).
  apply list_lookup_fmap_Some in Hv as (o' & -> & Ho').
  assert (o' = o) as -> by congruence.
  exists o. split; [| done]. split; [| done]. by eapply list_elem_of_lookup_2.
Qed.

Lemma own_pixel_ok (ra dec : Value) (z : Z) :
  own_pixel ra dec = Ok z ->
  exists r d, as_number ra = Some r /\ as_number dec = Some d /\ z = pixel r d.
Proof.
  unfold own_pixel, np_int64_of.
  destruct (as_number ra) as [r |], (as_number dec) as [d |]; try discriminate.
  destruct (_ && _); [| discriminate]. intros [= <-]. by exists r, d.
Qed.

Lemma np_int64_of_in_range (z : Z) : in_int64 z -> np_int64_of (VInt z) = Ok z.
Proof.
  intros [Hlo Hhi]. unfold np_int64_of.
  destruct (Z.leb_spec int64_min z); [| lia].
  destruct (Z.leb_spec z int64_max); [reflexivity | lia].
Qed.

Lemma with_apdb_part_row (frame : DataFrame) (parts : list Z) (i : nat)
  (row : gmap string Value) (z : Z) :
  rows frame !! i = Some row -> parts !! i = Some z ->
  rows (with_apdb_part frame parts) !! i = Some (<["apdb_part" := VInt z]> row).
Proof.
  intros Hrow Hz. simpl. apply lookup_zip_with_Some.
  exists row, (VInt z). split; [done |]. split; [done |].
  by rewrite list_lookup_fmap, Hz.
Qed.

Lemma annotated_ok (s s' : State) (frame : DataFrame) (parts : PyResult (list Z))
  (r' : Ref) :
  annotated s frame parts = (Ok r', s') ->
  exists apdb_part,
    parts = Ok apdb_part
    /\ heap s' !! r' = Some (with_apdb_part frame apdb_part).
Proof.
  destruct parts as [apdb_part | e]; simpl; [| discriminate].
  intros [= <- <-]. exists apdb_part. split; [done |].
  simpl. by apply list_lookup_middle.
Qed.

Lemma zip_fmap_same {A B C} (f : A -> B) (g : A -> C) (l : list A) :
  zip (f <$> l) (g <$> l) = (fun x => (f x, g x)) <$> l.
Proof. induction l as [| x l IH]; [done |]. csimpl. by f_equal. Qed.

Lemma src_apdb_part_rows (self : ApdbCassandra) (frame objs : DataFrame)
  (parts : list Z) :
  src_apdb_part self frame objs = Ok parts ->
  exists ra_col dec_col,
    ra_dec_columns (config self) = [ra_col; dec_col]
    /\ forall i row,
         rows frame !! i = Some row ->
         exists z, parts !! i = Some z
                   /\ src_row_partition objs ra_col dec_col row z.
Proof.
  unfold src_apdb_part. intros Hp.
  destruct (pixel_id_map_of objs) as [m |] eqn:Hm; [| discriminate].
  simpl in Hp. unfold unpack2 in Hp.
  destruct (ra_dec_columns (config self)) as [| ra_col [| dec_col [| ? ?]]];
    try discriminate.
  simpl in Hp.
  destruct (df_getitem frame "diaObjectId") as [ids |] eqn:Hid; [| discriminate].
  destruct (df_getitem frame ra_col) as [ras |] eqn:Hra; [| discriminate].
  destruct (df_getitem frame dec_col) as [decs |] eqn:Hdec; [| discriminate].
  simpl in Hp.
  apply df_getitem_ok in Hid as [_ ->], Hra as [_ ->], Hdec as [_ ->].
  rewrite !zip_fmap_same in Hp. apply res_mapM_Forall2 in Hp.
  exists ra_col, dec_col. split; [done |]. intros i row Hrow.
  eapply Forall2_lookup_l in Hp as (z & Hz & Hf);
    [| by rewrite list_lookup_fmap, Hrow].
  exists z. split; [done |]. unfold src_row_partition. simpl in Hf.
  destruct (py_eq (cell row "diaObjectId") (VInt 0)).
  - by apply own_pixel_ok.
  - unfold py_dict_getitem in Hf.
    destruct (py_dict_lookup m (cell row "diaObjectId")) as [v |] eqn:Hl;
      [| discriminate].
    simpl in Hf. destruct (pixel_id_map_lookup _ _ _ _ Hm Hl) as (o & Ho & <-).
    by exists o.
Qed.

Lemma fsrc_apdb_part_rows (frame objs : DataFrame) (parts : list Z) :
  fsrc_apdb_part frame objs = Ok parts ->
  forall i row,
    rows frame !! i = Some row ->
    exists z, parts !! i = Some z /\ fsrc_row_partition objs row z.
Proof.
  unfold fsrc_apdb_part. intros Hp.
  destruct (pixel_id_map_of objs) as [m |] eqn:Hm; [| discriminate].
  simpl in Hp.
  destruct (df_getitem frame "diaObjectId") as [ids |] eqn:Hid; [| discriminate].
  simpl in Hp. apply df_getitem_ok in Hid as [_ ->].
  apply res_mapM_Forall2 in Hp. intros i row Hrow.
  eapply Forall2_lookup_l in Hp as (z & Hz & Hf);
    [| by rewrite list_lookup_fmap, Hrow].
  exists z. split; [done |]. simpl in Hf. unfold py_dict_getitem in Hf.
  destruct (py_dict_lookup m (cell row "diaObjectId")) as [v |] eqn:Hl;
    [| discriminate].
  simpl in Hf. destruct (pixel_id_map_lookup _ _ _ _ Hm Hl) as (o & Ho & <-).
  by exists o.
Qed.

(** A forced source whose identifier is the identifier of no object of the
    catalog stops [_add_fsrc_part]. *)
Lemma fsrc_apdb_part_unknown_id (frame objs : DataFrame)
  (row : gmap string Value) :
  row ∈ rows frame ->
  (forall o, ~ object_with_id objs (cell row "diaObjectId") o) ->
  exists e, fsrc_apdb_part frame objs = Raise e.
Proof.
  intros Hrow Hno. unfold fsrc_apdb_part.
  destruct (pixel_id_map_of objs) as [m |] eqn:Hm; [| by eexists].
  simpl. destruct (df_getitem frame "diaObjectId") as [ids |] eqn:Hid;
    [| by eexists].
  simpl. apply df_getitem_ok in Hid as [_ ->].
  eapply res_mapM_raise.
  - apply list_elem_of_fmap. by exists row.
  - simpl. unfold py_dict_getitem.
    destruct (py_dict_lookup m (cell row "diaObjectId")) as [v |] eqn:Hl; [| done].
    destruct (pixel_id_map_lookup _ _ _ _ Hm Hl) as (o & Ho & _).
    by destruct (Hno o).
Qed.

Lemma src_apdb_part_ready (self : ApdbCassandra) (frame objs : DataFrame)
  (ra_col dec_col : string) :
  ra_dec_columns (config self) = [ra_col; dec_col] ->
  "diaObjectId" ∈ columns objs -> "apdb_part" ∈ columns objs ->
  "diaObjectId" ∈ columns frame -> ra_col ∈ columns frame ->
  dec_col ∈ columns frame ->
  (forall o, o ∈ rows objs -> exists z, cell o "apdb_part" = VInt z /\ in_int64 z) ->
  (forall row, row ∈ rows frame -> src_row_ready objs ra_col dec_col row) ->
  exists parts, src_apdb_part self frame objs = Ok parts.
Proof.
  intros Hcols Hoid Hopart Hid Hra Hdec Hobjs Hrows.
  unfold src_apdb_part, pixel_id_map_of.
  rewrite !df_getitem_in by assumption. simpl.
  set (m := zip _ _). rewrite Hcols. simpl.
  rewrite !df_getitem_in by assumption. simpl.
  rewrite !zip_fmap_same. apply res_mapM_ok. apply Forall_fmap, Forall_forall.
  intros row Hrow. simpl. specialize (Hrows row Hrow).
  unfold src_row_ready in Hrows.
  destruct (py_eq (cell row "diaObjectId") (VInt 0)).
  - destruct Hrows as (ra & dec & Hr & Hd & Hin). unfold own_pixel.
    rewrite Hr, Hd. exists (pixel ra dec). by apply np_int64_of_in_range.
  - destruct Hrows as (o & Ho & Heq).
    destruct (py_dict_lookup_zip_found
                ((fun o => cell o "diaObjectId") <$> rows objs)
                ((fun o => cell o "apdb_part") <$> rows objs)
                (cell row "diaObjectId") (cell o "diaObjectId")) as [v Hv].
    + by rewrite !length_fmap.
    + apply list_elem_of_fmap. by exists o.
    + done.
    + unfold py_dict_getitem. subst m. rewrite Hv. simpl.
      apply py_dict_lookup_zip_Some in Hv as (j & k' & _ & Hj & _).
      apply list_lookup_fmap_Some in Hj as (o' & -> & Ho').
      destruct (Hobjs o') as (z & -> & Hz); [by eapply list_elem_of_lookup_2 |].
      exists z. by apply np_int64_of_in_range.
Qed.


End Ingest.

Lemma store_keeps_input_frames_witness :
  let self := example_apdb default_config in
  let s := initial_state [object_catalog; source_catalog; forced_catalog] in
  let s' := (store (H := example_cluster ∅) self visit_2021 0%nat (Some 1%nat)
               (Some 2%nat) s).2 in
  heap s' !! 0%nat = Some object_catalog
  /\ heap s' !! 1%nat = Some source_catalog
  /\ heap s' !! 2%nat = Some forced_catalog.
Proof.
  intros self s s'.
  destruct (store_keeps_input_frames (H := example_cluster ∅) self visit_2021
              0%nat (Some 1%nat) (Some 2%nat) s) as [Hkeep _].
  repeat split; apply Hkeep; reflexivity.
Defined.

(** The object catalog of the examples after [_add_obj_part]. *)
Lemma object_catalog_annotated :
  obj_apdb_part (H := example_cluster ∅) (example_apdb default_config)
    object_catalog = Ok [5007; 6007].
Proof. vm_compute. reflexivity. Qed.



(** ** Catalogs without a key column *)

Section MissingKeys.

Context `{External}.

Lemma elem_of_List_filter {A} (f : A -> bool) (l : list A) (x : A) :
  x ∈ List.filter f l <-> x ∈ l /\ f x = true.
Proof. rewrite !list_elem_of_In. apply filter_In. Qed.

Lemma assoc_lookup_fmap_name (cols : list ColumnDef.t) (field : string)
  (col : ColumnDef.t) :
  assoc_lookup ((fun c => (ColumnDef.name c, c)) <$> cols) field = Some col ->
  ColumnDef.name col = field.
Proof.
  induction cols as [| c cols IH]; [discriminate |]. simpl.
  case_bool_decide; [by intros [= <-] | exact IH].
Qed.

Lemma getColumnMap_name (schema : ApdbCassandraSchema) (table_name field : string)
  (column_map : list (string * ColumnDef.t)) (col : ColumnDef.t) :
  getColumnMap schema table_name = Ok column_map ->
  assoc_lookup column_map field = Some col ->
  ColumnDef.name col = field.
Proof.
  unfold getColumnMap. destruct (assoc_getitem _ _); [| discriminate].
  simpl. intros [= <-]. apply assoc_lookup_fmap_name.
Qed.

Lemma required_columns_getColumnMap (self : ApdbCassandra) (table_name : ApdbTables)
  (required : list string) :
  required_columns_of self table_name = Ok required ->
  exists column_map,
    getColumnMap (_schema self) (ApdbTables_name table_name) = Ok column_map.
Proof.
  unfold required_columns_of, partitionColumns, getColumnMap.
  destruct (assoc_getitem _ _); [by eexists | discriminate].
Qed.

(** The check of [_storeObjectsPandas]: a key column that neither the
    catalog nor the extra columns define stops the call before anything
    goes to the session. *)
Lemma storeObjectsPandas_missing_key (self : ApdbCassandra) (objects : Ref)
  (table_name : ApdbTables) (extra_columns : list (string * Value))
  (time_part : option Z) (s : State) (frame : DataFrame)
  (required : list string) (c : string) :
  heap s !! objects = Some frame ->
  required_columns_of self table_name = Ok required ->
  c ∈ required ->
  c ∉ columns frame ->
  c ∉ extra_columns.*1 ->
  _storeObjectsPandas self objects table_name extra_columns time_part s
  = (Raise missing_key_error, s).
Proof.
  intros Hdf Hreq Hc Hframe Hextra.
  destruct (required_columns_getColumnMap _ _ _ Hreq) as [column_map Hmap].
  unfold _storeObjectsPandas, py_bind, df_deref, py_lift.
  rewrite Hdf, Hmap, Hreq.
  match goal with
  | |- match ?missing with _ => _ end s = _ =>
      assert (Hin : c ∈ missing); [| destruct missing; [| reflexivity]]
  end.
  - apply elem_of_List_filter. split; [exact Hc |].
    apply negb_true_iff, bool_decide_eq_false.
    intros [Hf | He]%elem_of_app; [| done].
    apply list_elem_of_omap in Hf as (field & Hfield & Hname).
    apply elem_of_List_filter in Hfield as [Hfield _].
    destruct (assoc_lookup column_map field) as [col |] eqn:Hcol;
      [| discriminate].
    simpl in Hname. injection Hname as <-.
    by rewrite (getColumnMap_name _ _ _ _ _ Hmap Hcol) in Hframe.
  - by apply elem_of_nil in Hin.
Qed.

Lemma with_apdb_part_columns (frame : DataFrame) (parts : list Z) (c : string) :
  c ∉ columns frame -> c <> "apdb_part" ->
  c ∉ columns (with_apdb_part frame parts).
Proof.
  intros Hc Hne. simpl. case_bool_decide; [done |].
  intros [? | ->%list_elem_of_singleton]%elem_of_app; done.
Qed.

(** [store] with an object catalog that lacks a key column of
    [DiaObjectLast], the first table written. *)
Lemma store_missing_object_key (self : ApdbCassandra) (visit_time : DateTime)
  (objects : Ref) (sources forced_sources : option Ref) (s : State)
  (frame : DataFrame) (required : list string) (c : string) :
  heap s !! objects = Some frame ->
  required_columns_of self DiaObjectLast = Ok required ->
  c ∈ required ->
  c ∉ columns frame ->
  c <> "apdb_part" -> c <> "lastNonForcedSource" ->
  exists e s',
    store self visit_time objects sources forced_sources s = (Raise e, s')
    /\ sent s' = sent s
    /\ (forall parts, obj_apdb_part self frame = Ok parts -> e = missing_key_error).
Proof.
  intros Hdf Hreq Hc Hframe Hpart Hextra.
  unfold store. unfold py_bind at 1.
  rewrite (add_obj_part_run _ _ frame) by exact Hdf.
  destruct (obj_apdb_part self frame) as [parts |] eqn:Hparts; simpl.
  - unfold py_bind at 1. unfold _storeDiaObjects. unfold py_bind at 1.
    erewrite storeObjectsPandas_missing_key; [| | exact Hreq | exact Hc | |].
    + eexists _, _. split; [reflexivity |]. split; [reflexivity |]. done.
    + simpl. by apply list_lookup_middle.
    + by apply with_apdb_part_columns.
    + simpl. by intros ->%list_elem_of_singleton.
  - eexists _, _. split; [reflexivity |]. split; [reflexivity |]. discriminate.
Qed.

Lemma storeDiaSources_missing_key (self : ApdbCassandra) (table_name : ApdbTables)
  (sources : Ref) (visit_time : DateTime) (s : State) (frame : DataFrame)
  (required : list string) (c : string) :
  heap s !! sources = Some frame ->
  required_columns_of self table_name = Ok required ->
  c ∈ required ->
  c ∉ columns frame ->
  c <> "apdb_time_part" ->
  exists e, _storeDiaSources self table_name sources visit_time s = (Raise e, s).
Proof.
  intros Hdf Hreq Hc Hframe Hne.
  unfold _storeDiaSources, py_bind, py_lift.
  destruct (_time_partition _ _) as [time_part |]; [| by eexists].
  destruct (negb _);
    (erewrite storeObjectsPandas_missing_key;
     [by eexists | exact Hdf | exact Hreq | exact Hc | exact Hframe |]).
  - simpl. by intros ->%list_elem_of_singleton.
  - simpl. apply not_elem_of_nil.
Qed.

(** An annotated catalog without a key column is not written. *)
Lemma annotated_missing_key (self : ApdbCassandra) (table_name : ApdbTables)
  (visit_time : DateTime) (s : State) (frame : DataFrame)
  (parts : PyResult (list Z)) (required : list string) (c : string) :
  required_columns_of self table_name = Ok required ->
  c ∈ required ->
  c ∉ columns frame ->
  c <> "apdb_part" -> c <> "apdb_time_part" ->
  exists e s',
    (let (r, s0) := annotated s frame parts in
     match r with
     | Ok sources => _storeDiaSources self table_name sources visit_time s0
     | Raise e => (Raise e, s0)
     end) = (Raise e, s')
    /\ sent s' = sent s.
Proof.
  intros Hreq Hc Hframe Hpart Htime. destruct parts as [apdb_part | e]; simpl.
  - destruct (storeDiaSources_missing_key self table_name (length (heap s))
                visit_time (allocated s (with_apdb_part frame apdb_part))
                (with_apdb_part frame apdb_part) required c) as [e He];
      [simpl; by apply list_lookup_middle | done | done
      | by apply with_apdb_part_columns | done |].
    rewrite He. by eexists _, _.
  - by eexists _, _.
Qed.

Lemma add_src_part_missing_key (self : ApdbCassandra) (sources objs : Ref)
  (visit_time : DateTime) (s : State) (frame : DataFrame)
  (required : list string) (c : string) :
  heap s !! sources = Some frame ->
  required_columns_of self DiaSource = Ok required ->
  c ∈ required ->
  c ∉ columns frame ->
  c <> "apdb_part" -> c <> "apdb_time_part" ->
  exists e s',
    (sources' <- _add_src_part self sources objs ;;
     _storeDiaSources self DiaSource sources' visit_time) s = (Raise e, s')
    /\ sent s' = sent s.
Proof.
  intros Hdf Hreq Hc Hframe Hpart Htime. unfold py_bind at 1.
  destruct (heap s !! objs) as [objs_frame |] eqn:Hobjs.
  - rewrite (add_src_part_run _ _ _ frame objs_frame) by assumption.
    by eapply annotated_missing_key.
  - unfold _add_src_part, py_bind, df_deref. rewrite Hobjs. by eexists _, _.
Qed.

Lemma add_fsrc_part_missing_key (self : ApdbCassandra) (sources objs : Ref)
  (visit_time : DateTime) (s : State) (frame : DataFrame)
  (required : list string) (c : string) :
  heap s !! sources = Some frame ->
  required_columns_of self DiaForcedSource = Ok required ->
  c ∈ required ->
  c ∉ columns frame ->
  c <> "apdb_part" -> c <> "apdb_time_part" ->
  exists e s',
    (sources' <- _add_fsrc_part self sources objs ;;
     _storeDiaSources self DiaForcedSource sources' visit_time) s = (Raise e, s')
    /\ sent s' = sent s.
Proof.
  intros Hdf Hreq Hc Hframe Hpart Htime. unfold py_bind at 1.
  destruct (heap s !! objs) as [objs_frame |] eqn:Hobjs.
  - rewrite (add_fsrc_part_run _ _ _ frame objs_frame) by assumption.
    by eapply annotated_missing_key.
  - unfold _add_fsrc_part, py_bind, df_deref. rewrite Hobjs. by eexists _, _.
Qed.

(** [store] with a source catalog that lacks a key column of [DiaSource]:
    nothing is sent after the statements of the object tables. *)
Lemma store_missing_source_key (self : ApdbCassandra) (visit_time : DateTime)
  (objects sources : Ref) (forced_sources : option Ref) (s s1 : State)
  (frame : DataFrame) (required : list string) (c : string) :
  heap s !! sources = Some frame ->
  required_columns_of self DiaSource = Ok required ->
  c ∈ required ->
  c ∉ columns frame ->
  c <> "apdb_part" -> c <> "apdb_time_part" ->
  store self visit_time objects None None s = (Ok tt, s1) ->
  exists e s',
    store self visit_time objects (Some sources) forced_sources s = (Raise e, s')
    /\ sent s' = sent s1.
Proof.
  intros Hdf Hreq Hc Hframe Hpart Htime Hprefix.
  assert (Hkept : heap s1 !! sources = Some frame).
  { destruct (keeps_store self visit_time objects None None s) as [k Hk].
    rewrite Hprefix in Hk. simpl in Hk. rewrite Hk. by apply lookup_app_l_Some. }
  unfold store in Hprefix |- *. unfold py_bind at 1 in Hprefix.
  unfold py_bind at 1.
  destruct (_add_obj_part self objects s) as [[objects' | e] s0]; [| discriminate].
  unfold py_bind at 1 in Hprefix. unfold py_bind at 1.
  destruct (_storeDiaObjects self objects' visit_time s0) as [[[] | e] s1'];
    [| discriminate].
  unfold py_bind, py_ret in Hprefix. injection Hprefix as ->.
  unfold py_bind at 1.
  destruct (add_src_part_missing_key self sources objects' visit_time s1 frame
              required c) as (e & s' & Hrun & Hsent); try done.
  rewrite Hrun. by eexists _, _.
Qed.

(** [store] with a forced source catalog that lacks a key column of
    [DiaForcedSource]: nothing is sent after the statements of the object
    and source tables. *)
Lemma store_missing_forced_source_key (self : ApdbCassandra)
  (visit_time : DateTime) (objects : Ref) (sources : option Ref)
  (forced_sources : Ref) (s s2 : State) (frame : DataFrame)
  (required : list string) (c : string) :
  heap s !! forced_sources = Some frame ->
  required_columns_of self DiaForcedSource = Ok required ->
  c ∈ required ->
  c ∉ columns frame ->
  c <> "apdb_part" -> c <> "apdb_time_part" ->
  store self visit_time objects sources None s = (Ok tt, s2) ->
  exists e s',
    store self visit_time objects sources (Some forced_sources) s = (Raise e, s')
    /\ sent s' = sent s2.
Proof.
  intros Hdf Hreq Hc Hframe Hpart Htime Hprefix.
  assert (Hkept : heap s2 !! forced_sources = Some frame).
  { destruct (keeps_store self visit_time objects sources None s) as [k Hk].
    rewrite Hprefix in Hk. simpl in Hk. rewrite Hk. by apply lookup_app_l_Some. }
  unfold store in Hprefix |- *. unfold py_bind at 1 in Hprefix.
  unfold py_bind at 1.
  destruct (_add_obj_part self objects s) as [[objects' | e] s0]; [| discriminate].
  unfold py_bind at 1 in Hprefix. unfold py_bind at 1.
  destruct (_storeDiaObjects self objects' visit_time s0) as [[[] | e] s1];
    [| discriminate].
  unfold py_bind at 1 in Hprefix. unfold py_bind at 1.
  match type of Hprefix with
  | (let (_, _) := ?run in _) = _ => destruct run as [[[] | e] s2'] eqn:Hsrc
  end; [| discriminate].
  unfold py_ret in Hprefix. injection Hprefix as ->.
  destruct (add_fsrc_part_missing_key self forced_sources objects' visit_time s2
              frame required c) as (e & s' & Hrun & Hsent); try done.
  rewrite Hrun. by eexists _, _.
Qed.

(** C8.  A catalog that lacks a partitioning or clustering column of the
    table it is stored in makes [_storeObjectsPandas] raise before any
    statement goes to the session.  When the object catalog lacks a key
    column of an object table, [store] raises before any statement at all
    is sent: [DiaObjectLast] is written first, and every key of [DiaObject]
    is a key of [DiaObjectLast] or a column that [store] adds.  When the
    source or forced source catalog lacks a key column of its table,
    [store] raises and nothing is sent after the statements of the tables
    written before it. *)
Theorem missing_key_raises_before_insert
  (self : ApdbCassandra) (s : State) (catalog : Ref) (frame : DataFrame)
  (c : string) :
  heap s !! catalog = Some frame ->
  c ∉ columns frame ->
  (forall table_name extra_columns time_part required,
     required_columns_of self table_name = Ok required ->
     c ∈ required ->
     c ∉ extra_columns.*1 ->
     _storeObjectsPandas self catalog table_name extra_columns time_part s
     = (Raise missing_key_error, s))
  /\ (forall visit_time sources forced_sources required_last required,
        required_columns_of self DiaObjectLast = Ok required_last ->
        required_columns_of self DiaObject = Ok required ->
        (forall k, k ∈ required ->
                   k ∈ required_last \/ k ∈ object_extra_fields (config self)) ->
        c ∈ required_last ++ required ->
        c ∉ "apdb_part" :: object_extra_fields (config self) ->
        exists e s',
          store self visit_time catalog sources forced_sources s = (Raise e, s')
          /\ sent s' = sent s
          /\ (forall parts, obj_apdb_part self frame = Ok parts ->
                            e = missing_key_error))
  /\ (forall visit_time objects forced_sources required s1,
        required_columns_of self DiaSource = Ok required ->
        c ∈ required ->
        c ∉ ["apdb_part"; "apdb_time_part"] ->
        store self visit_time objects None None s = (Ok tt, s1) ->
        exists e s',
          store self visit_time objects (Some catalog) forced_sources s
          = (Raise e, s')
          /\ sent s' = sent s1)
  /\ (forall visit_time objects sources required s2,
        required_columns_of self DiaForcedSource = Ok required ->
        c ∈ required ->
        c ∉ ["apdb_part"; "apdb_time_part"] ->
        store self visit_time objects sources None s = (Ok tt, s2) ->
        exists e s',
          store self visit_time objects sources (Some catalog) s = (Raise e, s')
          /\ sent s' = sent s2).
Proof.
  intros Hdf Hframe. split; [| split; [| split]].
  - intros table_name extra_columns time_part required Hreq Hc Hextra.
    by eapply storeObjectsPandas_missing_key.
  - intros visit_time sources forced_sources required_last required
      Hlast Hreq Hkeys Hc Hown.
    apply not_elem_of_cons in Hown as [Hpart Hown].
    assert (Hin : c ∈ required_last).
    { apply elem_of_app in Hc as [Hc | Hc]; [exact Hc |].
      destruct (Hkeys c Hc) as [Hk | Hk]; [exact Hk | done]. }
    eapply store_missing_object_key; try eassumption.
    intros ->. apply Hown. unfold object_extra_fields. left.
  - intros visit_time objects forced_sources required s1 Hreq Hc Hown Hprefix.
    apply not_elem_of_cons in Hown as [Hpart Hown].
    apply not_elem_of_cons in Hown as [Htime _].
    by eapply store_missing_source_key.
  - intros visit_time objects sources required s2 Hreq Hc Hown Hprefix.
    apply not_elem_of_cons in Hown as [Hpart Hown].
    apply not_elem_of_cons in Hown as [Htime _].
    by eapply store_missing_forced_source_key.
Qed.

End MissingKeys.

Lemma missing_key_raises_before_insert_witness :
  let self := example_apdb default_config in
  let s := initial_state [object_catalog_no_id; object_catalog] in
  _storeObjectsPandas (H := example_cluster ∅) self 0%nat DiaObjectLast [] None s
  = (Raise missing_key_error, s)
  /\ (exists e s',
        store (H := example_cluster ∅) self visit_2021 0%nat None None s
        = (Raise e, s')
        /\ sent s' = sent s
        /\ (forall parts,
              obj_apdb_part (H := example_cluster ∅) self object_catalog_no_id
              = Ok parts -> e = missing_key_error))
  /\ exists s1 e s',
       store (H := example_cluster ∅) self visit_2021 1%nat None None s
       = (Ok tt, s1)
       /\ store (H := example_cluster ∅) self visit_2021 1%nat (Some 0%nat) None s
          = (Raise e, s')
       /\ sent s' = sent s1.
Proof.
  intros self s.
  destruct (missing_key_raises_before_insert (H := example_cluster ∅) self s
              0%nat object_catalog_no_id "diaObjectId")
    as (Htable & Hstore & Hsources & _).
  - reflexivity.
  - apply (bool_decide_eq_false_1 _). vm_compute. reflexivity.
  - split; [| split].
    + apply (Htable DiaObjectLast [] None ["apdb_part"; "diaObjectId"]).
      * reflexivity.
      * right. left.
      * apply not_elem_of_nil.
    + apply (Hstore visit_2021 None None ["apdb_part"; "diaObjectId"]
               ["apdb_part"; "diaObjectId"; "validityStart"]).
      * reflexivity.
      * reflexivity.
      * intros k Hk. apply (bool_decide_unpack _).
        revert k Hk. forall_elements ltac:(vm_compute; exact I).
      * right. left.
      * apply (bool_decide_eq_false_1 _). vm_compute. reflexivity.
    + destruct (store (H := example_cluster ∅) self visit_2021 1%nat None None s)
        as [r s1] eqn:Hprefix.
      assert (Hr : r = Ok tt) by (by vm_compute in Hprefix; injection Hprefix).
      subst r. exists s1.
      destruct (Hsources visit_2021 1%nat None
                  ["apdb_part"; "diaObjectId"; "diaSourceId"] s1)
        as (e & s' & Hrun & Hsent).
      * reflexivity.
      * right. left.
      * apply (bool_decide_eq_false_1 _). vm_compute. reflexivity.
      * exact Hprefix.
      * by exists e, s'.
Defined.

(** * Reading sources from the cluster *)

Section ReadSources.

Context `{External}.

Lemma elem_of_concat {A} (ls : list (list A)) (x : A) :
  x ∈ concat ls <-> exists l, l ∈ ls /\ x ∈ l.
Proof.
  rewrite list_elem_of_In, in_concat. split; intros (l & Hl & Hx); exists l.
  - by rewrite !list_elem_of_In.
  - by rewrite <- !list_elem_of_In.
Qed.

Lemma elem_of_flat_map {A B} (f : A -> list B) (l : list A) (y : B) :
  y ∈ flat_map f l <-> exists x, x ∈ l /\ y ∈ f x.
Proof.
  rewrite list_elem_of_In, in_flat_map. split; intros (x & Hx & Hy); exists x.
  - by rewrite !list_elem_of_In.
  - by rewrite <- !list_elem_of_In.
Qed.

Lemma delayed_loop_success (cols : list string) (results : list QueryResult)
  (rows0 : list (gmap string Value)) :
  Forall (fun r => exists records, r = QuerySuccess cols records) results ->
  delayed_loop results (Some cols) rows0
  = (Ok (Some cols, rows0 ++ concat (records_of <$> results)), []).
Proof.
  intros Hall. revert rows0.
  induction Hall as [| r results [records ->] _ IH]; intros rows0; simpl.
  - by rewrite app_nil_r.
  - rewrite bool_decide_eq_true_2 by done. rewrite IH. by rewrite <- app_assoc.
Qed.

Lemma delayed_loop_success_first (cols : list string) (results : list QueryResult) :
  results <> [] ->
  Forall (fun r => exists records, r = QuerySuccess cols records) results ->
  delayed_loop results None []
  = (Ok (Some cols, concat (records_of <$> results)), []).
Proof.
  intros Hne Hall. destruct Hall as [| r results [records ->] Hall]; [done |].
  simpl. by rewrite delayed_loop_success.
Qed.

Lemma immediate_loop_success (cols : list string) (results : list QueryResult)
  (dataframes : list DataFrame) :
  Forall (fun r => exists records, r = QuerySuccess cols records) results ->
  immediate_loop results dataframes
  = (Ok (dataframes
         ++ ((fun r => _rows_to_pandas cols (records_of r)) <$> results)), []).
Proof.
  intros Hall. revert dataframes.
  induction Hall as [| r results [records ->] _ IH]; intros dataframes; simpl.
  - by rewrite app_nil_r.
  - rewrite IH. by rewrite <- app_assoc.
Qed.

Lemma dict_keys_seen (names seen : list string) :
  (forall x, x ∈ names -> x ∈ seen) -> dict_keys names seen = [].
Proof.
  induction names as [| n names IH]; intros Hseen; [done |]. simpl.
  rewrite bool_decide_eq_true_2 by (apply Hseen; left).
  apply IH. intros x Hx. apply Hseen. by right.
Qed.

Lemma dict_keys_absorb (cols rest seen : list string) :
  NoDup cols ->
  (forall x, x ∈ cols -> x ∉ seen) ->
  (forall x, x ∈ rest -> x ∈ seen \/ x ∈ cols) ->
  dict_keys (cols ++ rest) seen = cols.
Proof.
  revert seen. induction cols as [| c cols IH]; intros seen Hnd Hdis Hrest.
  - simpl. apply dict_keys_seen. intros x Hx.
    destruct (Hrest x Hx) as [? | Hin]; [done | by apply elem_of_nil in Hin].
  - apply NoDup_cons in Hnd as [Hc Hnd]. simpl.
    rewrite bool_decide_eq_false_2 by (apply Hdis; left).
    f_equal. apply IH; [done | |].
    + intros x Hx [-> | Hs]%elem_of_cons; [done |].
      apply (Hdis x); [by right | done].
    + intros x Hx. destruct (Hrest x Hx) as [Hs | [-> | Hin]%elem_of_cons].
      * left. by right.
      * left. left.
      * by right.
Qed.

Lemma fill_missing_complete (cols : list string) (row : gmap string Value) :
  complete_record cols row -> fill_missing cols row = row.
Proof.
  induction cols as [| c cols IH]; intros Hc; [done |].
  unfold fill_missing in *. simpl. rewrite IH.
  - destruct (Hc c) as [v ->]; [left | done].
  - intros c' Hc'. apply Hc. by right.
Qed.

Lemma fill_missing_all_complete (cols : list string)
  (records : list (gmap string Value)) :
  (forall row, row ∈ records -> complete_record cols row) ->
  fill_missing cols <$> records = records.
Proof.
  induction records as [| row records IH]; intros Hc; [done |]. csimpl.
  rewrite fill_missing_complete by (apply Hc; left).
  f_equal. apply IH. intros r Hr. apply Hc. by right.
Qed.

(** Frames with the same columns and complete records are concatenated
    record by record. *)
Lemma pandas_concat_same_columns (cols : list string) (frames : list DataFrame) :
  frames <> [] ->
  NoDup cols ->
  Forall (table_with_columns cols) frames ->
  pandas_concat frames
  = Ok {| columns := cols; rows := concat (rows <$> frames) |}.
Proof.
  intros Hne Hnd Hall. unfold pandas_concat.
  assert (Hcols : dict_keys (concat (columns <$> frames)) [] = cols).
  { destruct frames as [| f frames]; [done |].
    apply Forall_cons in Hall as [[Hf _] Hall]. simpl. rewrite Hf.
    apply dict_keys_absorb; [done | intros x _; apply not_elem_of_nil |].
    intros x Hx. right. apply elem_of_concat in Hx as (l & Hl & Hx).
    apply list_elem_of_fmap in Hl as (f' & -> & Hf').
    rewrite Forall_forall in Hall. by destruct (Hall f' Hf') as [<- _]. }
  rewrite Hcols. rewrite fill_missing_all_complete.
  - by destruct frames.
  - intros row Hrow. apply elem_of_concat in Hrow as (l & Hl & Hrow).
    apply list_elem_of_fmap in Hl as (f' & -> & Hf').
    rewrite Forall_forall in Hall. destruct (Hall f' Hf') as [_ Hrows].
    by apply Hrows.
Qed.

(** [_run_queries] when every query succeeds with the same columns. *)
Lemma run_queries_success (self : ApdbCassandra) (statements : list Statement)
  (cols : list string) (s : State) :
  statements <> [] ->
  NoDup cols ->
  Forall (fun st => exists records,
            cluster_select st = QuerySuccess cols records
            /\ forall row, row ∈ records -> complete_record cols row)
    statements ->
  _run_queries self statements s
  = (Ok {| columns := cols;
           rows := concat ((fun st => records_of (cluster_select st))
                           <$> statements) |},
     {| heap := heap s; sent := sent s ++ statements; pending := [] |}).
Proof.
  intros Hne Hnd Hall.
  assert (Hres : Forall (fun r => exists records, r = QuerySuccess cols records)
                   (cluster_select <$> statements)).
  { apply Forall_fmap. eapply Forall_impl; [exact Hall |].
    intros st (records & Hst & _). by exists records. }
  unfold _run_queries, py_bind, execute_concurrent, consume. cbn.
  destruct (pandas_delay_conv (config self)); cbn.
  - rewrite (delayed_loop_success_first cols) by
      (try done; by destruct statements).
    cbn. unfold py_ret, _rows_to_pandas. by rewrite <- list_fmap_compose.
  - rewrite (immediate_loop_success cols) by done. cbn.
    rewrite <- list_fmap_compose.
    assert (Hframes : Forall (table_with_columns cols)
                        (((fun r => _rows_to_pandas cols (records_of r))
                          ∘ cluster_select) <$> statements)).
    { apply Forall_fmap. eapply Forall_impl; [exact Hall |].
      intros st (records & Hst & Hc). simpl. rewrite Hst. by split. }
    assert (Hrows : concat (rows <$> (((fun r => _rows_to_pandas cols (records_of r))
                                       ∘ cluster_select) <$> statements))
                    = concat ((fun st => records_of (cluster_select st))
                              <$> statements)).
    { by rewrite <- list_fmap_compose. }
    destruct statements as [| st [| st' more]]; [done | |].
    + cbn. unfold py_ret, _rows_to_pandas. by rewrite app_nil_r.
    + rewrite <- Hrows.
      rewrite <- (pandas_concat_same_columns cols) by done.
      reflexivity.
Qed.



Lemma build_queries_elem (ks : string) (tables : list string)
  (sw : list SpatialWhere) (tw : list TemporalWhere) (st : Statement) :
  st ∈ build_queries ks tables sw tw <->
  exists table sp,
    table ∈ tables /\ sp ∈ sw
    /\ ((tw = [] /\ st = Select ks table sp None)
        \/ exists tmp, tmp ∈ tw /\ st = Select ks table sp (Some tmp)).
Proof.
  unfold build_queries. rewrite elem_of_flat_map. split.
  - intros (table & Htable & Hst). apply elem_of_flat_map in Hst as (sp & Hsp & Hst).
    exists table, sp. split; [done |]. split; [done |].
    destruct tw as [| t0 tw'].
    + left. by apply list_elem_of_singleton in Hst.
    + right. apply list_elem_of_fmap in Hst as (tmp & -> & Htmp). by exists tmp.
  - intros (table & sp & Htable & Hsp & Hst). exists table. split; [done |].
    apply elem_of_flat_map. exists sp. split; [done |].
    destruct Hst as [[-> ->] | (tmp & Htmp & ->)].
    + by apply list_elem_of_singleton.
    + destruct tw as [| t0 tw']; [by apply elem_of_nil in Htmp |].
      apply list_elem_of_fmap. by exists tmp.
Qed.

Lemma existsb_elem_of {A} (f : A -> bool) (l : list A) :
  existsb f l = true <-> exists x, x ∈ l /\ f x = true.
Proof.
  rewrite existsb_exists. split; intros (x & Hx & Hf); exists x.
  - by rewrite list_elem_of_In.
  - by rewrite <- list_elem_of_In.
Qed.

(** The spatial expressions select the records of the pixels of the
    region, whether there is one expression per pixel or one for all. *)
Lemma spatial_where_match (region : Region) (per_part : bool)
  (row : gmap string Value) :
  (exists sp,
     sp ∈ (if per_part then ApdbPartEq <$> pixels region
           else [ApdbPartIn (pixels region)])
     /\ spatial_match sp row = true)
  <-> in_region_pixels region row.
Proof.
  unfold in_region_pixels. destruct per_part; split.
  - intros (sp & Hsp & Hm). apply list_elem_of_fmap in Hsp as (pixel & -> & Hp).
    by exists pixel.
  - intros (pixel & Hp & Hm). exists (ApdbPartEq pixel). split; [| done].
    apply list_elem_of_fmap. by exists pixel.
  - intros (sp & ->%list_elem_of_singleton & Hm). simpl in Hm.
    by apply existsb_elem_of in Hm.
  - intros Hex. exists (ApdbPartIn (pixels region)).
    split; [by apply list_elem_of_singleton |]. simpl. by apply existsb_elem_of.
Qed.

Lemma temporal_where_match (time_parts : list Z) (per_part : bool)
  (row : gmap string Value) :
  (exists tmp,
     tmp ∈ (if per_part then TimePartEq <$> time_parts
            else [TimePartIn time_parts])
     /\ temporal_match (Some tmp) row = true)
  <-> exists part, part ∈ time_parts
                   /\ py_eq (cell row "apdb_time_part") (VInt part) = true.
Proof.
  destruct per_part; split.
  - intros (tmp & Htmp & Hm). apply list_elem_of_fmap in Htmp as (part & -> & Hp).
    by exists part.
  - intros (part & Hp & Hm). exists (TimePartEq part). split; [| done].
    apply list_elem_of_fmap. by exists part.
  - intros (tmp & ->%list_elem_of_singleton & Hm). simpl in Hm.
    by apply existsb_elem_of in Hm.
  - intros Hex. exists (TimePartIn time_parts).
    split; [by apply list_elem_of_singleton |]. simpl. by apply existsb_elem_of.
Qed.

Lemma time_partition_le (config : ApdbCassandraConfig) (x y : Q) (lo hi : Z) :
  0 < time_partition_days config ->
  (x <= y)%Q ->
  _time_partition config (TimeMJD x) = Ok lo ->
  _time_partition config (TimeMJD y) = Ok hi ->
  lo <= hi.
Proof.
  intros Hd Hxy. rewrite !time_partition_ok by exact Hd.
  intros [= <-] [= <-]. apply Z.div_le_mono; [lia |].
  apply py_int_of_float_mono. simpl. unfold Qminus. by apply Qplus_le_l.
Qed.

Lemma list_to_set_size_pos (ids : list Z) :
  ids <> [] -> size (list_to_set ids : gset Z) <> 0%nat.
Proof.
  intros Hne Hsize. apply size_empty_inv in Hsize.
  destruct ids as [| i ids]; [done |].
  assert (Hin : i ∈ (list_to_set (i :: ids) : gset Z)) by set_solver.
  rewrite Hsize in Hin. set_solver.
Qed.



(** What a query of the read path returns from a cluster that holds the
    table. *)
Lemma select_from_table (db : gmap string DataFrame) (ks table : string)
  (sp : SpatialWhere) (tmp : option TemporalWhere) (t : DataFrame)
  (cols : list string) :
  db !! table = Some t ->
  table_with_columns cols t ->
  exists records,
    select_from db (Select ks table sp tmp) = QuerySuccess cols records
    /\ (forall row, row ∈ records -> complete_record cols row)
    /\ forall row,
         row ∈ records <->
         row ∈ rows t /\ spatial_match sp row = true
         /\ temporal_match tmp row = true.
Proof.
  intros Ht [Hcols Hcomplete]. simpl. rewrite Ht, Hcols. eexists.
  split; [reflexivity |]. split.
  - intros row [Hrow _]%elem_of_List_filter. by apply Hcomplete.
  - intros row. rewrite elem_of_List_filter, andb_true_iff. tauto.
Qed.

Section Window.

Variables (self : ApdbCassandra) (db : gmap string DataFrame).
Variables (region : Region) (table_name : ApdbTables).
Variables (lo hi : Z) (cols : list string).

Hypothesis cluster_holds_db : forall st, cluster_select st = select_from db st.
Hypothesis window_not_empty : lo <= hi.
Hypothesis tables_ready : window_tables_ready self db table_name lo hi cols.
Hypothesis pixels_not_empty :
  query_per_spatial_part (config self) = true -> pixels region <> [].

Let full_name := tableName (_schema self) (ApdbTables_name table_name).
Let time_parts := seqZ lo (hi + 1 - lo).
Let tables :=
  if time_partition_tables (config self)
  then (fun part => full_name +:+ "_" +:+ str_Z part) <$> time_parts
  else [full_name].
Let spatial_where :=
  if query_per_spatial_part (config self) then ApdbPartEq <$> pixels region
  else [ApdbPartIn (pixels region)].
Let temporal_where :=
  if time_partition_tables (config self) then []
  else if query_per_time_part (config self) then TimePartEq <$> time_parts
  else [TimePartIn time_parts].
Let queries :=
  build_queries (keyspace (config self)) tables spatial_where temporal_where.

Lemma time_parts_elem (part : Z) : part ∈ time_parts <-> lo <= part <= hi.
Proof. unfold time_parts. rewrite elem_of_seqZ. lia. Qed.

Lemma window_table (table : string) :
  table ∈ tables -> exists t, db !! table = Some t /\ table_with_columns cols t.
Proof.
  unfold tables. pose proof tables_ready as Hready.
  unfold window_tables_ready in Hready. fold full_name in Hready.
  destruct (time_partition_tables (config self)).
  - intros (part & -> & Hpart)%list_elem_of_fmap.
    apply Hready. by apply time_parts_elem.
  - by intros ->%list_elem_of_singleton.
Qed.

Lemma window_queries_succeed :
  Forall (fun st => exists records,
            cluster_select st = QuerySuccess cols records
            /\ forall row, row ∈ records -> complete_record cols row)
    queries.
Proof.
  apply Forall_forall. intros st Hst.
  apply build_queries_elem in Hst as (table & sp & Htable & _ & Hst).
  destruct (window_table table Htable) as (t & Ht & Hcols).
  rewrite cluster_holds_db.
  destruct Hst as [[_ ->] | (tmp & _ & ->)];
    edestruct select_from_table as (records & Hsel & Hc & _); eauto.
Qed.

Lemma window_queries_not_empty : queries <> [].
Proof.
  assert (Hlo : lo ∈ time_parts) by (apply time_parts_elem; lia).
  assert (Htables : exists table, table ∈ tables).
  { unfold tables. destruct (time_partition_tables (config self)).
    - eexists. apply list_elem_of_fmap. by exists lo.
    - eexists. by apply list_elem_of_singleton. }
  assert (Hsp : exists sp, sp ∈ spatial_where).
  { unfold spatial_where.
    destruct (query_per_spatial_part (config self)) eqn:Hq.
    - destruct (pixels region) as [| pixel ps] eqn:Hp;
        [by destruct (pixels_not_empty eq_refl) |].
      exists (ApdbPartEq pixel). left.
    - eexists. by apply list_elem_of_singleton. }
  destruct Htables as [table Htable], Hsp as [sp Hsp].
  assert (Hst : exists st, st ∈ queries).
  { destruct (decide (temporal_where = [])) as [Htw | Htw].
    - exists (Select (keyspace (config self)) table sp None).
      apply build_queries_elem. exists table, sp. by eauto.
    - assert (Hx : exists tmp, tmp ∈ temporal_where).
      { destruct temporal_where as [| tmp tw]; [done |]. exists tmp. left. }
      destruct Hx as [tmp Htmp].
      exists (Select (keyspace (config self)) table sp (Some tmp)).
      apply build_queries_elem. exists table, sp.
      split; [done |]. split; [done |]. right. by exists tmp. }
  destruct Hst as [st Hst]. intros Hq. rewrite Hq in Hst.
  by apply elem_of_nil in Hst.
Qed.

(** The records the queries of the window return, all together. *)
Lemma window_records (row : gmap string Value) :
  row ∈ concat ((fun st => records_of (cluster_select st)) <$> queries)
  <-> stored_in_window self db table_name lo hi row
      /\ in_region_pixels region row.
Proof.
  rewrite elem_of_concat. unfold stored_in_window. fold full_name. split.
  - intros (l & Hl & Hrow). apply list_elem_of_fmap in Hl as (st & -> & Hst).
    apply build_queries_elem in Hst as (table & sp & Htable & Hsp & Hst).
    destruct (window_table table Htable) as (t & Ht & Hcols).
    rewrite cluster_holds_db in Hrow.
    assert (Hrec : exists tmp,
               (temporal_where = [] /\ tmp = None
                \/ exists x, x ∈ temporal_where /\ tmp = Some x)
               /\ row ∈ rows t /\ spatial_match sp row = true
               /\ temporal_match tmp row = true).
    { destruct Hst as [[Htw ->] | (x & Hx & ->)].
      - exists None. split; [by left |].
        destruct (select_from_table db (keyspace (config self)) table sp None
                    t cols Ht Hcols) as (records & Hsel & _ & Hiff).
        rewrite Hsel in Hrow. by apply Hiff.
      - exists (Some x). split; [right; by exists x |].
        destruct (select_from_table db (keyspace (config self)) table sp
                    (Some x) t cols Ht Hcols) as (records & Hsel & _ & Hiff).
        rewrite Hsel in Hrow. by apply Hiff. }
    destruct Hrec as (tmp & Htmp & Hin & Hspm & Htm). split.
    + unfold tables, temporal_where in *.
      destruct (time_partition_tables (config self)).
      * apply list_elem_of_fmap in Htable as (part & -> & Hpart).
        exists part, t. split; [by apply time_parts_elem | done].
      * apply list_elem_of_singleton in Htable as ->.
        destruct Htmp as [[Htw _] | (x & Hx & ->)].
        -- exfalso. assert (Hlo : lo ∈ time_parts) by (apply time_parts_elem; lia).
           destruct (query_per_time_part (config self)); [| done].
           apply fmap_nil_inv in Htw. rewrite Htw in Hlo.
           by apply elem_of_nil in Hlo.
        -- destruct (proj1 (temporal_where_match time_parts
                              (query_per_time_part (config self)) row))
             as (part & Hpart & Heq); [by exists x |].
           exists part, t. split; [by apply time_parts_elem | done].
    + apply (spatial_where_match region (query_per_spatial_part (config self))).
      by exists sp.
  - intros [(part & t & Hpart & Hin & Hdb) Hpix].
    apply (spatial_where_match region (query_per_spatial_part (config self)))
      in Hpix as (sp & Hsp & Hspm).
    apply time_parts_elem in Hpart.
    assert (Hq : exists table tmp,
               db !! table = Some t
               /\ Select (keyspace (config self)) table sp tmp ∈ queries
               /\ temporal_match tmp row = true).
    { unfold queries, tables, temporal_where.
      destruct (time_partition_tables (config self)).
      - exists (full_name +:+ "_" +:+ str_Z part), None.
        split; [done |]. split; [| done]. apply build_queries_elem.
        eexists _, sp. split; [apply list_elem_of_fmap; by exists part |].
        split; [done |]. by left.
      - destruct Hdb as [Hdb Heq].
        destruct (proj2 (temporal_where_match time_parts
                           (query_per_time_part (config self)) row))
          as (x & Hx & Hm); [by exists part |].
        exists full_name, (Some x). split; [done |]. split; [| done].
        apply build_queries_elem. exists full_name, sp.
        split; [by apply list_elem_of_singleton |]. split; [done |].
        right. by exists x. }
    destruct Hq as (table & tmp & Hdb' & Hst & Htm).
    eexists. split; [apply list_elem_of_fmap; by eexists |]. simpl.
    rewrite cluster_holds_db.
    assert (Htable : table ∈ tables).
    { apply build_queries_elem in Hst as (table' & sp' & Ht' & _ & Hst).
      by destruct Hst as [[_ [= <- _]] | (x & _ & [= <- _])]. }
    destruct (window_table table Htable) as (t' & Ht' & Hcols).
    assert (t' = t) as -> by congruence.
    destruct (select_from_table db (keyspace (config self)) table sp tmp
                t cols Ht' Hcols) as (records & Hsel & _ & Hiff).
    rewrite Hsel. by apply Hiff.
Qed.

End Window.



Lemma value_gt_spec (v : Value) (x : Q) :
  value_gt v x = true <-> exists q, as_number v = Some q /\ (x < q)%Q.
Proof.
  unfold value_gt. destruct (as_number v) as [q |]; split.
  - intros Hgt. exists q. split; [done |].
    apply negb_true_iff in Hgt. apply Qnot_le_lt. intros Hle.
    apply Qle_bool_iff in Hle. congruence.
  - intros (q' & [= <-] & Hlt). apply negb_true_iff.
    destruct (Qle_bool q x) eqn:Hle; [| done].
    apply Qle_bool_iff in Hle. by apply Qle_not_lt in Hle.
  - discriminate.
  - by intros (q & ? & _).
Qed.


End ReadSources.


(** * Spatial expressions and the read of the last objects *)

Section SpatialWhere.

Context `{External}.

(** X1.  [Partitioner.pixels] returns exactly the pixel indices that lie in
    one of the half-open ranges of the finest envelope of the region; a
    range whose upper bound is not above its lower bound adds nothing. *)
Theorem pixels_of_envelope (region : Region) (p : Z) :
  p ∈ pixels region
  <-> exists lower upper,
        (lower, upper) ∈ pixelator_envelope region 1000000
        /\ lower <= p < upper.
Proof.
  unfold pixels. rewrite elem_of_concat. split.
  - intros (l & Hl & Hp). apply list_elem_of_fmap in Hl as ([lower upper] & -> & Hr).
    simpl in Hp. apply elem_of_seqZ in Hp. exists lower, upper. split; [done | lia].
  - intros (lower & upper & Hr & Hp). exists (seqZ lower (upper - lower)). split.
    + apply list_elem_of_fmap. by exists (lower, upper).
    + apply elem_of_seqZ. lia.
Qed.

(** X2.  Without a region [_spatial_where] returns no expression.  With a
    region and the default [use_ranges=False] it returns one expression per
    pixel when [query_per_spatial_part] is set and a single one otherwise,
    and in both cases the records selected by some expression are exactly
    the records whose [apdb_part] is a pixel of the region. *)
Theorem spatial_where_selects_pixels (self : ApdbCassandra) (region : Region)
  (row : gmap string Value) :
  _spatial_where self None false = []
  /\ length (_spatial_where self (Some region) false)
     = (if query_per_spatial_part (config self) then length (pixels region)
        else 1%nat)
  /\ ((exists sp : SpatialWhere,
         sp ∈ _spatial_where self (Some region) false
         /\ spatial_match sp row = true)
      <-> in_region_pixels region row).
Proof.
  split; [reflexivity |]. split.
  - simpl. destruct (query_per_spatial_part (config self)); [| reflexivity].
    by rewrite length_fmap.
  - apply (spatial_where_match region (query_per_spatial_part (config self))).
Qed.

Lemma Qle_bool_inject (a b : Z) : Qle_bool (inject_Z a) (inject_Z b) = (a <=? b).
Proof.
  destruct (Z.leb_spec a b) as [Hle | Hlt].
  - apply Qle_bool_iff. by rewrite <- Zle_Qle.
  - destruct (Qle_bool (inject_Z a) (inject_Z b)) eqn:Hq; [| done].
    apply Qle_bool_iff in Hq. rewrite <- Zle_Qle in Hq. lia.
Qed.

Lemma py_eq_VInt (a b : Z) : py_eq (VInt a) (VInt b) = true <-> a = b.
Proof.
  simpl. split.
  - intros Hq. apply Qeq_bool_iff in Hq. unfold Qeq in Hq. simpl in Hq. lia.
  - intros ->. apply Qeq_bool_iff. reflexivity.
Qed.

(** X3.  With [use_ranges=True], [_spatial_where] returns one expression
    for every range [(lower, upper)] of [Partitioner.envelope], and a
    record whose [apdb_part] is the integer [p] is selected by some
    expression exactly when [lower <= p < upper] for one of the ranges. *)
Theorem spatial_where_selects_ranges (self : ApdbCassandra) (region : Region)
  (row : gmap string Value) (p : Z) :
  cell row "apdb_part" = VInt p ->
  length (_spatial_where self (Some region) true)
  = length (envelope (config self) region)
  /\ ((exists w : RangeWhere,
         w ∈ _spatial_where self (Some region) true /\ range_match w row = true)
      <-> exists lower upper,
            (lower, upper) ∈ envelope (config self) region /\ lower <= p < upper).
Proof.
  intros Hp. split; [simpl; by rewrite length_fmap |].
  assert (Hm : forall lower upper,
             range_match (if bool_decide (lower = upper - 1) then ApdbPartIs lower
                          else ApdbPartBetween lower (upper - 1)) row = true
             <-> lower <= p < upper).
  { intros lower upper. case_bool_decide as Heq; simpl; rewrite Hp.
    - rewrite py_eq_VInt. lia.
    - simpl. rewrite !Qle_bool_inject, andb_true_iff, !Z.leb_le. lia. }
  split.
  - intros (w & Hw & Hrow). simpl in Hw.
    apply list_elem_of_fmap in Hw as ([lower upper] & -> & Hr).
    exists lower, upper. split; [done |]. by apply Hm.
  - intros (lower & upper & Hr & Hlu). eexists. split.
    + simpl. apply list_elem_of_fmap. by exists (lower, upper).
    + by apply Hm.
Qed.

End SpatialWhere.

Section ReadObjects.

Context `{External}.


End ReadObjects.

Lemma spatial_where_selects_ranges_witness :
  let self := example_apdb default_config in
  let row := last_object_record 5007 1 (11 # 2) (15 # 2) in
  length (_spatial_where (H := example_cluster ∅) self (Some region_5000s) true)
  = length (envelope (H := example_cluster ∅) (config self) region_5000s)
  /\ ((exists w : RangeWhere,
         w ∈ _spatial_where (H := example_cluster ∅) self (Some region_5000s) true
         /\ range_match w row = true)
      <-> exists lower upper,
            (lower, upper) ∈ envelope (H := example_cluster ∅) (config self)
                               region_5000s
            /\ lower <= 5007 < upper).
Proof.
  intros self row.
  apply (spatial_where_selects_ranges (H := example_cluster ∅) self
           region_5000s row 5007).
  reflexivity.
Defined.


(** * The two ways of merging the results of a concurrent read *)

Section ReadModes.

Context `{External}.


Lemma immediate_loop_all_succeeded (results : list QueryResult)
  (dataframes : list DataFrame) :
  forallb succeeded results = true ->
  immediate_loop results dataframes = (Ok (dataframes ++ (frame_of <$> results)), []).
Proof.
  revert dataframes. induction results as [| r results IH]; intros dataframes Hok.
  - simpl. by rewrite app_nil_r.
  - simpl in Hok. apply andb_prop in Hok as [Hr Hok].
    destruct r as [colnames records |]; [| discriminate].
    simpl. rewrite IH by exact Hok. by rewrite <- app_assoc.
Qed.

Lemma delayed_loop_different_columns (cols cols' : list string)
  (oks rest : list QueryResult) (records : list (gmap string Value))
  (rows0 : list (gmap string Value)) :
  Forall (fun r => exists recs, r = QuerySuccess cols recs) oks ->
  cols <> cols' ->
  delayed_loop (oks ++ QuerySuccess cols' records :: rest) (Some cols) rows0
  = (Raise (ValueError "different columns returned by queries"), rest).
Proof.
  intros Hall Hne. revert rows0.
  induction Hall as [| r oks [recs ->] _ IH]; intros rows0; simpl.
  - by rewrite bool_decide_eq_false_2.
  - rewrite bool_decide_eq_true_2 by done. apply IH.
Qed.

(** X6.  When the queries succeed and one of them returns other columns
    than the queries before it, a delayed conversion raises [ValueError] at
    that result and leaves the later results unconsumed, whereas an
    immediate conversion returns the concatenation of the frames, with the
    union of the columns in the order of their first appearance. *)
Theorem run_queries_different_columns
  (self : ApdbCassandra) (statements : list Statement) (s : State)
  (cols cols' : list string) (first : list (gmap string Value))
  (oks rest : list QueryResult) (records : list (gmap string Value)) :
  cluster_select <$> statements
  = QuerySuccess cols first :: oks ++ QuerySuccess cols' records :: rest ->
  Forall (fun r => exists recs, r = QuerySuccess cols recs) oks ->
  forallb succeeded rest = true ->
  cols <> cols' ->
  _run_queries (with_pandas_delay_conv self true) statements s
  = (Raise (ValueError "different columns returned by queries"),
     {| heap := heap s; sent := sent s ++ statements; pending := rest |})
  /\ exists frame,
       _run_queries (with_pandas_delay_conv self false) statements s
       = (Ok frame,
          {| heap := heap s; sent := sent s ++ statements; pending := [] |})
       /\ columns frame
          = dict_keys (concat (colnames_of <$> (cluster_select <$> statements))) []
       /\ length (rows frame)
          = length (concat (records_of <$> (cluster_select <$> statements))).
Proof.
  intros Hsel Hoks Hrest Hne. split.
  - unfold _run_queries, py_bind, execute_concurrent, consume. cbn.
    rewrite Hsel. cbn.
    by rewrite (delayed_loop_different_columns cols cols').
  - unfold _run_queries, py_bind, execute_concurrent, consume. cbn.
    assert (Hall : forallb succeeded (cluster_select <$> statements) = true).
    { rewrite Hsel. simpl. rewrite forallb_app. simpl. rewrite Hrest, andb_true_r.
      apply forallb_forall. intros r Hr. apply list_elem_of_In in Hr.
      rewrite Forall_forall in Hoks. by destruct (Hoks r Hr) as [recs ->]. }
    rewrite (immediate_loop_all_succeeded _ [] Hall). cbn.
    set (results := cluster_select <$> statements) in *.
    assert (Htwo : (2 <= length results)%nat).
    { rewrite Hsel. simpl. rewrite length_app. simpl. lia. }
    destruct results as [| r1 [| r2 more]]; simpl in Htwo; [lia | lia |].
    cbn. unfold py_lift. eexists. split; [reflexivity |]. cbn [columns rows].
    split.
    + by rewrite <- !list_fmap_compose.
    + rewrite length_fmap. by rewrite <- !list_fmap_compose.
Qed.

(** X7.  A region without a pixel, read with one query per pixel, gives no
    query at all.  [getDiaObjects] then returns a frame without columns or
    records when the conversion is delayed and raises [ValueError] when it
    is immediate; [getDiaSources], which goes on to filter on [diaObjectId]
    and [midPointTai], raises [KeyError] or [ValueError]: it never returns
    a catalog.  Nothing is sent to the session. *)
Theorem reads_of_region_without_pixels
  (self : ApdbCassandra) (region : Region) (ids : list Z) (visit_time : DateTime)
  (s : State) :
  query_per_spatial_part (config self) = true ->
  pixels region = [] ->
  read_sources_months (config self) <> 0 ->
  time_partition_days (config self) <> 0 ->
  ids <> [] ->
  let s' := {| heap := heap s; sent := sent s; pending := [] |} in
  getDiaObjects self region s
  = (if pandas_delay_conv (config self) then Ok {| columns := []; rows := [] |}
     else Raise (ValueError "No objects to concatenate"), s')
  /\ getDiaSources self region (Some ids) visit_time s
     = (Raise (if pandas_delay_conv (config self) then KeyError (VStr "diaObjectId")
               else ValueError "No objects to concatenate"), s')
  /\ getDiaSources self region None visit_time s
     = (Raise (if pandas_delay_conv (config self) then KeyError (VStr "midPointTai")
               else ValueError "No objects to concatenate"), s').
Proof.
  intros Hq Hpix Hmonths Hdays Hids s'.
  assert (Hrun : _run_queries self [] s
                 = (if pandas_delay_conv (config self)
                    then Ok {| columns := []; rows := [] |}
                    else Raise (ValueError "No objects to concatenate"), s')).
  { unfold _run_queries, py_bind, execute_concurrent, consume. cbn.
    rewrite app_nil_r. by destruct (pandas_delay_conv (config self)). }
  assert (Htp : forall x, exists p, _time_partition (config self) (TimeMJD x) = Ok p).
  { intros x. unfold _time_partition, py_floordiv.
    destruct (Z.eqb_spec (time_partition_days (config self)) 0); [done | by eexists]. }
  split; [| split].
  - unfold getDiaObjects. simpl. rewrite Hq, Hpix. simpl.
    unfold py_bind. rewrite Hrun. by destruct (pandas_delay_conv (config self)).
  - unfold getDiaSources.
    destruct (Z.eqb_spec (read_sources_months (config self)) 0) as [| _]; [done |].
    unfold py_bind at 1. unfold _getSources.
    rewrite (bool_decide_eq_false_2 (size _ = 0%nat))
      by (by apply list_to_set_size_pos).
    rewrite andb_false_r.
    destruct (Htp (DateTime_get_MJD visit_time
                   - inject_Z (read_sources_months (config self) * 30))%Q)
      as [lo Hlo].
    destruct (Htp (DateTime_get_MJD visit_time)) as [hi Hhi].
    unfold py_bind at 1. unfold py_lift at 1. rewrite Hlo.
    unfold py_bind at 1. unfold py_lift at 1. rewrite Hhi.
    rewrite Hq, Hpix. unfold py_bind at 1.
    assert (Hnil : forall tables tw,
               build_queries (keyspace (config self)) tables (ApdbPartEq <$> []) tw = []).
    { intros tables tw. unfold build_queries. simpl. by induction tables. }
    rewrite Hnil, Hrun.
    destruct (pandas_delay_conv (config self)); [| reflexivity].
    rewrite (bool_decide_eq_true_2 (0 < size _)%nat)
      by (pose proof (list_to_set_size_pos ids Hids); lia).
    reflexivity.
  - unfold getDiaSources.
    destruct (Z.eqb_spec (read_sources_months (config self)) 0) as [| _]; [done |].
    unfold py_bind at 1. unfold _getSources.
    rewrite (bool_decide_eq_false_2 (None ≠ None)) by (intros Hn; by apply Hn).
    rewrite andb_false_l.
    destruct (Htp (DateTime_get_MJD visit_time
                   - inject_Z (read_sources_months (config self) * 30))%Q)
      as [lo Hlo].
    destruct (Htp (DateTime_get_MJD visit_time)) as [hi Hhi].
    unfold py_bind at 1. unfold py_lift at 1. rewrite Hlo.
    unfold py_bind at 1. unfold py_lift at 1. rewrite Hhi.
    rewrite Hq, Hpix. unfold py_bind at 1.
    assert (Hnil : forall tables tw,
               build_queries (keyspace (config self)) tables (ApdbPartEq <$> []) tw = []).
    { intros tables tw. unfold build_queries. simpl. by induction tables. }
    rewrite Hnil, Hrun.
    destruct (pandas_delay_conv (config self)); reflexivity.
Qed.

End ReadModes.


Lemma run_queries_different_columns_witness :
  let self := example_apdb default_config in
  let s := initial_state [] in
  _run_queries (H := example_cluster example_db_with_objects)
    (with_pandas_delay_conv self true) sources_then_objects s
  = (Raise (ValueError "different columns returned by queries"),
     {| heap := heap s; sent := sent s ++ sources_then_objects; pending := [] |})
  /\ exists frame,
       _run_queries (H := example_cluster example_db_with_objects)
         (with_pandas_delay_conv self false) sources_then_objects s
       = (Ok frame,
          {| heap := heap s; sent := sent s ++ sources_then_objects;
             pending := [] |})
       /\ columns frame
          = dict_keys
              (concat (colnames_of
                       <$> (select_from example_db_with_objects
                            <$> sources_then_objects))) []
       /\ length (rows frame)
          = length (concat (records_of
                            <$> (select_from example_db_with_objects
                                 <$> sources_then_objects))).
Proof.
  intros self s.
  eapply (run_queries_different_columns (H := example_cluster example_db_with_objects)
            self sources_then_objects s _ _ _ [] [] _).
  - vm_compute. reflexivity.
  - apply List.Forall_nil.
  - reflexivity.
  - intros Heq. apply (f_equal length) in Heq. discriminate.
Defined.

Lemma reads_of_region_without_pixels_witness :
  let self := example_apdb (set_query_per_spatial_part default_config true) in
  let s := initial_state [] in
  let s' := {| heap := heap s; sent := sent s; pending := [] |} in
  getDiaObjects (H := example_cluster example_db) self region_without_pixels s
  = (if pandas_delay_conv (config self) then Ok {| columns := []; rows := [] |}
     else Raise (ValueError "No objects to concatenate"), s')
  /\ getDiaSources (H := example_cluster example_db) self region_without_pixels
       (Some [1]) visit_2021 s
     = (Raise (if pandas_delay_conv (config self) then KeyError (VStr "diaObjectId")
               else ValueError "No objects to concatenate"), s')
  /\ getDiaSources (H := example_cluster example_db) self region_without_pixels
       None visit_2021 s
     = (Raise (if pandas_delay_conv (config self) then KeyError (VStr "midPointTai")
               else ValueError "No objects to concatenate"), s').
Proof.
  intros self s s'.
  apply (reads_of_region_without_pixels (H := example_cluster example_db) self
           region_without_pixels [1] visit_2021 s).
  - reflexivity.
  - reflexivity.
  - discriminate.
  - discriminate.
  - discriminate.
Defined.

(** * The intervals of the time partitions *)

Lemma Qfloor_unique (q : Q) (z : Z) :
  (inject_Z z <= q)%Q -> (q < inject_Z (z + 1))%Q -> Qfloor q = z.
Proof.
  intros Hle Hlt. apply Z.le_antisymm.
  - assert (Hf : Qfloor q < z + 1); [| lia].
    rewrite Zlt_Qlt. eapply Qle_lt_trans; [apply Qfloor_le | exact Hlt].
  - rewrite <- (Qfloor_Z z). by apply Qfloor_resp_le.
Qed.

Lemma Qfloor_ge (q : Q) (z : Z) : z <= Qfloor q <-> (inject_Z z <= q)%Q.
Proof.
  split.
  - intros Hz. eapply Qle_trans; [| apply Qfloor_le]. by rewrite <- Zle_Qle.
  - intros Hz. rewrite <- (Qfloor_Z z). by apply Qfloor_resp_le.
Qed.

Lemma Qfloor_lt (q : Q) (z : Z) : Qfloor q < z <-> (q < inject_Z z)%Q.
Proof.
  split.
  - intros Hz. eapply Qlt_le_trans; [apply Qlt_floor |].
    rewrite <- Zle_Qle. lia.
  - intros Hz. destruct (Z.lt_ge_cases (Qfloor q) z) as [| Hge]; [done |].
    apply Qfloor_ge in Hge. lra.
Qed.

Lemma Qceiling_ge (q : Q) (z : Z) : z <= Qceiling q <-> (inject_Z z - 1 < q)%Q.
Proof.
  unfold Qceiling. split.
  - intros Hz. assert (Hf : Qfloor (- q) < - z + 1) by lia.
    apply Qfloor_lt in Hf. rewrite inject_Z_plus, inject_Z_opp in Hf.
    change (inject_Z 1) with 1%Q in Hf. lra.
  - intros Hz. assert (Hf : Qfloor (- q) < - z + 1); [| lia].
    apply Qfloor_lt. rewrite inject_Z_plus, inject_Z_opp.
    change (inject_Z 1) with 1%Q. lra.
Qed.

(** The whole days [int(y)] against integer bounds. *)
Lemma py_int_of_float_ge (y : Q) (k : Z) :
  1 <= k -> k <= py_int_of_float y <-> (inject_Z k <= y)%Q.
Proof.
  intros Hk. destruct (Qlt_le_dec y 0) as [Hy | Hy].
  - rewrite py_int_of_float_neg by exact Hy.
    assert (Hc : Qceiling y <= 0).
    { change 0 with (Qceiling 0). apply Qceiling_resp_le. lra. }
    assert (Hq : (1 <= inject_Z k)%Q) by (by rewrite <- (Zle_Qle 1)).
    split; [lia | lra].
  - rewrite py_int_of_float_nonneg by exact Hy. apply Qfloor_ge.
Qed.

Lemma py_int_of_float_lt (y : Q) (k : Z) :
  1 <= k -> py_int_of_float y < k <-> (y < inject_Z k)%Q.
Proof.
  intros Hk. destruct (Qlt_le_dec y 0) as [Hy | Hy].
  - rewrite py_int_of_float_neg by exact Hy.
    assert (Hc : Qceiling y <= 0).
    { change 0 with (Qceiling 0). apply Qceiling_resp_le. lra. }
    assert (Hq : (1 <= inject_Z k)%Q) by (by rewrite <- (Zle_Qle 1)).
    split; [lra | lia].
  - rewrite py_int_of_float_nonneg by exact Hy. apply Qfloor_lt.
Qed.

Lemma py_int_of_float_nonneg_iff (y : Q) :
  0 <= py_int_of_float y <-> (- 1 < y)%Q.
Proof.
  destruct (Qlt_le_dec y 0) as [Hy | Hy].
  - rewrite py_int_of_float_neg by exact Hy. rewrite Qceiling_ge.
    change (inject_Z 0) with 0%Q. split; lra.
  - rewrite py_int_of_float_nonneg by exact Hy.
    assert (Hf : 0 <= Qfloor y) by (by apply Qfloor_ge).
    split; [lra | lia].
Qed.

Lemma div_eq_iff (n d p : Z) : 0 < d -> n / d = p <-> p * d <= n < (p + 1) * d.
Proof.
  intros Hd. split.
  - intros <-. pose proof (Z.div_mod n d). pose proof (Z.mod_pos_bound n d). nia.
  - intros Hn. symmetry. apply (Z.div_unique n d p (n - p * d)); lia.
Qed.

(** X8.  For a positive [time_partition_days] [d], the times of partition
    [p >= 1] are exactly those of the [d] days from [epoch + p d] on, its
    end excluded; partition 0 holds the [d] days from the epoch on and the
    day before the epoch as well, the fraction of a day being dropped
    toward zero. *)
Theorem time_partition_interval
  (config : ApdbCassandraConfig) (mjd : Q) (p : Z) :
  0 < time_partition_days config ->
  let d := inject_Z (time_partition_days config) in
  let epoch := _partition_zero_epoch_mjd in
  (1 <= p ->
   _time_partition config (TimeMJD mjd) = Ok p
   <-> (epoch + inject_Z p * d <= mjd /\ mjd < epoch + inject_Z (p + 1) * d)%Q)
  /\ (_time_partition config (TimeMJD mjd) = Ok 0
      <-> (epoch - 1 < mjd /\ mjd < epoch + d)%Q).
Proof.
  intros Hd d epoch. rewrite time_partition_ok by exact Hd. simpl mjd_of.
  fold epoch. set (y := (mjd - epoch)%Q).
  set (days := time_partition_days config) in *.
  assert (Hok : forall a b : Z, Ok a = Ok b <-> a = b).
  { intros a b. split; [by intros [= ->] | by intros ->]. }
  split.
  - intros Hp. rewrite Hok, div_eq_iff by exact Hd.
    rewrite py_int_of_float_ge, py_int_of_float_lt by nia.
    rewrite !inject_Z_mult. fold d. unfold y. clearbody epoch.
    generalize (inject_Z p * d)%Q (inject_Z (p + 1) * d)%Q. intros a b.
    split; intros [H1 H2]; split; lra.
  - rewrite Hok, div_eq_iff by exact Hd. simpl.
    rewrite py_int_of_float_nonneg_iff, py_int_of_float_lt by lia.
    replace ((0 + 1) * days) with days by lia.
    fold d. unfold y. clearbody epoch d.
    split; intros [H1 H2]; split; lra.
Qed.

(** X9.  From the epoch on, a time [k] partition lengths later lies [k]
    partitions further: [time_partition(mjd + k d) = time_partition(mjd) + k]
    for every [k >= 0]. *)
Theorem time_partition_shift
  (config : ApdbCassandraConfig) (mjd : Q) (k p : Z) :
  0 < time_partition_days config ->
  0 <= k ->
  (_partition_zero_epoch_mjd <= mjd)%Q ->
  _time_partition config (TimeMJD mjd) = Ok p ->
  _time_partition config
    (TimeMJD (mjd + inject_Z (k * time_partition_days config))) = Ok (p + k).
Proof.
  intros Hd Hk Hmjd. rewrite !time_partition_ok by exact Hd. simpl mjd_of.
  set (epoch := _partition_zero_epoch_mjd) in *.
  set (days := time_partition_days config) in *.
  intros [= <-]. f_equal.
  assert (Hkd : (0 <= inject_Z (k * days))%Q).
  { rewrite <- (Zle_Qle 0). nia. }
  rewrite !py_int_of_float_nonneg by lra.
  rewrite (Qfloor_unique (mjd + inject_Z (k * days) - epoch)
             (Qfloor (mjd - epoch) + k * days)).
  - rewrite Z.div_add by lia. reflexivity.
  - rewrite inject_Z_plus. pose proof (Qfloor_le (mjd - epoch)). lra.
  - rewrite !inject_Z_plus. pose proof (Qlt_floor (mjd - epoch)).
    rewrite inject_Z_plus in H. lra.
Qed.

Lemma time_partition_interval_witness :
  let config := default_config in
  let d := inject_Z (time_partition_days config) in
  let epoch := _partition_zero_epoch_mjd in
  (1 <= 620 ->
   _time_partition config (TimeMJD (inject_Z 59215)) = Ok 620
   <-> (epoch + inject_Z 620 * d <= inject_Z 59215
        /\ inject_Z 59215 < epoch + inject_Z (620 + 1) * d)%Q)
  /\ (_time_partition config (TimeMJD (inject_Z 59215)) = Ok 0
      <-> (epoch - 1 < inject_Z 59215 /\ inject_Z 59215 < epoch + d)%Q).
Proof.
  intros config d epoch.
  apply (time_partition_interval default_config (inject_Z 59215) 620).
  reflexivity.
Defined.

Lemma time_partition_shift_witness :
  _time_partition default_config
    (TimeMJD (inject_Z 59215 + inject_Z (2 * time_partition_days default_config)))
  = Ok (620 + 2).
Proof.
  apply (time_partition_shift default_config (inject_Z 59215) 2 620).
  - reflexivity.
  - lia.
  - vm_compute. discriminate.
  - vm_compute. reflexivity.
Defined.

(** * The queries of a read of sources *)

Section ReadFanOut.

Context `{External}.

Lemma run_queries_state (self : ApdbCassandra) (statements : list Statement)
  (s : State) :
  heap (_run_queries self statements s).2 = heap s
  /\ sent (_run_queries self statements s).2 = sent s ++ statements.
Proof.
  unfold _run_queries, py_bind, execute_concurrent, consume. cbn.
  destruct (pandas_delay_conv (config self)).
  - destruct (delayed_loop _ None []) as [[cr | e] rest]; cbn; done.
  - destruct (immediate_loop _ []) as [[dfs | e] rest]; cbn; [| done].
    destruct dfs as [| df [| df' dfs]]; cbn; try done.
Qed.

Lemma build_queries_length (ks : string) (tables : list string)
  (sw : list SpatialWhere) (tw : list TemporalWhere) :
  length (build_queries ks tables sw tw)
  = (length tables * (length sw * Nat.max 1 (length tw)))%nat.
Proof.
  unfold build_queries.
  assert (Hinner : forall table,
             length (flat_map
                       (fun spacial =>
                          match tw with
                          | [] => [Select ks table spacial None]
                          | _ => (fun temporal => Select ks table spacial (Some temporal))
                                 <$> tw
                          end) sw)
             = (length sw * Nat.max 1 (length tw))%nat).
  { intros table. induction sw as [| sp sw IH]; [done |].
    simpl flat_map. rewrite length_app, IH.
    destruct tw as [| t0 tw']; [simpl; lia |].
    rewrite length_fmap. simpl. lia. }
  induction tables as [| table tables IH]; [done |].
  simpl flat_map. rewrite length_app, IH, Hinner. simpl. lia.
Qed.

Lemma py_int_of_float_minus (x y : Q) (k : Z) :
  (inject_Z k <= y)%Q -> 0 <= k -> (x == y - inject_Z k)%Q ->
  py_int_of_float x = py_int_of_float y - k.
Proof.
  intros Hy Hk Hx.
  assert (Hk' : (0 <= inject_Z k)%Q) by (by rewrite <- (Zle_Qle 0)).
  rewrite !py_int_of_float_nonneg by lra.
  apply Qfloor_unique.
  - unfold Z.sub. rewrite inject_Z_plus, inject_Z_opp.
    pose proof (Qfloor_le y). lra.
  - pose proof (Qlt_floor y) as Hf. rewrite inject_Z_plus in Hf.
    replace (Qfloor y - k + 1) with (Qfloor y + 1 + - k) by lia.
    rewrite !inject_Z_plus, inject_Z_opp. lra.
Qed.

(** The statements a read of sources sends, whatever the cluster answers. *)
Lemma getSources_sent (self : ApdbCassandra) (region : Region)
  (object_ids : option (list Z)) (mjd_start mjd_end : Q) (table_name : ApdbTables)
  (lo hi : Z) (s : State) :
  object_ids <> Some [] ->
  _time_partition (config self) (TimeMJD mjd_start) = Ok lo ->
  _time_partition (config self) (TimeMJD mjd_end) = Ok hi ->
  let full_name := tableName (_schema self) (ApdbTables_name table_name) in
  let time_parts := seqZ lo (hi + 1 - lo) in
  sent (_getSources self region object_ids mjd_start mjd_end table_name s).2
  = sent s
    ++ build_queries (keyspace (config self))
         (if time_partition_tables (config self)
          then (fun part => full_name +:+ "_" +:+ str_Z part) <$> time_parts
          else [full_name])
         (_spatial_where self (Some region) false)
         (if time_partition_tables (config self) then []
          else if query_per_time_part (config self) then TimePartEq <$> time_parts
          else [TimePartIn time_parts]).
Proof.
  intros Hids Hlo Hhi full_name time_parts. unfold _getSources.
  assert (Hne : bool_decide (object_ids ≠ None)
                && bool_decide
                     (size (match object_ids with
                            | Some ids => list_to_set ids
                            | None => ∅
                            end : gset Z) = 0%nat) = false).
  { destruct object_ids as [ids |].
    - rewrite (bool_decide_eq_false_2 (size _ = 0%nat)); [by rewrite andb_false_r |].
      apply list_to_set_size_pos. by intros ->.
    - by rewrite (bool_decide_eq_false_2 (None ≠ None)) by (intros Hn; by apply Hn). }
  rewrite Hne.
  unfold py_bind at 1. unfold py_lift at 1. rewrite Hlo.
  unfold py_bind at 1. unfold py_lift at 1. rewrite Hhi.
  unfold py_bind at 1.
  match goal with
  | |- context [_run_queries self ?q s] =>
      pose proof (run_queries_state self q s) as [_ Hsent];
      destruct (_run_queries self q s) as [[catalog | e] s1]
  end; simpl in Hsent; [| exact Hsent].
  unfold py_bind, py_lift, py_ret.
  repeat match goal with
         | |- context [if ?b then _ else _] => destruct b
         | |- context [df_getitem ?f ?c] => destruct (df_getitem f c)
         end; simpl; exact Hsent.
Qed.

(** X10.  With a table per time partition of 30 days and a retention of
    [M > 0] months, a visit at least [30 M] days after the epoch makes
    [getDiaSources] query the [M + 1] tables [DiaSource_(p - M)] ..
    [DiaSource_p], [p] being the time partition of the visit: one [SELECT]
    without temporal restriction per table and spatial expression, sent
    whatever the cluster answers. *)
Theorem getDiaSources_queries_per_month
  (self : ApdbCassandra) (region : Region) (ids : list Z)
  (visit_time : DateTime) (p : Z) (s : State) :
  let months := read_sources_months (config self) in
  let tables :=
    partition_tables (tableName (_schema self) "DiaSource") (p - months) p in
  let queries :=
    build_queries (keyspace (config self)) tables
      (_spatial_where self (Some region) false) [] in
  time_partition_tables (config self) = true ->
  time_partition_days (config self) = 30 ->
  0 < months ->
  ids <> [] ->
  (_partition_zero_epoch_mjd + inject_Z (months * 30)
   <= DateTime_get_MJD visit_time)%Q ->
  _time_partition (config self) (TimeDateTime visit_time) = Ok p ->
  sent (getDiaSources self region (Some ids) visit_time s).2 = sent s ++ queries
  /\ length tables = Z.to_nat (months + 1)
  /\ length queries
     = (Z.to_nat (months + 1) * length (_spatial_where self (Some region) false))%nat.
Proof.
  intros months tables queries Htables Hdays Hmonths Hids Hafter Hp.
  assert (Hd : 0 < time_partition_days (config self)) by lia.
  assert (Hlen : length tables = Z.to_nat (months + 1)).
  { unfold tables, partition_tables. rewrite length_fmap, length_seqZ. f_equal. lia. }
  split; [| split; [exact Hlen |]].
  - unfold getDiaSources. fold months.
    destruct (Z.eqb_spec months 0) as [| _]; [lia |].
    set (mjd_end := DateTime_get_MJD visit_time) in *.
    set (mjd_start := (mjd_end - inject_Z (months * 30))%Q).
    assert (Hlo : _time_partition (config self) (TimeMJD mjd_start)
                  = Ok (p - months)).
    { rewrite time_partition_ok in Hp |- * by exact Hd. simpl mjd_of in *.
      fold mjd_end in Hp. injection Hp as <-. f_equal.
      rewrite (py_int_of_float_minus _ (mjd_end - _partition_zero_epoch_mjd)
                 (months * 30)); [| lra | lia | unfold mjd_start; lra].
      rewrite Hdays.
      replace (py_int_of_float (mjd_end - _partition_zero_epoch_mjd) - months * 30)
        with (py_int_of_float (mjd_end - _partition_zero_epoch_mjd)
              + (- months) * 30) by lia.
      rewrite Z.div_add by lia. lia. }
    unfold py_bind.
    pose proof (getSources_sent self region (Some ids) mjd_start mjd_end DiaSource
                  (p - months) p s) as Hsent.
    rewrite Htables in Hsent. simpl in Hsent.
    destruct (_getSources self region (Some ids) mjd_start mjd_end DiaSource s)
      as [[catalog | e] s1]; simpl in *; apply Hsent; try done.
    all: by intros [= ->].
  - unfold queries. rewrite build_queries_length, Hlen. simpl. lia.
Qed.

End ReadFanOut.

Lemma getDiaSources_queries_per_month_witness :
  let self := example_apdb default_config in
  let s := initial_state [] in
  let months := read_sources_months (config self) in
  let tables :=
    partition_tables (tableName (_schema self) "DiaSource") (620 - months) 620 in
  let queries :=
    build_queries (keyspace (config self)) tables
      (_spatial_where (H := example_cluster example_db) self (Some region_5007) false)
      [] in
  sent (getDiaSources (H := example_cluster example_db) self region_5007 (Some [1])
          visit_2021 s).2 = sent s ++ queries
  /\ length tables = Z.to_nat (months + 1)
  /\ length queries
     = (Z.to_nat (months + 1)
        * length (_spatial_where (H := example_cluster example_db) self
                    (Some region_5007) false))%nat.
Proof.
  intros self s months tables queries.
  apply (getDiaSources_queries_per_month (H := example_cluster example_db) self
           region_5007 [1] visit_2021 620 s).
  - reflexivity.
  - reflexivity.
  - reflexivity.
  - discriminate.
  - vm_compute. discriminate.
  - vm_compute. reflexivity.
Defined.

(** * Reading forced sources from the cluster *)

Section ReadForcedSources.

Context `{External}.

(** What a read of sources returns from a cluster that holds the tables of
    the time partitions it queries. *)
Lemma getSources_reads_window
  (self : ApdbCassandra) (db : gmap string DataFrame) (region : Region)
  (object_ids : option (list Z)) (mjd_start mjd_end : Q) (table_name : ApdbTables)
  (s : State) (cols : list string) (lo hi : Z) :
  (forall st, cluster_select st = select_from db st) ->
  object_ids <> Some [] ->
  NoDup cols -> "diaObjectId" ∈ cols -> "midPointTai" ∈ cols ->
  lo <= hi ->
  _time_partition (config self) (TimeMJD mjd_start) = Ok lo ->
  _time_partition (config self) (TimeMJD mjd_end) = Ok hi ->
  window_tables_ready self db table_name lo hi cols ->
  (query_per_spatial_part (config self) = true -> pixels region <> []) ->
  exists frame s',
    _getSources self region object_ids mjd_start mjd_end table_name s
    = (Ok frame, s')
    /\ columns frame = cols
    /\ forall row,
         row ∈ rows frame <->
         stored_in_window self db table_name lo hi row
         /\ in_region_pixels region row
         /\ wanted_object object_ids row
         /\ midPointTai_after mjd_start row.
Proof.
  intros Hsel Hids Hnd Hid Hmid Hle Hlo Hhi Hready Hpix.
  unfold _getSources.
  assert (Hne : bool_decide (object_ids ≠ None)
                && bool_decide
                     (size (match object_ids with
                            | Some ids => list_to_set ids
                            | None => ∅
                            end : gset Z) = 0%nat) = false).
  { destruct object_ids as [ids |].
    - rewrite (bool_decide_eq_false_2 (size _ = 0%nat)); [by rewrite andb_false_r |].
      apply list_to_set_size_pos. by intros ->.
    - by rewrite (bool_decide_eq_false_2 (None ≠ None)) by (intros Hn; by apply Hn). }
  rewrite Hne.
  unfold py_bind at 1. unfold py_lift at 1. rewrite Hlo.
  unfold py_bind at 1. unfold py_lift at 1. rewrite Hhi.
  unfold py_bind at 1.
  erewrite (run_queries_success self _ cols);
    [ | by eapply window_queries_not_empty
      | done
      | by eapply window_queries_succeed ].
  destruct object_ids as [ids |].
  - rewrite (bool_decide_eq_true_2 (0 < size _)%nat)
      by (assert (ids <> []) as Hi by (by intros ->);
          pose proof (list_to_set_size_pos ids Hi); lia).
    unfold py_bind at 1. unfold py_bind at 1. unfold py_lift at 1.
    rewrite df_getitem_in by done. unfold py_ret at 1.
    unfold py_bind at 1. unfold py_lift at 1.
    rewrite df_getitem_in by done. unfold py_ret.
    eexists _, _. split; [reflexivity |]. split; [reflexivity |].
    intros row. unfold df_filter. cbn [rows]. rewrite !elem_of_List_filter.
    erewrite window_records by done.
    unfold midPointTai_after, wanted_object. rewrite value_gt_spec. tauto.
  - rewrite (bool_decide_eq_false_2 (0 < size _)%nat)
      by (rewrite size_empty; lia).
    unfold py_bind at 1. unfold py_ret at 1.
    unfold py_bind at 1. unfold py_lift at 1.
    rewrite df_getitem_in by done. unfold py_ret.
    eexists _, _. split; [reflexivity |]. split; [reflexivity |].
    intros row. unfold df_filter. cbn [rows]. rewrite !elem_of_List_filter.
    erewrite window_records by done.
    unfold midPointTai_after, wanted_object. rewrite value_gt_spec. tauto.
Qed.


End ReadForcedSources.


(** * The partition of objects *)

Section ObjectPartition.

Context `{External}.

Lemma obj_apdb_part_rows (self : ApdbCassandra) (frame : DataFrame)
  (parts : list Z) :
  obj_apdb_part self frame = Ok parts ->
  exists ra_col dec_col,
    ra_dec_columns (config self) = [ra_col; dec_col]
    /\ ra_col ∈ columns frame /\ dec_col ∈ columns frame
    /\ forall i row,
         rows frame !! i = Some row ->
         exists ra dec,
           as_number (cell row ra_col) = Some ra
           /\ as_number (cell row dec_col) = Some dec
           /\ parts !! i = Some (pixel ra dec).
Proof.
  unfold obj_apdb_part, unpack2. intros Hp.
  destruct (ra_dec_columns (config self)) as [| ra_col [| dec_col [| ? ?]]];
    try discriminate.
  simpl in Hp.
  destruct (df_getitem frame ra_col) as [ras |] eqn:Hra; [| discriminate].
  destruct (df_getitem frame dec_col) as [decs |] eqn:Hdec; [| discriminate].
  simpl in Hp.
  apply df_getitem_ok in Hra as [Hrin ->], Hdec as [Hdin ->].
  rewrite zip_fmap_same in Hp. apply res_mapM_Forall2 in Hp.
  exists ra_col, dec_col. repeat (split; [done |]). intros i row Hrow.
  eapply Forall2_lookup_l in Hp as (z & Hz & Hf);
    [| by rewrite list_lookup_fmap, Hrow].
  simpl in Hf. apply own_pixel_ok in Hf as (ra & dec & Hr & Hd & ->).
  by exists ra, dec.
Qed.

Lemma obj_apdb_part_ready (self : ApdbCassandra) (frame : DataFrame)
  (ra_col dec_col : string) :
  ra_dec_columns (config self) = [ra_col; dec_col] ->
  ra_col ∈ columns frame -> dec_col ∈ columns frame ->
  (forall row, row ∈ rows frame ->
     exists ra dec,
       as_number (cell row ra_col) = Some ra
       /\ as_number (cell row dec_col) = Some dec
       /\ in_int64 (pixel ra dec)) ->
  exists parts, obj_apdb_part self frame = Ok parts.
Proof.
  intros Hc Hra Hdec Hrows. unfold obj_apdb_part. rewrite Hc. simpl.
  rewrite !df_getitem_in by assumption. simpl. rewrite zip_fmap_same.
  apply res_mapM_ok, Forall_fmap, Forall_forall. intros row Hrow. simpl.
  destruct (Hrows row Hrow) as (ra & dec & Hr & Hd & Hin).
  unfold own_pixel. rewrite Hr, Hd. exists (pixel ra dec).
  by apply np_int64_of_in_range.
Qed.


End ObjectPartition.


(** * The statements of the ingest path *)

Section StoreStatements.

Context `{External}.

Lemma assoc_lookup_column_map (cols : list ColumnDef.t) (field : string) :
  match assoc_lookup ((fun c => (ColumnDef.name c, c)) <$> cols) field with
  | Some col => ColumnDef.name col = field /\ field ∈ ColumnDef.name <$> cols
  | None => field ∉ ColumnDef.name <$> cols
  end.
Proof.
  induction cols as [| c cols IH]; simpl; [apply not_elem_of_nil |].
  case_bool_decide as Hc.
  - split; [done |]. rewrite <- Hc. left.
  - destruct (assoc_lookup _ field) as [col |].
    + destruct IH as [Hn Hin]. split; [done | by right].
    + by intros [? | ?]%elem_of_cons.
Qed.

Lemma tableDef_getColumnMap (self : ApdbCassandra) (table_name : ApdbTables)
  (tdef : TableDef.t) :
  tableDef self table_name = Some tdef ->
  getColumnMap (_schema self) (ApdbTables_name table_name)
  = Ok ((fun column => (ColumnDef.name column, column))
        <$> reverse (TableDef.columns tdef)).
Proof.
  unfold tableDef, getColumnMap, assoc_getitem. by intros ->.
Qed.

Lemma column_map_known (tdef : TableDef.t) (field : string) :
  is_Some (assoc_lookup ((fun column => (ColumnDef.name column, column))
                         <$> reverse (TableDef.columns tdef)) field)
  <-> field ∈ ColumnDef.name <$> TableDef.columns tdef.
Proof.
  pose proof (assoc_lookup_column_map (reverse (TableDef.columns tdef)) field) as Hl.
  assert (Hrev : forall x, x ∈ ColumnDef.name <$> reverse (TableDef.columns tdef)
                           <-> x ∈ ColumnDef.name <$> TableDef.columns tdef).
  { intros x. rewrite !list_elem_of_fmap. by setoid_rewrite elem_of_reverse. }
  destruct (assoc_lookup _ field) as [col |].
  - destruct Hl as [_ Hin]. split; [intros _; by apply Hrev | by eexists].
  - split; [by intros [? ?] |]. intros Hin. by apply Hrev in Hin.
Qed.

(** The fields [_storeObjectsPandas] names in its insert. *)
Lemma stored_fields (tdef : TableDef.t) (frame : DataFrame)
  (extra_columns : list (string * Value)) :
  let column_map :=
    (fun column => (ColumnDef.name column, column))
    <$> reverse (TableDef.columns tdef) in
  let df_fields :=
    List.filter (fun column => negb (bool_decide (column ∈ extra_columns.*1)))
      (columns frame) in
  omap (fun field => ColumnDef.name <$> assoc_lookup column_map field) df_fields
  = catalog_columns tdef frame extra_columns
  /\ List.filter (fun field => bool_decide (is_Some (assoc_lookup column_map field)))
       df_fields
     = catalog_columns tdef frame extra_columns.
Proof.
  intros column_map df_fields. unfold df_fields, catalog_columns.
  induction (columns frame) as [| c cs [IH1 IH2]]; [done |]. simpl.
  destruct (bool_decide (c ∈ extra_columns.*1)) eqn:He; simpl.
  - rewrite andb_false_r. by split.
  - rewrite andb_true_r.
    pose proof (assoc_lookup_column_map (reverse (TableDef.columns tdef)) c) as Hl.
    pose proof (column_map_known tdef c) as Hk. fold column_map in Hl, Hk.
    destruct (assoc_lookup column_map c) as [col |] eqn:Hc; simpl.
    + destruct Hl as [Hn _]. rewrite Hn.
      rewrite (bool_decide_eq_true_2 (c ∈ _)) by (apply Hk; by eexists).
      try rewrite bool_decide_eq_true_2 by (by eexists).
      split; by f_equal.
    + rewrite (bool_decide_eq_false_2 (c ∈ _))
        by (intros Hin; apply Hk in Hin; by destruct Hin).
      try rewrite bool_decide_eq_false_2 by (by intros [? ?]).
      by split.
Qed.

Lemma record_values_length (column_map : list (string * ColumnDef.t))
  (df_fields : list string) (extra_columns : list (string * Value))
  (rec : gmap string Value) (values : list Value) :
  record_values column_map df_fields extra_columns rec = Ok values ->
  length values
  = (length (List.filter
               (fun field => bool_decide (is_Some (assoc_lookup column_map field)))
               df_fields)
     + length extra_columns)%nat.
Proof.
  unfold record_values. intros Hv.
  destruct (res_mapM _ _) as [vs |] eqn:Hvs; [| discriminate].
  simpl in Hv. injection Hv as <-. apply res_mapM_length in Hvs.
  by rewrite length_app, length_fmap, Hvs.
Qed.

(** What a call of [_storeObjectsPandas] for a table of the schema sends. *)
Lemma storeObjectsPandas_run (self : ApdbCassandra) (objects : Ref)
  (table_name : ApdbTables) (extra_columns : list (string * Value))
  (time_part : option Z) (s : State) (frame : DataFrame) (tdef : TableDef.t) :
  heap s !! objects = Some frame ->
  tableDef self table_name = Some tdef ->
  let fields := insert_columns tdef frame extra_columns in
  let table := physical_table self table_name time_part in
  let query holders :=
    {| ins_keyspace := keyspace (config self); ins_table := table;
       ins_qfields := quoteId <$> fields; ins_holders := holders |} in
  let prepare :=
    if prepared_statements (config self)
    then [Prepare (query (replicate (length fields) "?"))] else [] in
  exists r new,
    _storeObjectsPandas self objects table_name extra_columns time_part s
    = (r, {| heap := heap s; sent := sent s ++ new; pending := pending s |})
    /\ ((new = [] /\ r <> Ok tt)
        \/ (new = prepare /\ prepared_statements (config self) = true /\ r <> Ok tt)
        \/ exists inserts,
             new = prepare ++ [BatchStatement inserts]
             /\ length inserts = length (rows frame)
             /\ Forall (insert_well_formed self table fields) inserts
             /\ Forall2
                  (fun rec i =>
                     record_values (column_map_of tdef)
                       (List.filter
                          (fun column =>
                             negb (bool_decide (column ∈ extra_columns.*1)))
                          (columns frame))
                       extra_columns rec = Ok i.2)
                  (rows frame) inserts
             /\ (r = Ok tt
                 <-> first_error prepare = None
                     /\ cluster_execute (BatchStatement inserts) = None)).
Proof.
  intros Hdf Htdef fields table query prepare. destruct s as [hp st pd].
  simpl in Hdf. simpl heap. simpl sent. simpl pending.
  unfold _storeObjectsPandas. unfold py_bind at 1. unfold df_deref at 1.
  simpl heap. rewrite Hdf.
  unfold py_bind at 1. unfold py_lift at 1.
  rewrite (tableDef_getColumnMap self table_name tdef Htdef).
  destruct (stored_fields tdef frame extra_columns) as [Hfields Hknown].
  rewrite Hfields. fold (insert_columns tdef frame extra_columns). fold fields.
  unfold py_bind at 1. unfold py_lift at 1.
  destruct (required_columns_of self table_name) as [required | e].
  2: { exists (Raise e), []. rewrite app_nil_r. split; [done |]. left. done. }
  destruct (List.filter _ required) as [| c missing].
  2: { exists (Raise missing_key_error), []. rewrite app_nil_r.
       split; [done |]. left. done. }
  fold (physical_table self table_name time_part). fold table.
  rewrite (length_fmap quoteId fields).
  unfold py_bind at 1.
  destruct (prepared_statements (config self)) eqn:Hprep.
  - unfold py_bind at 1. unfold session_execute, session_execute_all.
    simpl first_error. simpl heap. simpl sent. simpl pending.
    destruct (cluster_execute (Prepare _)) as [e |] eqn:Hexec.
    { eexists (Raise e), _. split; [reflexivity |]. right. left. done. }
    unfold py_ret at 1. unfold py_bind at 1. unfold py_lift at 1.
    match goal with
    | |- context [res_mapM ?f (rows frame)] =>
        destruct (res_mapM f (rows frame)) as [inserts | e] eqn:Hrecs
    end.
    2: { eexists (Raise e), _. split; [reflexivity |]. right. left. done. }
    simpl first_error. simpl heap. simpl sent. simpl pending.
    rewrite <- app_assoc.
    assert (Hwf : Forall (insert_well_formed self table fields) inserts).
    { apply res_mapM_Forall2 in Hrecs. apply Forall_forall. intros i Hi.
      apply list_elem_of_lookup in Hi as [n Hn].
      eapply Forall2_lookup_r in Hrecs as (rec & _ & Hrec); [| exact Hn].
      simpl in Hrec.
      destruct (record_values _ _ _ rec) as [values |] eqn:Hv; [| discriminate].
      simpl in Hrec. injection Hrec as <-.
      apply record_values_length in Hv. rewrite Hknown in Hv.
      unfold insert_well_formed. simpl.
      repeat (split; [done |]). split.
      * by rewrite length_replicate.
      * unfold fields, insert_columns. rewrite Hv, length_app, length_fmap. done. }
    assert (Hvals : Forall2
                      (fun rec i =>
                         record_values (column_map_of tdef)
                           (List.filter
                              (fun column =>
                                 negb (bool_decide (column ∈ extra_columns.*1)))
                              (columns frame))
                           extra_columns rec = Ok i.2)
                      (rows frame) inserts).
    { apply res_mapM_Forall2 in Hrecs. eapply Forall2_impl; [exact Hrecs |].
      intros rec i Hi. simpl in Hi. unfold column_map_of.
      destruct (record_values _ _ _ rec) as [values |]; [| discriminate].
      simpl in Hi. by injection Hi as <-. }
    destruct (cluster_execute (BatchStatement inserts)) as [e |] eqn:Hbatch;
      (eexists _, _; split; [reflexivity |]; right; right; exists inserts;
       split; [reflexivity |]; split; [by apply res_mapM_length in Hrecs |];
       split; [exact Hwf |]; split; [exact Hvals |]);
      (split; [intros ? | intros [_ ?]]); subst prepare; simpl; unfold query;
      rewrite ?Hexec; try done; congruence.
  - unfold py_ret at 1. unfold py_bind at 1. unfold py_lift at 1.
    match goal with
    | |- context [res_mapM ?f (rows frame)] =>
        destruct (res_mapM f (rows frame)) as [inserts | e] eqn:Hrecs
    end.
    2: { exists (Raise e), []. rewrite app_nil_r. split; [done |]. left. done. }
    unfold session_execute, session_execute_all.
    simpl first_error. simpl heap. simpl sent. simpl pending.
    assert (Hwf : Forall (insert_well_formed self table fields) inserts).
    { apply res_mapM_Forall2 in Hrecs. apply Forall_forall. intros i Hi.
      apply list_elem_of_lookup in Hi as [n Hn].
      eapply Forall2_lookup_r in Hrecs as (rec & _ & Hrec); [| exact Hn].
      simpl in Hrec.
      destruct (record_values _ _ _ rec) as [values |] eqn:Hv; [| discriminate].
      simpl in Hrec. injection Hrec as <-.
      apply record_values_length in Hv. rewrite Hknown in Hv.
      unfold insert_well_formed. simpl.
      repeat (split; [done |]). split.
      * rewrite length_replicate, Hv. unfold fields, insert_columns.
        by rewrite length_app, length_fmap.
      * unfold fields, insert_columns. rewrite Hv, length_app, length_fmap. done. }
    assert (Hvals : Forall2
                      (fun rec i =>
                         record_values (column_map_of tdef)
                           (List.filter
                              (fun column =>
                                 negb (bool_decide (column ∈ extra_columns.*1)))
                              (columns frame))
                           extra_columns rec = Ok i.2)
                      (rows frame) inserts).
    { apply res_mapM_Forall2 in Hrecs. eapply Forall2_impl; [exact Hrecs |].
      intros rec i Hi. simpl in Hi. unfold column_map_of.
      destruct (record_values _ _ _ rec) as [values |]; [| discriminate].
      simpl in Hi. by injection Hi as <-. }
    destruct (cluster_execute (BatchStatement inserts)) as [e |] eqn:Hbatch;
      (eexists _, _; split; [reflexivity |]; right; right; exists inserts;
       split; [reflexivity |]; split; [by apply res_mapM_length in Hrecs |];
       split; [exact Hwf |]; split; [exact Hvals |]);
      (split; [intros ? | intros [_ ?]]); subst prepare; simpl; try done;
      congruence.
Qed.

Lemma qValue_storable (v : Value) : storable (qValue v).
Proof. by destruct v. Qed.

Lemma record_values_spec (tdef : TableDef.t) (frame : DataFrame)
  (extra_columns : list (string * Value)) (rec : gmap string Value)
  (values : list Value) :
  record_values (column_map_of tdef)
    (List.filter (fun column => negb (bool_decide (column ∈ extra_columns.*1)))
       (columns frame))
    extra_columns rec = Ok values ->
  exists vs,
    values = vs ++ ((fun kv : string * Value => qValue kv.2) <$> extra_columns)
    /\ Forall2 (fun c v => sent_value tdef c (cell rec c) = Ok v)
         (catalog_columns tdef frame extra_columns) vs.
Proof.
  unfold record_values. intros Hv.
  destruct (stored_fields tdef frame extra_columns) as [_ Hknown].
  fold (column_map_of tdef) in Hknown. rewrite Hknown in Hv.
  destruct (res_mapM _ _) as [vs |] eqn:Hvs; [| discriminate].
  simpl in Hv. injection Hv as <-. exists vs. split; [done |].
  apply res_mapM_Forall2 in Hvs. exact Hvs.
Qed.

(** X13.  Whatever its outcome, [_storeObjectsPandas] leaves the frames
    alone and sends at most a [Prepare] and one batch, for the table of the
    call (with the suffix of the time partition when one is given).  The
    insert names, in this order, the columns of the catalog that the table
    defines and the extra columns do not give, then the extra columns; a
    column of the catalog that the table does not define is left out.
    Every insert has as many place holders and as many values as columns,
    and the batch has one insert per record of the catalog.  A call that
    returns has sent the batch. *)
Theorem store_statements_well_formed
  (self : ApdbCassandra) (objects : Ref) (table_name : ApdbTables)
  (extra_columns : list (string * Value)) (time_part : option Z) (s : State)
  (frame : DataFrame) (tdef : TableDef.t) :
  heap s !! objects = Some frame ->
  tableDef self table_name = Some tdef ->
  let run :=
    _storeObjectsPandas self objects table_name extra_columns time_part s in
  let fields := insert_columns tdef frame extra_columns in
  let table := physical_table self table_name time_part in
  heap run.2 = heap s
  /\ exists new,
       sent run.2 = sent s ++ new
       /\ Forall (statement_well_formed self table fields (length (rows frame))) new
       /\ (length new <= if prepared_statements (config self) then 2 else 1)%nat
       /\ (run.1 = Ok tt ->
           exists inserts,
             new = (if prepared_statements (config self)
                    then [Prepare {| ins_keyspace := keyspace (config self);
                                     ins_table := table;
                                     ins_qfields := quoteId <$> fields;
                                     ins_holders := replicate (length fields) "?" |}]
                    else [])
                   ++ [BatchStatement inserts]).
Proof.
  intros Hdf Htdef run fields table.
  destruct (storeObjectsPandas_run self objects table_name extra_columns time_part
              s frame tdef Hdf Htdef) as (r & new & Hrun & Hcases).
  fold fields table in Hcases. subst run. rewrite Hrun. simpl.
  split; [done |]. exists new. split; [done |].
  assert (Hprep : Forall (statement_well_formed self table fields
                            (length (rows frame)))
                    (if prepared_statements (config self)
                     then [Prepare {| ins_keyspace := keyspace (config self);
                                      ins_table := table;
                                      ins_qfields := quoteId <$> fields;
                                      ins_holders := replicate (length fields) "?" |}]
                     else [])).
  { destruct (prepared_statements (config self)); [| constructor].
    repeat constructor; simpl; by rewrite ?length_replicate. }
  destruct Hcases as [[-> Hr] | [(-> & Hp & Hr) | (inserts & -> & Hlen & Hwf & _ & Hok)]].
  - split; [constructor |]. split; [simpl; destruct (prepared_statements _); lia |].
    done.
  - split; [exact Hprep |]. rewrite Hp. simpl. split; [lia | done].
  - split; [| split].
    + apply Forall_app. split; [exact Hprep |]. by repeat constructor.
    + rewrite length_app. destruct (prepared_statements (config self)); simpl; lia.
    + intros _. by exists inserts.
Qed.


End StoreStatements.

Lemma store_statements_well_formed_witness :
  let self := example_apdb default_config in
  let s := initial_state [object_catalog_with_part] in
  let frame := object_catalog_with_part in
  let extra_columns := [("lastNonForcedSource", VDatetime 1609459200000000)] in
  let run :=
    _storeObjectsPandas (H := example_cluster ∅) self 0%nat DiaObjectLast
      extra_columns None s in
  let fields := insert_columns (example_table DiaObjectLast) frame extra_columns in
  let table := physical_table self DiaObjectLast None in
  heap run.2 = heap s
  /\ exists new,
       sent run.2 = sent s ++ new
       /\ Forall (statement_well_formed self table fields (length (rows frame))) new
       /\ (length new <= if prepared_statements (config self) then 2 else 1)%nat
       /\ (run.1 = Ok tt ->
           exists inserts,
             new = (if prepared_statements (config self)
                    then [Prepare {| ins_keyspace := keyspace (config self);
                                     ins_table := table;
                                     ins_qfields := quoteId <$> fields;
                                     ins_holders := replicate (length fields) "?" |}]
                    else [])
                   ++ [BatchStatement inserts]).
Proof.
  intros self s frame extra_columns run fields table.
  apply (store_statements_well_formed (H := example_cluster ∅) self 0%nat
           DiaObjectLast extra_columns None s frame (example_table DiaObjectLast)).
  - reflexivity.
  - reflexivity.
Defined.


(** * Where the records of a visit go *)

Section VisitPartition.

Context `{External}.

Lemma sends_only_ret {A} (P : Statement -> Prop) (a : A) : sends_only P (py_ret a).
Proof. intros s. exists []. by rewrite app_nil_r. Qed.

Lemma sends_only_lift {A} (P : Statement -> Prop) (r : PyResult A) :
  sends_only P (py_lift r).
Proof. intros s. exists []. by rewrite app_nil_r. Qed.

Lemma sends_only_bind {A B} (P : Statement -> Prop) (c : Py A) (k : A -> Py B) :
  sends_only P c -> (forall a, sends_only P (k a)) -> sends_only P (py_bind c k).
Proof.
  intros Hc Hk s. unfold py_bind. destruct (Hc s) as (new & Hs & HP).
  destruct (c s) as [[a | e] s1]; simpl in Hs.
  - destruct (Hk a s1) as (new' & Hs' & HP'). exists (new ++ new').
    rewrite Hs', Hs, app_assoc. split; [done |]. by apply Forall_app.
  - by exists new.
Qed.

Lemma sends_only_weaken {A} (P Q : Statement -> Prop) (c : Py A) :
  (forall st, P st -> Q st) -> sends_only P c -> sends_only Q c.
Proof.
  intros HPQ Hc s. destruct (Hc s) as (new & Hs & HP). exists new.
  split; [done |]. eapply Forall_impl; eauto.
Qed.

Lemma sends_nothing_only {A} (P : Statement -> Prop) (c : Py A) :
  sends_nothing c -> sends_only P c.
Proof. intros Hc s. exists []. by rewrite app_nil_r, Hc. Qed.

Lemma annotated_sent (s : State) (frame : DataFrame) (parts : PyResult (list Z)) :
  sent (annotated s frame parts).2 = sent s.
Proof. by destruct parts. Qed.

Lemma add_obj_part_sends_nothing (self : ApdbCassandra) (df : Ref) :
  sends_nothing (_add_obj_part self df).
Proof.
  intros s. destruct (heap s !! df) as [frame |] eqn:Hdf.
  - rewrite (add_obj_part_run _ _ frame) by exact Hdf. apply annotated_sent.
  - unfold _add_obj_part, py_bind, df_deref. by rewrite Hdf.
Qed.

Lemma add_src_part_sends_nothing (self : ApdbCassandra) (sources objs : Ref) :
  sends_nothing (_add_src_part self sources objs).
Proof.
  intros s. destruct (heap s !! objs) as [objs_frame |] eqn:Hobjs;
    [destruct (heap s !! sources) as [frame |] eqn:Hdf |].
  - rewrite (add_src_part_run _ _ _ frame objs_frame) by assumption.
    apply annotated_sent.
  - unfold _add_src_part, py_bind, df_deref. by rewrite Hobjs, Hdf.
  - unfold _add_src_part, py_bind, df_deref. by rewrite Hobjs.
Qed.

Lemma add_fsrc_part_sends_nothing (self : ApdbCassandra) (sources objs : Ref) :
  sends_nothing (_add_fsrc_part self sources objs).
Proof.
  intros s. destruct (heap s !! objs) as [objs_frame |] eqn:Hobjs;
    [destruct (heap s !! sources) as [frame |] eqn:Hdf |].
  - rewrite (add_fsrc_part_run _ _ _ frame objs_frame) by assumption.
    apply annotated_sent.
  - unfold _add_fsrc_part, py_bind, df_deref. by rewrite Hobjs, Hdf.
  - unfold _add_fsrc_part, py_bind, df_deref. by rewrite Hobjs.
Qed.

Lemma last_app_fmap {A B} (f : A -> B) (l : list B) (l' : list A) (x : A) :
  last l' = Some x -> last (l ++ (f <$> l')) = Some (f x).
Proof.
  intros Hl. induction l' as [| y l' _] using rev_ind; [done |].
  rewrite last_snoc in Hl. injection Hl as ->.
  rewrite fmap_app, app_assoc. simpl. by rewrite last_snoc.
Qed.

(** The statements of [_storeObjectsPandas] go to the table of the call and
    end with the extra columns. *)
Lemma storeObjectsPandas_sends (self : ApdbCassandra) (objects : Ref)
  (table_name : ApdbTables) (extra_columns : list (string * Value))
  (time_part : option Z) :
  sends_only
    (fun st =>
       statement_targets (physical_table self table_name time_part) st
       /\ forall name p,
            last extra_columns = Some (name, VInt p) ->
            match st with
            | Prepare query => last (ins_qfields query) = Some (quoteId name)
            | BatchStatement inserts =>
                Forall (fun i : InsertInto * list Value =>
                          last (ins_qfields i.1) = Some (quoteId name)
                          /\ last i.2 = Some (VInt p)) inserts
            | _ => False
            end)
    (_storeObjectsPandas self objects table_name extra_columns time_part).
Proof.
  intros s. unfold _storeObjectsPandas.
  unfold py_bind at 1. unfold df_deref at 1.
  destruct (heap s !! objects) as [frame |];
    [| exists []; by rewrite app_nil_r].
  unfold py_bind at 1. unfold py_lift at 1.
  destruct (getColumnMap _ _) as [column_map |];
    [| exists []; by rewrite app_nil_r].
  unfold py_bind at 1. unfold py_lift at 1.
  destruct (required_columns_of self table_name) as [required |];
    [| exists []; by rewrite app_nil_r].
  destruct (List.filter _ required) as [| c missing];
    [| exists []; by rewrite app_nil_r].
  fold (physical_table self table_name time_part).
  set (table := physical_table self table_name time_part).
  set (fields := omap _ _ ++ extra_columns.*1).
  assert (Hlast : forall name p,
             last extra_columns = Some (name, VInt p) ->
             last (quoteId <$> fields) = Some (quoteId name)).
  { intros name p Hl. rewrite fmap_last. unfold fields.
    rewrite (last_app_fmap fst _ extra_columns (name, VInt p) Hl). done. }
  assert (Hvals : forall f (inserts : list (InsertInto * list Value)),
             (forall rec values, ins_table (f rec values) = table
                                 /\ ins_qfields (f rec values) = quoteId <$> fields) ->
             res_mapM
               (fun rec =>
                  values <~ record_values column_map
                              (List.filter
                                 (fun column =>
                                    negb (bool_decide (column ∈ extra_columns.*1)))
                                 (columns frame))
                              extra_columns rec ;;
                  Ok (f rec values, values)) (rows frame) = Ok inserts ->
             statement_targets table (BatchStatement inserts)
             /\ forall name p,
                  last extra_columns = Some (name, VInt p) ->
                  Forall (fun i : InsertInto * list Value =>
                            last (ins_qfields i.1) = Some (quoteId name)
                            /\ last i.2 = Some (VInt p)) inserts).
  { intros f inserts Hf Hrecs. apply res_mapM_Forall2 in Hrecs.
    assert (Hall : Forall (fun i : InsertInto * list Value =>
                             ins_table i.1 = table
                             /\ ins_qfields i.1 = quoteId <$> fields
                             /\ exists vs, i.2 = vs ++ ((fun kv : string * Value =>
                                                            qValue kv.2)
                                                         <$> extra_columns))
                      inserts).
    { apply Forall_forall. intros i Hi. apply list_elem_of_lookup in Hi as [n Hn].
      eapply Forall2_lookup_r in Hrecs as (rec & _ & Hrec); [| exact Hn].
      simpl in Hrec. unfold record_values in Hrec.
      destruct (res_mapM _ _) as [vs |]; [| discriminate].
      cbn in Hrec. injection Hrec as <-. simpl.
      destruct (Hf rec (vs ++ ((fun kv : string * Value => qValue kv.2)
                               <$> extra_columns))) as [Ht Hq].
      split; [done |]. split; [done |]. by exists vs. }
    split.
    - simpl. eapply Forall_impl; [exact Hall |]. by intros i (Ht & _).
    - intros name p Hl. eapply Forall_impl; [exact Hall |].
      intros i (_ & Hq & vs & Hv). rewrite Hq, Hv. split; [by eapply Hlast |].
      by rewrite (last_app_fmap _ _ extra_columns (name, VInt p) Hl). }
  unfold py_bind at 1.
  destruct (prepared_statements (config self)).
  - unfold py_bind at 1. unfold session_execute, session_execute_all.
    simpl first_error.
    set (query := {| ins_keyspace := keyspace (config self); ins_table := table;
                     ins_qfields := quoteId <$> fields;
                     ins_holders := replicate (length (quoteId <$> fields)) "?" |}).
    assert (Hprep : statement_targets table (Prepare query)
                    /\ forall name p,
                         last extra_columns = Some (name, VInt p) ->
                         last (ins_qfields query) = Some (quoteId name)).
    { split; [done |]. intros name p Hl. simpl. by eapply Hlast. }
    destruct (cluster_execute (Prepare query)) as [e |].
    { exists [Prepare query]. split; [done |].
      apply List.Forall_cons; [exact Hprep | apply List.Forall_nil]. }
    unfold py_ret at 1. unfold py_bind at 1. unfold py_lift at 1.
    match goal with
    | |- context [res_mapM ?f (rows frame)] =>
        destruct (res_mapM f (rows frame)) as [inserts |] eqn:Hrecs
    end.
    2: { exists [Prepare query]. split; [done |].
         apply List.Forall_cons; [exact Hprep | apply List.Forall_nil]. }
    exists [Prepare query; BatchStatement inserts]. split.
    + simpl. destruct (cluster_execute (BatchStatement inserts)); simpl;
        by rewrite <- app_assoc.
    + apply (Hvals (fun _ _ => query)) in Hrecs; [| done].
      apply List.Forall_cons; [exact Hprep |].
      apply List.Forall_cons; [exact Hrecs | apply List.Forall_nil].
  - unfold py_ret at 1. unfold py_bind at 1. unfold py_lift at 1.
    match goal with
    | |- context [res_mapM ?f (rows frame)] =>
        destruct (res_mapM f (rows frame)) as [inserts |] eqn:Hrecs
    end.
    2: { exists []. by rewrite app_nil_r. }
    exists [BatchStatement inserts]. split.
    + unfold session_execute, session_execute_all. simpl.
      by destruct (cluster_execute (BatchStatement inserts)).
    + apply (Hvals (fun _ values =>
                      {| ins_keyspace := keyspace (config self); ins_table := table;
                         ins_qfields := quoteId <$> fields;
                         ins_holders := replicate (length values) "%s" |}))
        in Hrecs; [| done].
      apply List.Forall_cons; [exact Hrecs | apply List.Forall_nil].
Qed.

Lemma sends_only_lift_ok {A B} (P : Statement -> Prop) (a : A) (k : A -> Py B) :
  sends_only P (k a) -> sends_only P (py_bind (py_lift (Ok a)) k).
Proof. intros Hk s. apply Hk. Qed.

(** One table of a visit, written under the time partition [p]. *)
Lemma store_table_written_under (self : ApdbCassandra) (objects : Ref)
  (table_name : ApdbTables) (extra_columns : list (string * Value)) (p : Z) :
  sends_only (written_under self p table_name)
    (if negb (time_partition_tables (config self)) then
       _storeObjectsPandas self objects table_name
         (extra_columns ++ [("apdb_time_part", VInt p)]) None
     else _storeObjectsPandas self objects table_name extra_columns (Some p)).
Proof.
  unfold written_under. destruct (time_partition_tables (config self)); simpl.
  - eapply sends_only_weaken; [| apply storeObjectsPandas_sends].
    by intros st [Ht _].
  - eapply sends_only_weaken; [| apply storeObjectsPandas_sends].
    intros st [Ht Hlast]. split; [exact Ht |].
    specialize (Hlast "apdb_time_part" p (last_snoc _ _)).
    by destruct st.
Qed.

(** X15.  Whatever its outcome, [store] sends nothing but inserts into the
    table of the last objects and inserts that file the objects, the
    sources and the forced sources under the time partition of the visit
    time: in the tables [DiaObject_p], [DiaSource_p] and
    [DiaForcedSource_p] when there is a table per time partition, and
    otherwise in the single tables with [p] as the last column,
    [apdb_time_part], of every insert.  The [midPointTai] of a record plays
    no part in where it is filed. *)
Theorem store_writes_visit_partition
  (self : ApdbCassandra) (visit_time : DateTime) (objects : Ref)
  (sources forced_sources : option Ref) (p : Z) (s : State) :
  _time_partition (config self) (TimeDateTime visit_time) = Ok p ->
  exists new,
    sent (store self visit_time objects sources forced_sources s).2 = sent s ++ new
    /\ Forall
         (fun st =>
            statement_targets (physical_table self DiaObjectLast None) st
            \/ written_under self p DiaObject st
            \/ written_under self p DiaSource st
            \/ written_under self p DiaForcedSource st)
         new.
Proof.
  intros Hp. revert s.
  change (sends_only
            (fun st =>
               statement_targets (physical_table self DiaObjectLast None) st
               \/ written_under self p DiaObject st
               \/ written_under self p DiaSource st
               \/ written_under self p DiaForcedSource st)
            (store self visit_time objects sources forced_sources)).
  set (P := fun st => _ \/ _).
  assert (Hsrc : forall table_name src,
             table_name = DiaSource \/ table_name = DiaForcedSource ->
             sends_only P (_storeDiaSources self table_name src visit_time)).
  { intros table_name src Ht. unfold _storeDiaSources. rewrite Hp.
    apply sends_only_lift_ok.
    eapply sends_only_weaken;
      [| apply (store_table_written_under self src table_name [] p)].
    intros st Hst. unfold P. destruct Ht as [-> | ->]; tauto. }
  unfold store. apply sends_only_bind.
  { apply sends_nothing_only, add_obj_part_sends_nothing. }
  intros objs. apply sends_only_bind.
  { unfold _storeDiaObjects. apply sends_only_bind.
    - eapply sends_only_weaken; [| apply storeObjectsPandas_sends].
      intros st [Ht _]. by left.
    - intros _. rewrite Hp. apply sends_only_lift_ok.
      eapply sends_only_weaken;
        [| apply (store_table_written_under self objs DiaObject _ p)].
      intros st Hst. unfold P. tauto. }
  intros _. apply sends_only_bind.
  { destruct sources as [src |]; [| apply sends_only_ret].
    apply sends_only_bind.
    - apply sends_nothing_only, add_src_part_sends_nothing.
    - intros src'. apply Hsrc. by left. }
  intros _. destruct forced_sources as [fsrc |]; [| apply sends_only_ret].
  apply sends_only_bind.
  - apply sends_nothing_only, add_fsrc_part_sends_nothing.
  - intros fsrc'. apply Hsrc. by right.
Qed.

End VisitPartition.

Lemma store_writes_visit_partition_witness :
  let self := example_apdb default_config in
  let s := initial_state [object_catalog; source_catalog; forced_catalog] in
  exists new,
    sent (store (H := example_cluster ∅) self visit_2021 0%nat (Some 1%nat)
            (Some 2%nat) s).2 = sent s ++ new
    /\ Forall
         (fun st =>
            statement_targets (physical_table self DiaObjectLast None) st
            \/ written_under self 620 DiaObject st
            \/ written_under self 620 DiaSource st
            \/ written_under self 620 DiaForcedSource st)
         new.
Proof.
  intros self s.
  apply (store_writes_visit_partition (H := example_cluster ∅) self visit_2021
           0%nat (Some 1%nat) (Some 2%nat) 620 s).
  vm_compute. reflexivity.
Defined.

(** * A visit that fails half way *)

Section PartialStore.

Context `{External}.

Lemma with_apdb_part_object_id (frame : DataFrame) (parts : list Z)
  (o : gmap string Value) :
  o ∈ rows (with_apdb_part frame parts) ->
  exists o0, o0 ∈ rows frame /\ cell o "diaObjectId" = cell o0 "diaObjectId".
Proof.
  simpl. intros (o0 & v & -> & Ho & _)%elem_of_zip_with.
  exists o0. split; [done |]. unfold cell. by rewrite lookup_insert_ne.
Qed.

(** X16.  [store] is not atomic.  When a forced source of the visit refers
    to no object of the object catalog, [store] raises, and it leaves the
    session exactly as the same call without forced sources leaves it when
    it succeeds: the objects and the sources of the visit have been sent
    and stay written. *)
Theorem store_fails_after_writing
  (self : ApdbCassandra) (visit_time : DateTime) (objects fsrc : Ref)
  (sources : option Ref) (frame fframe : DataFrame) (row : gmap string Value)
  (s s1 : State) :
  heap s !! objects = Some frame ->
  heap s !! fsrc = Some fframe ->
  row ∈ rows fframe ->
  (forall o, o ∈ rows frame ->
     py_eq (cell o "diaObjectId") (cell row "diaObjectId") = false) ->
  store self visit_time objects sources None s = (Ok tt, s1) ->
  exists e, store self visit_time objects sources (Some fsrc) s = (Raise e, s1).
Proof.
  intros Hdf Hf Hrow Hunknown Hstore. unfold store in Hstore |- *.
  unfold py_bind at 1 in Hstore. unfold py_bind at 1.
  rewrite (add_obj_part_run self objects frame s Hdf) in Hstore |- *.
  destruct (obj_apdb_part self frame) as [parts |]; simpl in Hstore |- *;
    [| discriminate].
  set (s0 := allocated s (with_apdb_part frame parts)) in *.
  set (r := length (heap s)) in *.
  assert (Hr0 : heap s0 !! r = Some (with_apdb_part frame parts)).
  { simpl. by apply list_lookup_middle. }
  assert (Hf0 : heap s0 !! fsrc = Some fframe).
  { simpl. by apply lookup_app_l_Some. }
  unfold py_bind at 1 in Hstore. unfold py_bind at 1.
  pose proof (keeps_storeDiaObjects self r visit_time s0) as HkA.
  destruct (_storeDiaObjects self r visit_time s0) as [[[] | e] sA];
    [| discriminate].
  simpl in HkA.
  set (src_part :=
         match sources with
         | Some sources0 =>
             sources1 <- _add_src_part self sources0 r ;;
             _storeDiaSources self DiaSource sources1 visit_time
         | None => py_ret tt
         end) in *.
  assert (HkB : keeps_frames src_part).
  { unfold src_part. destruct sources; [| apply keeps_ret].
    apply keeps_bind; [apply keeps_add_src_part |].
    intros ?. apply keeps_storeDiaSources. }
  unfold py_bind at 1 in Hstore. unfold py_bind at 1. specialize (HkB sA).
  destruct (src_part sA) as [[[] | e] sB]; [| discriminate].
  simpl in HkB. unfold py_ret in Hstore. injection Hstore as <-.
  assert (Hpre : heap s0 `prefix_of` heap sB) by (by etrans).
  destruct Hpre as [k Hk].
  assert (HrB : heap sB !! r = Some (with_apdb_part frame parts)).
  { rewrite Hk. by apply lookup_app_l_Some. }
  assert (HfB : heap sB !! fsrc = Some fframe).
  { rewrite Hk. by apply lookup_app_l_Some. }
  unfold py_bind.
  rewrite (add_fsrc_part_run self fsrc r fframe (with_apdb_part frame parts) sB HfB HrB).
  destruct (fsrc_apdb_part_unknown_id fframe (with_apdb_part frame parts) row Hrow)
    as [e He].
  - intros o [Ho Heq].
    apply with_apdb_part_object_id in Ho as (o0 & Ho0 & Hid).
    rewrite Hid in Heq. rewrite Hunknown in Heq by done. discriminate.
  - rewrite He. simpl. by exists e.
Qed.

End PartialStore.

Lemma store_fails_after_writing_witness :
  let self := example_apdb default_config in
  let s := initial_state [object_catalog; source_catalog; forced_catalog_sso] in
  let s1 := (store (H := example_cluster ∅) self visit_2021 0%nat (Some 1%nat)
               None s).2 in
  exists e,
    store (H := example_cluster ∅) self visit_2021 0%nat (Some 1%nat)
      (Some 2%nat) s = (Raise e, s1).
Proof.
  intros self s s1.
  apply (store_fails_after_writing (H := example_cluster ∅) self visit_2021
           0%nat 2%nat (Some 1%nat) object_catalog forced_catalog_sso
           (default ∅ (rows forced_catalog_sso !! 1%nat)) s s1).
  - reflexivity.
  - reflexivity.
  - apply list_elem_of_lookup. exists 1%nat. reflexivity.
  - forall_elements ltac:(vm_compute; reflexivity).
  - vm_compute. reflexivity.
Defined.

(** * The statements of the schema creation *)

Section SchemaStatements.

Context `{External}.

Lemma sends_only_execute_all (P : Statement -> Prop) (queries : list Statement) :
  Forall P queries -> sends_only P (session_execute_all queries).
Proof.
  intros HP s. exists queries. split; [| done].
  unfold session_execute_all. by destruct (first_error queries).
Qed.

Lemma sends_only_for {A} (P : Statement -> Prop) (xs : list A) (body : A -> Py unit) :
  (forall x, sends_only P (body x)) -> sends_only P (py_for xs body).
Proof.
  intros Hbody. induction xs as [| x xs IH]; simpl.
  - apply sends_only_ret.
  - apply sends_only_bind; [apply Hbody | by intros _].
Qed.

Lemma created_tables_Forall (self : ApdbCassandraSchema) (drop : bool)
  (table : string) (table_list : list string) (queries : list Statement) :
  res_mapM (fun table_name =>
              column_defs <~ _tableColumns self table ;;
              Ok (CreateTable (negb drop) table_name column_defs)) table_list
  = Ok queries ->
  Forall2 (fun table_name st =>
             exists column_defs, st = CreateTable (negb drop) table_name column_defs)
    table_list queries.
Proof.
  intros Hq. apply res_mapM_Forall2 in Hq. eapply Forall2_impl; [exact Hq |].
  intros table_name st Hst. simpl in Hst.
  destruct (_tableColumns self table) as [column_defs |]; [| discriminate].
  simpl in Hst. injection Hst as <-. by exists column_defs.
Qed.

Lemma makeSchema_table_keeps (self : ApdbCassandraSchema) (table : string) :
  sends_only creates_if_not_exists (makeSchema_table self false table).
Proof.
  unfold makeSchema_table. apply sends_only_bind; [apply sends_only_lift |].
  intros table_list. apply sends_only_bind; [apply sends_only_ret |].
  intros _. intros s. unfold py_bind, py_lift.
  destruct (res_mapM _ table_list) as [queries |] eqn:Hq.
  - apply sends_only_execute_all.
    apply created_tables_Forall in Hq. apply Forall_forall. intros st Hst.
    apply list_elem_of_lookup in Hst as [i Hi].
    eapply Forall2_lookup_r in Hq as (table_name & _ & column_defs & ->); [| exact Hi].
    done.
  - exists []. by rewrite app_nil_r.
Qed.

(** X17.  Creating the schema without [drop] never drops a table: every
    statement that [ApdbCassandraSchema.makeSchema] sends, called with
    [drop=False] or without argument, and every statement that
    [ApdbCassandra.makeSchema(drop=False)] sends, is a
    [CREATE TABLE IF NOT EXISTS], whatever the outcome of the call. *)
Theorem makeSchema_without_drop_keeps_tables
  (self : ApdbCassandra) (schema : ApdbCassandraSchema) :
  sends_only creates_if_not_exists (makeSchema_body schema false)
  /\ sends_only creates_if_not_exists
       (ApdbCassandraSchema_makeSchema schema [("drop", ArgBool false)])
  /\ sends_only creates_if_not_exists (ApdbCassandraSchema_makeSchema schema [])
  /\ sends_only creates_if_not_exists (makeSchema self false).
Proof.
  assert (Hbody : forall sch, sends_only creates_if_not_exists
                                (makeSchema_body sch false)).
  { intros sch. unfold makeSchema_body. apply sends_only_for.
    intros table. apply makeSchema_table_keeps. }
  assert (Hkw : forall sch kwargs,
             default false (arg_truth <$> assoc_lookup kwargs "drop") = false ->
             sends_only creates_if_not_exists
               (ApdbCassandraSchema_makeSchema sch kwargs)).
  { intros sch kwargs Hdrop. unfold ApdbCassandraSchema_makeSchema.
    apply sends_only_bind; [apply sends_only_lift |]. intros _.
    rewrite Hdrop. apply Hbody. }
  split; [apply Hbody |]. split; [by apply Hkw |]. split; [by apply Hkw |].
  unfold makeSchema. destruct (time_partition_tables (config self)).
  - do 4 (apply sends_only_bind; [apply sends_only_lift |]; intros ?).
    by apply Hkw.
  - by apply Hkw.
Qed.

Lemma drops_before_creating_nil : drops_before_creating [].
Proof. split; [constructor | intros i ? ? Hi; by rewrite lookup_nil in Hi]. Qed.

Lemma drops_before_creating_app (l1 l2 : list Statement) :
  drops_before_creating l1 -> drops_before_creating l2 ->
  drops_before_creating (l1 ++ l2).
Proof.
  intros [H1 Hd1] [H2 Hd2]. split; [by apply Forall_app |].
  intros i table_name column_defs Hi.
  apply lookup_app_Some in Hi as [Hi | [Hlen Hi]].
  - destruct (Hd1 _ _ _ Hi) as (j & Hj & Hdrop). exists j. split; [done |].
    by apply lookup_app_l_Some.
  - destruct (Hd2 _ _ _ Hi) as (j & Hj & Hdrop). exists (length l1 + j)%nat.
    split; [lia |]. by rewrite lookup_app_r, Nat.add_sub' by lia.
Qed.

Lemma drops_then_creates (drop_list : list string) (queries : list Statement) :
  Forall2 (fun table_name st =>
             exists column_defs, st = CreateTable false table_name column_defs)
    drop_list queries ->
  drops_before_creating ((DropTable <$> drop_list) ++ queries).
Proof.
  intros Hq. split.
  - apply Forall_app. split.
    + by apply Forall_fmap, Forall_forall.
    + apply Forall_forall. intros st Hst.
      apply list_elem_of_lookup in Hst as [i Hi].
      eapply Forall2_lookup_r in Hq as (table_name & _ & column_defs & ->);
        [| exact Hi].
      done.
  - intros i table_name column_defs Hi.
    apply lookup_app_Some in Hi as [Hi | [Hlen Hi]].
    + apply list_lookup_fmap_Some in Hi as (? & ? & _). discriminate.
    + rewrite length_fmap in Hlen, Hi.
      pose proof (Forall2_length _ _ _ Hq) as Hn.
      pose proof (lookup_lt_Some _ _ _ Hi) as Hlt.
      eapply Forall2_lookup_r in Hq as (table_name' & Ht & column_defs' & Heq);
        [| exact Hi].
      injection Heq as <- _.
      exists (i - length drop_list)%nat. split; [lia |].
      apply lookup_app_l_Some. by rewrite list_lookup_fmap, Ht.
Qed.

Lemma makeSchema_table_drops_first (self : ApdbCassandraSchema) (table : string)
  (s : State) :
  exists new,
    sent (makeSchema_table self true table s).2 = sent s ++ new
    /\ drops_before_creating new.
Proof.
  unfold makeSchema_table. unfold py_bind at 1. unfold py_lift at 1.
  match goal with
  | |- context [if ?b then partition_table_list self ?t else ?o] =>
      destruct (if b then partition_table_list self t else o) as [table_list |]
  end.
  2: { exists []. rewrite app_nil_r. split; [done | apply drops_before_creating_nil]. }
  assert (Hdrops : drops_before_creating (DropTable <$> table_list)).
  { split; [by apply Forall_fmap, Forall_forall |].
    intros i ? ? Hi. apply list_lookup_fmap_Some in Hi as (? & ? & _).
    discriminate. }
  unfold py_bind at 1. unfold session_execute_all at 1.
  destruct (first_error (DropTable <$> table_list)).
  { by exists (DropTable <$> table_list). }
  unfold py_bind at 1. unfold py_lift at 1.
  destruct (res_mapM _ table_list) as [queries |] eqn:Hq.
  - exists ((DropTable <$> table_list) ++ queries). split.
    + unfold session_execute_all. simpl.
      destruct (first_error queries); simpl; by rewrite app_assoc.
    + apply drops_then_creates. by apply (created_tables_Forall self true table).
  - by exists (DropTable <$> table_list).
Qed.

(** X18.  Creating the schema with [drop=True] sends nothing but
    [DROP TABLE IF EXISTS] and [CREATE TABLE] statements, the latter without
    [IF NOT EXISTS], and every table is dropped before it is created,
    whatever the outcome of the call. *)
Theorem makeSchema_with_drop_drops_first
  (schema : ApdbCassandraSchema) (s : State) :
  (exists new,
     sent (makeSchema_body schema true s).2 = sent s ++ new
     /\ drops_before_creating new)
  /\ exists new,
       sent (ApdbCassandraSchema_makeSchema schema [("drop", ArgBool true)] s).2
       = sent s ++ new
       /\ drops_before_creating new.
Proof.
  assert (Hbody : forall tables s0,
             exists new,
               sent (py_for tables (makeSchema_table schema true) s0).2
               = sent s0 ++ new
               /\ drops_before_creating new).
  { induction tables as [| table tables IH]; intros s0; simpl.
    - exists []. rewrite app_nil_r. split; [done | apply drops_before_creating_nil].
    - unfold py_bind.
      destruct (makeSchema_table_drops_first schema table s0) as (new & Hs & Hd).
      destruct (makeSchema_table schema true table s0) as [[[] | e] s1];
        simpl in Hs; [| by exists new].
      destruct (IH s1) as (new' & Hs' & Hd'). exists (new ++ new').
      rewrite Hs', Hs, app_assoc. split; [done |].
      by apply drops_before_creating_app. }
  split; [apply Hbody |]. apply Hbody.
Qed.

End SchemaStatements.

(** * The schema creation with a prefix *)

Section SchemaPrefix.

Context `{External}.

Lemma string_length_app (s1 s2 : string) :
  String.length (s1 +:+ s2) = (String.length s1 + String.length s2)%nat.
Proof.
  induction s1 as [| a s1 IH]; [done |].
  change (String a s1 +:+ s2) with (String a (s1 +:+ s2)). simpl. by rewrite IH.
Qed.

Lemma prefixed_name_differs (prefix name other : string) :
  prefix <> "" -> (String.length other <= String.length name)%nat ->
  prefix +:+ name <> other.
Proof.
  intros Hp Hlen Heq. apply (f_equal String.length) in Heq.
  rewrite string_length_app in Heq. destruct prefix; [done |]. simpl in Heq. lia.
Qed.

Lemma py_for_app {A} (xs ys : list A) (body : A -> Py unit) (s : State) :
  py_for (xs ++ ys) body s
  = (py_for xs body ;;; py_for ys body) s.
Proof.
  revert s. induction xs as [| x xs IH]; intros s; simpl; [done |].
  unfold py_bind. destruct (body x s) as [[[] | e] s1]; [| done].
  rewrite IH. reflexivity.
Qed.

(** X19.  With a prefix that is not empty, and no table of the schema
    named [<prefix>ApdbProtoVisits], [ApdbCassandraSchema.makeSchema] never
    returns: the visits table is looked up under its prefixed name, which
    is no table of the schema.  Without [drop], when the tables of the
    schema have been created the call raises [KeyError] for that name and
    the visits table is not created. *)
Theorem makeSchema_with_prefix_raises
  (schema : ApdbCassandraSchema) :
  _prefix schema <> "" ->
  assoc_lookup (tableSchemas schema) (visitTableName schema) = None ->
  (forall drop s, exists e, (makeSchema_body schema drop s).1 = Raise e)
  /\ forall s s1,
       py_for (tableSchemas schema).*1 (makeSchema_table schema false) s = (Ok tt, s1) ->
       makeSchema_body schema false s
       = (Raise (KeyError (VStr (visitTableName schema))), s1).
Proof.
  intros Hprefix Hnone.
  assert (Hvisit : visitTableName schema <> "ApdbProtoVisits").
  { apply prefixed_name_differs; [done | simpl; lia]. }
  assert (Hsrc : visitTableName schema ∉ ["DiaSource"; "DiaForcedSource"]).
  { intros [Heq | [Heq | Hin]%elem_of_cons]%elem_of_cons.
    - revert Heq. apply prefixed_name_differs; [done | simpl; lia].
    - revert Heq. apply prefixed_name_differs; [done | simpl; lia].
    - by apply elem_of_nil in Hin. }
  assert (Hcols : _tableColumns schema (visitTableName schema)
                  = Raise (KeyError (VStr (visitTableName schema)))).
  { unfold _tableColumns. rewrite bool_decide_eq_false_2 by done.
    unfold assoc_getitem. by rewrite Hnone. }
  assert (Htable : forall drop s,
             exists e s', makeSchema_table schema drop (visitTableName schema) s
                          = (Raise e, s')
                          /\ (drop = false ->
                              e = KeyError (VStr (visitTableName schema)) /\ s' = s)).
  { intros drop s. unfold makeSchema_table.
    rewrite bool_decide_eq_false_2 by done. rewrite andb_false_r.
    unfold py_bind at 1. unfold py_lift at 1.
    unfold py_bind at 1. destruct drop.
    - unfold session_execute_all at 1. destruct (first_error _).
      + eexists _, _. split; [reflexivity | done].
      + unfold py_bind, py_lift. simpl. rewrite Hcols. simpl.
        eexists _, _. split; [reflexivity | done].
    - unfold py_ret at 1. unfold py_bind, py_lift. simpl. rewrite Hcols. simpl.
      eexists _, _. split; [reflexivity | done]. }
  split.
  - intros drop s. unfold makeSchema_body. rewrite py_for_app. unfold py_bind.
    destruct (py_for _ _ s) as [[[] | e] s1]; [| by exists e].
    simpl. unfold py_bind.
    destruct (Htable drop s1) as (e & s' & -> & _). by exists e.
  - intros s s1 Hrun. unfold makeSchema_body. rewrite py_for_app. unfold py_bind.
    rewrite Hrun. simpl. unfold py_bind.
    destruct (Htable false s1) as (e & s' & -> & He).
    by destruct (He eq_refl) as [-> ->].
Qed.

End SchemaPrefix.

Lemma makeSchema_with_prefix_raises_witness :
  let schema := with_prefix (_schema (example_apdb default_config)) "test_" in
  (forall drop s,
     exists e, (makeSchema_body (H := example_cluster ∅) schema drop s).1 = Raise e)
  /\ forall s s1,
       py_for (tableSchemas schema).*1
         (makeSchema_table (H := example_cluster ∅) schema false) s = (Ok tt, s1) ->
       makeSchema_body (H := example_cluster ∅) schema false s
       = (Raise (KeyError (VStr (visitTableName schema))), s1).
Proof.
  intros schema.
  apply (makeSchema_with_prefix_raises (H := example_cluster ∅) schema).
  - discriminate.
  - reflexivity.
Defined.

(** * Quoting of column names *)

Lemma list_ascii_of_string_app (s1 s2 : string) :
  list_ascii_of_string (s1 +:+ s2)
  = list_ascii_of_string s1 ++ list_ascii_of_string s2.
Proof.
  induction s1 as [| a s1 IH]; [done |].
  change (String a s1 +:+ s2) with (String a (s1 +:+ s2)). simpl. by rewrite IH.
Qed.

Lemma list_ascii_of_string_inj (s1 s2 : string) :
  list_ascii_of_string s1 = list_ascii_of_string s2 -> s1 = s2.
Proof.
  intros Heq. rewrite <- (string_of_list_ascii_of_string s1),
    <- (string_of_list_ascii_of_string s2). by rewrite Heq.
Qed.

Lemma quoted_inj (s1 s2 : string) : quoted s1 = quoted s2 -> s1 = s2.
Proof.
  unfold quoted. intros Heq. apply (f_equal list_ascii_of_string) in Heq.
  rewrite !list_ascii_of_string_app in Heq.
  apply app_inv_head, app_inv_tail in Heq. by apply list_ascii_of_string_inj.
Qed.

Lemma islower_quoted (s : string) : islower (quoted s) = islower s.
Proof.
  unfold islower, quoted. rewrite !list_ascii_of_string_app, !existsb_app.
  simpl. by rewrite !orb_false_r.
Qed.


(** * The table of the last objects and the prefix *)

Section LastObjectsPrefix.

Context `{External}.

(** X21.  [getDiaObjects] queries the table named [DiaObjectLast] of the
    keyspace, whatever the prefix of the table names is, while the last
    objects of a visit are written to [<prefix>DiaObjectLast]: with a
    prefix that is not empty the objects are read from another table than
    the one they are written to. *)
Theorem getDiaObjects_ignores_prefix
  (self : ApdbCassandra) (region : Region) (s : State) :
  (exists new,
     sent (getDiaObjects self region s).2 = sent s ++ new
     /\ Forall (fun st => exists spatial,
                  st = Select (keyspace (config self)) "DiaObjectLast" spatial None)
          new)
  /\ (forall objects extra_columns,
        sends_only
          (statement_targets (_prefix (_schema self) +:+ "DiaObjectLast"))
          (_storeObjectsPandas self objects DiaObjectLast extra_columns None))
  /\ (_prefix (_schema self) <> "" ->
      _prefix (_schema self) +:+ "DiaObjectLast" <> "DiaObjectLast").
Proof.
  split; [| split].
  - unfold getDiaObjects, py_bind.
    match goal with
    | |- context [_run_queries self ?q s] =>
        pose proof (run_queries_state self q s) as [_ Hsent];
        destruct (_run_queries self q s) as [[objects | e] s1]
    end; simpl in Hsent |- *; eexists; (split; [exact Hsent |]);
      apply Forall_fmap, Forall_forall; intros w _; by exists w.
  - intros objects extra_columns.
    eapply sends_only_weaken; [| apply storeObjectsPandas_sends].
    by intros st [Ht _].
  - intros Hp. apply prefixed_name_differs; [done | lia].
Qed.

End LastObjectsPrefix.

(** * The translation of addresses *)

Lemma foldl_insert_other (l : list (string * string)) (m : gmap string string)
  (k : string) :
  k ∉ l.*1 ->
  foldl (fun d kv => <[kv.1 := kv.2]> d) m l !! k = m !! k.
Proof.
  revert m. induction l as [| [k' v'] l IH]; intros m Hk; [done |].
  simpl. apply not_elem_of_cons in Hk as [Hne Hk]. rewrite IH by done.
  by rewrite lookup_insert_ne.
Qed.

Lemma foldl_insert_last (l1 l2 : list (string * string)) (m : gmap string string)
  (k v : string) :
  k ∉ l2.*1 ->
  foldl (fun d kv => <[kv.1 := kv.2]> d) m (l1 ++ (k, v) :: l2) !! k = Some v.
Proof.
  intros Hk. rewrite foldl_app. simpl. rewrite foldl_insert_other by done.
  apply lookup_insert_eq.
Qed.

(** X22.  The address translator maps an internal address to the external
    address at the same position of the configured lists, the last position
    counting when the internal address is listed more than once, and it
    returns every address that is not among the paired internal addresses
    unchanged. *)
Theorem address_translation
  (public_ips private_ips : list string) (i : nat) (private_ip public_ip : string) :
  private_ips !! i = Some private_ip ->
  public_ips !! i = Some public_ip ->
  (forall j, (i < j < length public_ips)%nat -> private_ips !! j <> Some private_ip) ->
  translate (AddressTranslator_init public_ips private_ips) private_ip = public_ip
  /\ forall ip,
       ip ∉ take (length public_ips) private_ips ->
       translate (AddressTranslator_init public_ips private_ips) ip = ip.
Proof.
  intros Hpriv Hpub Hlast. unfold translate, AddressTranslator_init. simpl. split.
  - assert (Hzip : zip private_ips public_ips !! i = Some (private_ip, public_ip)).
    { apply lookup_zip_with_Some. by exists private_ip, public_ip. }
    rewrite <- (take_drop_middle _ _ _ Hzip).
    rewrite foldl_insert_last; [done |].
    intros Hin. apply list_elem_of_fmap in Hin as ([k v] & Hk & Hin).
    simpl in Hk. subst k. apply list_elem_of_lookup in Hin as [j Hj].
    rewrite lookup_drop in Hj.
    apply lookup_zip_with_Some in Hj as (x & y & [= <- <-] & Hx & Hy).
    apply (Hlast (S i + j)%nat); [| done].
    apply lookup_lt_Some in Hy. lia.
  - intros ip Hip. rewrite foldl_insert_other; [done |].
    intros Hin. apply Hip. apply list_elem_of_fmap in Hin as ([k v] & Hk & Hin).
    simpl in Hk. subst k. apply list_elem_of_lookup in Hin as [j Hj].
    apply lookup_zip_with_Some in Hj as (x & y & [= <- <-] & Hx & Hy).
    apply list_elem_of_lookup. exists j. rewrite lookup_take_lt; [done |].
    by apply lookup_lt_Some in Hy.
Qed.

Lemma address_translation_witness :
  let public_ips := ["198.51.100.1"; "198.51.100.2"] in
  let private_ips := ["10.0.0.1"; "10.0.0.2"; "10.0.0.3"] in
  translate (AddressTranslator_init public_ips private_ips) "10.0.0.2"
  = "198.51.100.2"
  /\ forall ip,
       ip ∉ take (length public_ips) private_ips ->
       translate (AddressTranslator_init public_ips private_ips) ip = ip.
Proof.
  intros public_ips private_ips.
  apply (address_translation public_ips private_ips 1%nat).
  - reflexivity.
  - reflexivity.
  - intros j Hj. simpl in Hj. lia.
Defined.

(** * Packed columns *)

Lemma scan_indices_columns (indices : list IndexDef.t)
  (part_columns clust_columns index_columns : list string) :
  (scan_indices indices part_columns clust_columns index_columns).2
  = index_columns ++ concat (IndexDef.columns <$> indices).
Proof.
  revert part_columns clust_columns index_columns.
  induction indices as [| index indices IH]; intros p c acc; simpl.
  - by rewrite app_nil_r.
  - rewrite IH. by rewrite <- app_assoc.
Qed.

Lemma scan_indices_keys (indices : list IndexDef.t)
  (part_columns clust_columns index_columns : list string) (x : string) :
  x ∈ (scan_indices indices part_columns clust_columns index_columns).1.1
  \/ x ∈ (scan_indices indices part_columns clust_columns index_columns).1.2 ->
  x ∈ part_columns \/ x ∈ clust_columns
  \/ x ∈ concat (IndexDef.columns <$> indices).
Proof.
  revert part_columns clust_columns index_columns.
  induction indices as [| index indices IH]; intros p c acc; simpl; [tauto |].
  intros Hx. apply IH in Hx. rewrite elem_of_app.
  repeat case_bool_decide; tauto.
Qed.

(** X23.  For a table whose [CREATE TABLE] columns [_tableColumns] can
    give, [packedColumns] returns the columns of the table that are in no
    index when a packing is configured and no column otherwise.  Every
    column of the table is then either defined in the [CREATE TABLE]
    statement or packed: the statement has one definition per column that
    is not packed, the column [apdb_packed] when a packing is configured,
    and the primary key; and no column of the primary key is packed. *)
Theorem packed_columns_complement
  (self : ApdbCassandraSchema) (table_name : string) (table : TableDef.t)
  (column_defs : list string) :
  table_name <> "ApdbProtoVisits" ->
  assoc_lookup (tableSchemas self) table_name = Some table ->
  _tableColumns self table_name = Ok column_defs ->
  exists packed,
    packedColumns self table_name = Ok packed
    /\ (forall column,
          column ∈ packed
          <-> column ∈ TableDef.columns table
              /\ _packing self <> "none"
              /\ forall index, index ∈ TableDef.indices table ->
                               ColumnDef.name column ∉ IndexDef.columns index)
    /\ (length column_defs + length packed
        = length (TableDef.columns table)
          + (if bool_decide (_packing self = "none") then 1 else 2))%nat
    /\ forall column key,
         column ∈ packed ->
         key ∈ (scan_indices (TableDef.indices table) [] [] []).1.1
         \/ key ∈ (scan_indices (TableDef.indices table) [] [] []).1.2 ->
         ColumnDef.name column <> key.
Proof.
  intros Hname Htable Hdefs.
  unfold packedColumns, assoc_getitem. rewrite Htable. simpl.
  set (index_columns := concat (IndexDef.columns <$> TableDef.indices table)).
  assert (Hin : forall x,
             x ∈ index_columns
             <-> exists index, index ∈ TableDef.indices table
                               /\ x ∈ IndexDef.columns index).
  { intros x. unfold index_columns. rewrite elem_of_concat. split.
    - intros (l & Hl & Hx). apply list_elem_of_fmap in Hl as (index & -> & Hi).
      by exists index.
    - intros (index & Hi & Hx). exists (IndexDef.columns index). split; [| done].
      apply list_elem_of_fmap. by exists index. }
  unfold _tableColumns, assoc_getitem in Hdefs.
  rewrite bool_decide_eq_false_2 in Hdefs by done. rewrite Htable in Hdefs.
  simpl in Hdefs.
  pose proof (scan_indices_columns (TableDef.indices table) [] [] []) as Hscan.
  pose proof (scan_indices_keys (TableDef.indices table) [] [] []) as Hkeys.
  destruct (scan_indices (TableDef.indices table) [] [] [])
    as [[part_columns clust_columns] scanned].
  simpl in Hscan, Hkeys. fold index_columns in Hscan, Hkeys. subst scanned.
  do 2 (case_bool_decide; [discriminate |]).
  destruct (res_mapM _ _) as [defs |] eqn:Hmap; [| discriminate].
  simpl in Hdefs. injection Hdefs as <-. apply res_mapM_length in Hmap.
  case_bool_decide as Hpack; simpl in Hmap |- *.
  - exists []. split; [done |]. split; [| split].
    + intros column. split; [by intros ?%elem_of_nil | by intros (_ & ? & _)].
    + rewrite length_app, Hmap. simpl.
      rewrite forallb_filter_id; [lia |].
      by apply forallb_forall.
    + by intros column key ?%elem_of_nil.
  - eexists. split; [reflexivity |]. split; [| split].
    + intros column. rewrite elem_of_List_filter, negb_true_iff, bool_decide_eq_false.
      rewrite Hin. split.
      * intros [Hc Hno]. split; [done |]. split; [done |].
        intros index Hi Hx. apply Hno. by exists index.
      * intros (Hc & _ & Hno). split; [done |]. intros (index & Hi & Hx).
        by apply (Hno index).
    + rewrite !length_app, Hmap. simpl.
      pose proof (List.filter_length
                    (fun column : ColumnDef.t =>
                       bool_decide (ColumnDef.name column ∈ index_columns))
                    (TableDef.columns table)) as Hlen.
      erewrite (List.filter_ext _ (fun column : ColumnDef.t =>
                                bool_decide (ColumnDef.name column ∈ index_columns)));
        [lia |].
      intros column. simpl. by rewrite negb_involutive.
    + intros column key Hc Hkey Heq.
      apply elem_of_List_filter in Hc as [_ Hno].
      apply negb_true_iff, bool_decide_eq_false in Hno. apply Hno.
      rewrite Heq. destruct (Hkeys key Hkey) as [Hk | [Hk | Hk]]; try done;
        by apply elem_of_nil in Hk.
Qed.

Lemma packed_columns_complement_witness :
  let self := with_packing (_schema (example_apdb default_config)) "cbor" in
  let table := example_table DiaObject in
  exists column_defs packed,
    _tableColumns self "DiaObject" = Ok column_defs
    /\ packedColumns self "DiaObject" = Ok packed
    /\ (forall column,
          column ∈ packed
          <-> column ∈ TableDef.columns table
              /\ _packing self <> "none"
              /\ forall index, index ∈ TableDef.indices table ->
                               ColumnDef.name column ∉ IndexDef.columns index)
    /\ (length column_defs + length packed
        = length (TableDef.columns table)
          + (if bool_decide (_packing self = "none") then 1 else 2))%nat
    /\ forall column key,
         column ∈ packed ->
         key ∈ (scan_indices (TableDef.indices table) [] [] []).1.1
         \/ key ∈ (scan_indices (TableDef.indices table) [] [] []).1.2 ->
         ColumnDef.name column <> key.
Proof.
  intros self table. eexists.
  assert (Hdefs : _tableColumns self "DiaObject"
                  = Ok (default [] (match _tableColumns self "DiaObject" with
                                    | Ok column_defs => Some column_defs
                                    | Raise _ => None
                                    end))) by (vm_compute; reflexivity).
  destruct (packed_columns_complement self "DiaObject" table _
              ltac:(discriminate) ltac:(reflexivity) Hdefs)
    as (packed & Hp & Hrest).
  exists packed. split; [exact Hdefs |]. split; [exact Hp | exact Hrest].
Defined.

(** * Splitting a sequence *)

Lemma split_enough_fuel {A} (fuel : nat) (seq : list A) (nItems : Z) :
  0 < nItems -> (length seq <= fuel)%nat ->
  exists chunks,
    _split fuel seq nItems = Some chunks
    /\ concat chunks = seq
    /\ Forall (fun chunk => (0 < length chunk)%nat
                            /\ Z.of_nat (length chunk) <= nItems) chunks
    /\ forall i chunk,
         chunks !! i = Some chunk -> (S i < length chunks)%nat ->
         Z.of_nat (length chunk) = nItems.
Proof.
  intros Hn. revert seq. induction fuel as [| fuel IH]; intros seq Hlen.
  - destruct seq; [| simpl in Hlen; lia]. exists []. simpl.
    repeat split; [constructor | intros i ? Hi; by rewrite lookup_nil in Hi].
  - destruct seq as [| x seq]; simpl.
    + exists []. repeat split; [constructor | intros i ? Hi; by rewrite lookup_nil in Hi].
    + unfold py_slice_to, py_del_to, slice_stop.
      destruct (Z.leb_spec 0 nItems) as [_ | ?]; [| lia].
      set (k := Z.to_nat nItems). assert (Hk : (0 < k)%nat) by lia.
      set (whole := x :: seq) in *.
      destruct (IH (drop k whole)) as (chunks & -> & Hcat & Hall & Hfull).
      { rewrite length_drop. simpl in Hlen. unfold whole. simpl. lia. }
      exists (take k whole :: chunks). simpl.
      split; [done |]. split; [by rewrite Hcat, take_drop |]. split.
      * constructor; [| done]. rewrite length_take. unfold whole. simpl. lia.
      * intros [| i] chunk Hi Hlast; simpl in Hi, Hlast.
        -- injection Hi as <-. rewrite length_take.
           assert (Hrest : drop k whole <> []).
           { intros Hnil. rewrite Hnil in Hcat. destruct chunks; [simpl in Hlast; lia |].
             apply Forall_cons in Hall as [[Hpos _] _].
             simpl in Hcat. apply app_eq_nil in Hcat as [-> _]. simpl in Hpos. lia. }
           assert (k < length whole)%nat.
           { destruct (decide (k < length whole)%nat); [done |].
             destruct Hrest. apply drop_ge. lia. }
           lia.
        -- apply (Hfull i chunk Hi). lia.
Qed.

Lemma split_zero_never_ends {A} (fuel : nat) (seq : list A) :
  seq <> [] -> _split fuel seq 0 = None.
Proof.
  intros Hne. induction fuel as [| fuel IH]; destruct seq; try done.
  simpl. unfold py_del_to, slice_stop. simpl. rewrite ?drop_0. by rewrite IH.
Qed.

(** X24.  For a positive [nItems], [_split] comes to its end within as many
    rounds as the sequence has elements, and the sequences it yields,
    joined in order, give back the sequence; none of them is empty, none
    has more than [nItems] elements, and each but the last has exactly
    [nItems].  With [nItems = 0] the loop over a sequence that is not empty
    never comes to an end. *)
Theorem split_covers_sequence {A} (seq : list A) (nItems : Z) :
  0 < nItems ->
  (exists chunks,
     _split (length seq) seq nItems = Some chunks
     /\ concat chunks = seq
     /\ Forall (fun chunk => (0 < length chunk)%nat
                             /\ Z.of_nat (length chunk) <= nItems) chunks
     /\ forall i chunk,
          chunks !! i = Some chunk -> (S i < length chunks)%nat ->
          Z.of_nat (length chunk) = nItems)
  /\ forall fuel, seq <> [] -> _split fuel seq 0 = None.
Proof.
  intros Hn. split.
  - by apply split_enough_fuel.
  - intros fuel Hne. by apply split_zero_never_ends.
Qed.

Lemma split_covers_sequence_witness :
  let seq := [1; 2; 3; 4; 5] in
  (exists chunks,
     _split (length seq) seq 2 = Some chunks
     /\ concat chunks = seq
     /\ Forall (fun chunk => (0 < length chunk)%nat
                             /\ Z.of_nat (length chunk) <= 2) chunks
     /\ forall i chunk,
          chunks !! i = Some chunk -> (S i < length chunks)%nat ->
          Z.of_nat (length chunk) = 2)
  /\ forall fuel, seq <> [] -> _split fuel seq 0 = None.
Proof.
  intros seq. apply (split_covers_sequence seq 2). lia.
Defined.

(** * A catalog that can be stored *)

Section StoreSucceeds.

Context `{External}.

Lemma record_values_ok (tdef : TableDef.t) (frame : DataFrame)
  (extra_columns : list (string * Value)) (rec : gmap string Value) :
  (forall c, c ∈ catalog_columns tdef frame extra_columns ->
             exists v, sent_value tdef c (cell rec c) = Ok v) ->
  exists values,
    record_values (column_map_of tdef)
      (List.filter (fun column => negb (bool_decide (column ∈ extra_columns.*1)))
         (columns frame))
      extra_columns rec = Ok values.
Proof.
  intros Hcells. unfold record_values.
  destruct (stored_fields tdef frame extra_columns) as [_ Hknown].
  fold (column_map_of tdef) in Hknown. rewrite Hknown.
  destruct (res_mapM_ok
              (fun field => sent_value tdef field (cell rec field))
              (catalog_columns tdef frame extra_columns)) as [vs Hvs].
  { apply Forall_forall. intros c Hc. by apply Hcells. }
  unfold sent_value, column_def in Hvs. rewrite Hvs. simpl. by eexists.
Qed.

(** X25.  [_storeObjectsPandas] returns, having sent the [Prepare] (with
    prepared statements) and the batch, when the table is a table of the
    schema, the inserted columns include every partitioning and clustering
    column of the table, every cell of a stored [DATETIME] column can be
    converted to milliseconds, and the cluster accepts the statements. *)
Theorem store_of_complete_catalog_succeeds
  (self : ApdbCassandra) (objects : Ref) (table_name : ApdbTables)
  (extra_columns : list (string * Value)) (time_part : option Z) (s : State)
  (frame : DataFrame) (tdef : TableDef.t) (required : list string) :
  heap s !! objects = Some frame ->
  tableDef self table_name = Some tdef ->
  required_columns_of self table_name = Ok required ->
  (forall c, c ∈ required -> c ∈ insert_columns tdef frame extra_columns) ->
  (forall rec c,
     rec ∈ rows frame -> c ∈ catalog_columns tdef frame extra_columns ->
     exists v, sent_value tdef c (cell rec c) = Ok v) ->
  (forall st, cluster_execute st = None) ->
  exists inserts,
    _storeObjectsPandas self objects table_name extra_columns time_part s
    = (Ok tt,
       {| heap := heap s;
          sent := sent s
                  ++ (if prepared_statements (config self)
                      then [Prepare
                              {| ins_keyspace := keyspace (config self);
                                 ins_table := physical_table self table_name time_part;
                                 ins_qfields :=
                                   quoteId <$> insert_columns tdef frame extra_columns;
                                 ins_holders :=
                                   replicate
                                     (length (insert_columns tdef frame extra_columns))
                                     "?" |}]
                      else [])
                  ++ [BatchStatement inserts];
          pending := pending s |})
    /\ length inserts = length (rows frame).
Proof.
  intros Hdf Htdef Hreq Hkeys Hcells Hcluster.
  destruct s as [hp st pd]. simpl in Hdf. simpl heap. simpl sent. simpl pending.
  unfold _storeObjectsPandas. unfold py_bind at 1. unfold df_deref at 1.
  simpl heap. rewrite Hdf.
  unfold py_bind at 1. unfold py_lift at 1.
  rewrite (tableDef_getColumnMap self table_name tdef Htdef).
  destruct (stored_fields tdef frame extra_columns) as [Hfields _].
  rewrite Hfields. fold (insert_columns tdef frame extra_columns).
  unfold py_bind at 1. unfold py_lift at 1. rewrite Hreq.
  destruct (List.filter _ required) as [| c missing] eqn:Hmissing.
  2: { assert (Hc : In c (c :: missing)) by (by left).
       rewrite <- Hmissing in Hc. apply List.filter_In in Hc as [Hc Hn].
       apply negb_true_iff, bool_decide_eq_false in Hn.
       destruct Hn. apply Hkeys. by apply list_elem_of_In. }
  fold (physical_table self table_name time_part).
  rewrite (length_fmap quoteId). fold (column_map_of tdef).
  unfold py_bind at 1.
  destruct (prepared_statements (config self)).
  - unfold py_bind at 1. unfold session_execute, session_execute_all.
    simpl first_error. rewrite Hcluster.
    unfold py_ret at 1. unfold py_bind at 1. unfold py_lift at 1.
    match goal with
    | |- context [res_mapM ?f (rows frame)] =>
        destruct (res_mapM_ok f (rows frame)) as [inserts Hi]
    end.
    { apply Forall_forall. intros rec Hrec.
      destruct (record_values_ok tdef frame extra_columns rec) as [values Hv].
      { intros c Hc. by apply Hcells. }
      rewrite Hv. simpl. by eexists. }
    rewrite Hi. simpl first_error. rewrite Hcluster. simpl.
    exists inserts. rewrite <- app_assoc. split; [done |].
    by apply res_mapM_length in Hi.
  - unfold py_ret at 1. unfold py_bind at 1. unfold py_lift at 1.
    match goal with
    | |- context [res_mapM ?f (rows frame)] =>
        destruct (res_mapM_ok f (rows frame)) as [inserts Hi]
    end.
    { apply Forall_forall. intros rec Hrec.
      destruct (record_values_ok tdef frame extra_columns rec) as [values Hv].
      { intros c Hc. by apply Hcells. }
      rewrite Hv. simpl. by eexists. }
    rewrite Hi.
    unfold session_execute, session_execute_all. simpl first_error.
    rewrite Hcluster. simpl.
    exists inserts. split; [done |]. by apply res_mapM_length in Hi.
Qed.

End StoreSucceeds.

Lemma store_of_complete_catalog_succeeds_witness :
  let self := example_apdb default_config in
  let s := initial_state [object_catalog_with_part] in
  let extra_columns := [("lastNonForcedSource", VDatetime 1609459200000000)] in
  exists query inserts,
    (_storeObjectsPandas (H := example_cluster ∅) self 0%nat DiaObjectLast
       extra_columns None s).1 = Ok tt
    /\ newly_sent (_storeObjectsPandas (H := example_cluster ∅) self 0%nat
                     DiaObjectLast extra_columns None) s
       = [Prepare query; BatchStatement inserts]
    /\ length inserts = 2%nat.
Proof.
  intros self s extra_columns.
  destruct (store_of_complete_catalog_succeeds (H := example_cluster ∅) self
              0%nat DiaObjectLast extra_columns None s object_catalog_with_part
              (example_table DiaObjectLast) ["apdb_part"; "diaObjectId"]
              ltac:(reflexivity) ltac:(reflexivity) ltac:(reflexivity))
    as (inserts & Hrun & Hlen).
  - apply Forall_forall. apply (bool_decide_unpack _). vm_compute. reflexivity.
  - intros rec c Hrec Hc. revert c Hc. apply Forall_forall.
    revert rec Hrec. apply Forall_forall.
    vm_compute rows. vm_compute catalog_columns.
    repeat (apply List.Forall_cons || apply List.Forall_nil);
      eexists; vm_compute; reflexivity.
  - reflexivity.
  - eexists _, inserts. unfold newly_sent. rewrite Hrun. simpl.
    split; [done |]. split; [reflexivity |]. exact Hlen.
Defined.
